(** * Recipe AI: the workflow orchestration engine

    A shallow embedding of the LangGraph workflow of the repository
    ([models.py], [nodes.py], [src/services/*.py]) together with the
    properties that its specification states about it.

    Conventions of the embedding.

    - A Python [str] is a Rocq [string] holding its UTF-8 encoding; Python's
      [len] on a string counts code points, which is what
      [PyStr.char_count] computes on the encoding.
    - A value whose shape is decided at run time (anything produced by
      [json.loads], every [Dict[str, Any]] field of the state) is a [pyval].
      A Python dict is an association list in insertion order.
    - A Python exception is the [Raises] outcome; [try ... except] is
      [try_except].  The pipeline state is a Python dict mutated in place, so
      an [except] clause sees the state as it was when the exception was
      raised.  In every node of this program the assignments of a [try] body
      come after its last operation that can raise, so the state seen by a
      handler is the state on entry of the [try]; each node below passes that
      state to its handler.
    - No node mutates a nested object that is reachable from two fields of
      the state without re-assigning both fields, so two fields holding the
      same Python object are modelled as two fields holding equal values.
    - The model-call and search providers, [json.loads] and [str()] are
      fields of an environment [World]; every theorem holds for all of them.
    - Each node records a ghost [event] when it is entered and when it calls a
      provider, so that "a stage is executed" and "a call is attempted" are
      statements about the trace of a run. *)

From Stdlib Require Import String Ascii List ZArith QArith Bool Lia.
Import ListNotations.
Local Open Scope string_scope.
Local Open Scope list_scope.

(** String concatenation, as in an f-string. *)
Infix "+++" := String.append (right associativity, at level 60).

(** ** Python strings *)

Module PyStr.

(** The ASCII characters for which [str.isspace] holds.  The non-ASCII
    white space of Unicode is not recognised by this model. *)
Definition is_space (c : ascii) : bool :=
  let n := nat_of_ascii c in
  ((9 <=? n) && (n <=? 13) || (28 <=? n) && (n <=? 32))%nat.

Fixpoint lstrip (s : string) : string :=
  match s with
  | EmptyString => EmptyString
  | String c r => if is_space c then lstrip r else s
  end.

Fixpoint rev_onto (s acc : string) : string :=
  match s with
  | EmptyString => acc
  | String c r => rev_onto r (String c acc)
  end.

Definition reverse (s : string) : string := rev_onto s EmptyString.

Definition rstrip (s : string) : string := reverse (lstrip (reverse s)).

(** [s.strip()] *)
Definition strip (s : string) : string := rstrip (lstrip s).

Definition nonempty (s : string) : bool :=
  match s with EmptyString => false | String _ _ => true end.

(** [s.split(sep)] for a one-character separator: never the empty list. *)
Fixpoint split (sep : ascii) (s : string) : list string :=
  match s with
  | EmptyString => [EmptyString]
  | String c r =>
      if Ascii.eqb c sep then EmptyString :: split sep r
      else match split sep r with
           | [] => [String c EmptyString]
           | h :: t => String c h :: t
           end
  end.

Definition newline : ascii := ascii_of_nat 10.

(** [s.lower()] on the ASCII letters; other bytes are kept. *)
Definition lower_char (c : ascii) : ascii :=
  let n := nat_of_ascii c in
  if ((65 <=? n) && (n <=? 90))%nat then ascii_of_nat (n + 32) else c.

Fixpoint lower (s : string) : string :=
  match s with
  | EmptyString => EmptyString
  | String c r => String (lower_char c) (lower r)
  end.

(** [needle in hay] for two strings. *)
Fixpoint contains (needle hay : string) : bool :=
  String.prefix needle hay
  || match hay with
     | EmptyString => false
     | String _ r => contains needle r
     end.

(** [sep.join(parts)] *)
Definition join (sep : string) (parts : list string) : string :=
  String.concat sep parts.

(** A byte of the form [10xxxxxx] continues a code point. *)
Definition is_continuation (c : ascii) : bool :=
  let n := nat_of_ascii c in ((128 <=? n) && (n <=? 191))%nat.

(** [len(s)]: the number of code points of [s]. *)
Fixpoint char_count (s : string) : nat :=
  match s with
  | EmptyString => 0
  | String c r => (if is_continuation c then 0 else 1) + char_count r
  end.

(** Iterating over a string yields its code points one by one. *)
Fixpoint chars (s : string) : list string :=
  match s with
  | EmptyString => []
  | String c r =>
      match chars r with
      | h :: t =>
          match r with
          | String c' _ =>
              if is_continuation c' then String c h :: t
              else String c EmptyString :: h :: t
          | EmptyString => [String c EmptyString]
          end
      | [] => [String c EmptyString]
      end
  end.

End PyStr.

(** ** Python values *)

Set Warnings "-register-all".

Inductive pyval : Type :=
| PNone
| PBool (b : bool)
| PInt (n : Z)
| PFloat (q : Q)
| PStr (s : string)
| PList (l : list pyval)
| PDict (d : list (string * pyval)).

Definition dict : Type := list (string * pyval).

Fixpoint dict_get (d : dict) (k : string) : option pyval :=
  match d with
  | [] => None
  | (k', v) :: r => if String.eqb k' k then Some v else dict_get r k
  end.

(** [d.get(k, default)] *)
Definition dict_get_or (d : dict) (k : string) (default : pyval) : pyval :=
  match dict_get d k with Some x => x | None => default end.

(** [d[k] = v]: replaces the binding in place or appends a new one. *)
Fixpoint dict_set (d : dict) (k : string) (v : pyval) : dict :=
  match d with
  | [] => [(k, v)]
  | (k', v') :: r =>
      if String.eqb k' k then (k, v) :: r else (k', v') :: dict_set r k v
  end.

(** A Python exception, kept as the text [str(e)] gives for it. *)
Definition exn : Type := string.

Inductive outcome (A : Type) : Type :=
| Returns (a : A)
| Raises (e : exn).
Arguments Returns {A} a.
Arguments Raises {A} e.

Definition obind {A B : Type} (o : outcome A) (f : A -> outcome B) : outcome B :=
  match o with
  | Returns a => f a
  | Raises e => Raises e
  end.

Module Py.

(** Truth value testing, [bool(v)]. *)
Definition truthy (v : pyval) : bool :=
  match v with
  | PNone => false
  | PBool b => b
  | PInt n => negb (n =? 0)%Z
  | PFloat q => negb (Qeq_bool q 0)
  | PStr s => PyStr.nonempty s
  | PList l => match l with [] => false | _ :: _ => true end
  | PDict d => match d with [] => false | _ :: _ => true end
  end.

(** [v.get(k, default)]: only a dict has the method. *)
Definition get (v : pyval) (k : string) (default : pyval) : outcome pyval :=
  match v with
  | PDict d => Returns (dict_get_or d k default)
  | _ => Raises "AttributeError: object has no attribute 'get'"
  end.

(** [v[k]] for a string key. *)
Definition getitem (v : pyval) (k : string) : outcome pyval :=
  match v with
  | PDict d =>
      match dict_get d k with
      | Some x => Returns x
      | None => Raises ("KeyError: " +++ k)
      end
  | PList _ => Raises "TypeError: list indices must be integers or slices, not str"
  | PStr _ => Raises "TypeError: string indices must be integers, not 'str'"
  | _ => Raises "TypeError: object is not subscriptable"
  end.

(** [l[0]] *)
Definition first (l : list pyval) : outcome pyval :=
  match l with
  | x :: _ => Returns x
  | [] => Raises "IndexError: list index out of range"
  end.

Definition is_str_eq (k : string) (v : pyval) : bool :=
  match v with PStr s => String.eqb s k | _ => false end.

(** [k in v] for a string [k]. *)
Definition contains (k : string) (v : pyval) : outcome bool :=
  match v with
  | PDict d => Returns (match dict_get d k with Some _ => true | None => false end)
  | PList l => Returns (existsb (is_str_eq k) l)
  | PStr s => Returns (PyStr.contains k s)
  | _ => Raises "TypeError: argument is not iterable"
  end.

(** [len(v)] *)
Definition len (v : pyval) : outcome nat :=
  match v with
  | PStr s => Returns (PyStr.char_count s)
  | PList l => Returns (List.length l)
  | PDict d => Returns (List.length d)
  | _ => Raises "TypeError: object has no len()"
  end.

(** The items that [for x in v] visits. *)
Definition iter (v : pyval) : outcome (list pyval) :=
  match v with
  | PList l => Returns l
  | PStr s => Returns (map PStr (PyStr.chars s))
  | PDict d => Returns (map (fun kv => PStr (fst kv)) d)
  | _ => Raises "TypeError: object is not iterable"
  end.

Fixpoint all_str (l : list pyval) : outcome (list string) :=
  match l with
  | [] => Returns []
  | PStr s :: r => obind (all_str r) (fun t => Returns (s :: t))
  | _ :: _ => Raises "TypeError: sequence item: expected str instance"
  end.

(** [sep.join(v)] *)
Definition join (sep : string) (v : pyval) : outcome string :=
  obind (iter v) (fun items =>
  obind (all_str items) (fun parts =>
  Returns (PyStr.join sep parts))).

Definition as_number (v : pyval) : option (Z + Q) :=
  match v with
  | PBool b => Some (inl (if b then 1 else 0)%Z)
  | PInt n => Some (inl n)
  | PFloat q => Some (inr q)
  | _ => None
  end.

(** [a + b].  Floats are rationals here: rounding is not modelled. *)
Definition add (a b : pyval) : outcome pyval :=
  match a, b with
  | PStr s, PStr t => Returns (PStr (s +++ t))
  | PList l, PList m => Returns (PList (l ++ m))
  | _, _ =>
      match as_number a, as_number b with
      | Some (inl x), Some (inl y) => Returns (PInt (x + y))
      | Some (inl x), Some (inr y) => Returns (PFloat (inject_Z x + y))
      | Some (inr x), Some (inl y) => Returns (PFloat (x + inject_Z y))
      | Some (inr x), Some (inr y) => Returns (PFloat (x + y))
      | _, _ => Raises "TypeError: unsupported operand type(s) for +"
      end
  end.

Definition of_strings (l : list string) : pyval := PList (map PStr l).

End Py.

(** ** The pipeline state ([models.py]) *)

(** One record kept by the search stage: [{title, content, url, query}]. *)
Record search_result : Type := {
  sr_title : string;
  sr_content : string;
  sr_url : string;
  sr_query : string
}.

(** [RecipeState].  The fields that hold model output are [pyval]s: the
    [TypedDict] annotations are not checked at run time. *)
Record RecipeState : Type := {
  ingredients : list string;
  appliance : string;
  available_appliances : list string;
  dietary_restrictions : list string;
  cuisine_preference : string;
  skill_level : string;
  parsed_ingredients : list pyval;
  recipe_suggestions : list pyval;
  selected_recipe : pyval;
  alternative_recipes : list pyval;
  user_selected_alternative : option string;
  nutrition_info : pyval;
  shopping_list : pyval;
  cooking_tips : list string;
  final_recipe : pyval;
  online_search_results : list search_result;
  search_enhanced : bool;
  search_enhancement_complete : bool;
  verification_result : option pyval;
  processing_step : string;
  error_message : string
}.

Definition set_parsed_ingredients (v : list pyval) (s : RecipeState) : RecipeState :=
  {| ingredients := ingredients s;
     appliance := appliance s;
     available_appliances := available_appliances s;
     dietary_restrictions := dietary_restrictions s;
     cuisine_preference := cuisine_preference s;
     skill_level := skill_level s;
     parsed_ingredients := v;
     recipe_suggestions := recipe_suggestions s;
     selected_recipe := selected_recipe s;
     alternative_recipes := alternative_recipes s;
     user_selected_alternative := user_selected_alternative s;
     nutrition_info := nutrition_info s;
     shopping_list := shopping_list s;
     cooking_tips := cooking_tips s;
     final_recipe := final_recipe s;
     online_search_results := online_search_results s;
     search_enhanced := search_enhanced s;
     search_enhancement_complete := search_enhancement_complete s;
     verification_result := verification_result s;
     processing_step := processing_step s;
     error_message := error_message s |}.

Definition set_selected_recipe (v : pyval) (s : RecipeState) : RecipeState :=
  {| ingredients := ingredients s;
     appliance := appliance s;
     available_appliances := available_appliances s;
     dietary_restrictions := dietary_restrictions s;
     cuisine_preference := cuisine_preference s;
     skill_level := skill_level s;
     parsed_ingredients := parsed_ingredients s;
     recipe_suggestions := recipe_suggestions s;
     selected_recipe := v;
     alternative_recipes := alternative_recipes s;
     user_selected_alternative := user_selected_alternative s;
     nutrition_info := nutrition_info s;
     shopping_list := shopping_list s;
     cooking_tips := cooking_tips s;
     final_recipe := final_recipe s;
     online_search_results := online_search_results s;
     search_enhanced := search_enhanced s;
     search_enhancement_complete := search_enhancement_complete s;
     verification_result := verification_result s;
     processing_step := processing_step s;
     error_message := error_message s |}.

Definition set_nutrition_info (v : pyval) (s : RecipeState) : RecipeState :=
  {| ingredients := ingredients s;
     appliance := appliance s;
     available_appliances := available_appliances s;
     dietary_restrictions := dietary_restrictions s;
     cuisine_preference := cuisine_preference s;
     skill_level := skill_level s;
     parsed_ingredients := parsed_ingredients s;
     recipe_suggestions := recipe_suggestions s;
     selected_recipe := selected_recipe s;
     alternative_recipes := alternative_recipes s;
     user_selected_alternative := user_selected_alternative s;
     nutrition_info := v;
     shopping_list := shopping_list s;
     cooking_tips := cooking_tips s;
     final_recipe := final_recipe s;
     online_search_results := online_search_results s;
     search_enhanced := search_enhanced s;
     search_enhancement_complete := search_enhancement_complete s;
     verification_result := verification_result s;
     processing_step := processing_step s;
     error_message := error_message s |}.

Definition set_shopping_list (v : pyval) (s : RecipeState) : RecipeState :=
  {| ingredients := ingredients s;
     appliance := appliance s;
     available_appliances := available_appliances s;
     dietary_restrictions := dietary_restrictions s;
     cuisine_preference := cuisine_preference s;
     skill_level := skill_level s;
     parsed_ingredients := parsed_ingredients s;
     recipe_suggestions := recipe_suggestions s;
     selected_recipe := selected_recipe s;
     alternative_recipes := alternative_recipes s;
     user_selected_alternative := user_selected_alternative s;
     nutrition_info := nutrition_info s;
     shopping_list := v;
     cooking_tips := cooking_tips s;
     final_recipe := final_recipe s;
     online_search_results := online_search_results s;
     search_enhanced := search_enhanced s;
     search_enhancement_complete := search_enhancement_complete s;
     verification_result := verification_result s;
     processing_step := processing_step s;
     error_message := error_message s |}.

Definition set_cooking_tips (v : list string) (s : RecipeState) : RecipeState :=
  {| ingredients := ingredients s;
     appliance := appliance s;
     available_appliances := available_appliances s;
     dietary_restrictions := dietary_restrictions s;
     cuisine_preference := cuisine_preference s;
     skill_level := skill_level s;
     parsed_ingredients := parsed_ingredients s;
     recipe_suggestions := recipe_suggestions s;
     selected_recipe := selected_recipe s;
     alternative_recipes := alternative_recipes s;
     user_selected_alternative := user_selected_alternative s;
     nutrition_info := nutrition_info s;
     shopping_list := shopping_list s;
     cooking_tips := v;
     final_recipe := final_recipe s;
     online_search_results := online_search_results s;
     search_enhanced := search_enhanced s;
     search_enhancement_complete := search_enhancement_complete s;
     verification_result := verification_result s;
     processing_step := processing_step s;
     error_message := error_message s |}.

Definition set_final_recipe (v : pyval) (s : RecipeState) : RecipeState :=
  {| ingredients := ingredients s;
     appliance := appliance s;
     available_appliances := available_appliances s;
     dietary_restrictions := dietary_restrictions s;
     cuisine_preference := cuisine_preference s;
     skill_level := skill_level s;
     parsed_ingredients := parsed_ingredients s;
     recipe_suggestions := recipe_suggestions s;
     selected_recipe := selected_recipe s;
     alternative_recipes := alternative_recipes s;
     user_selected_alternative := user_selected_alternative s;
     nutrition_info := nutrition_info s;
     shopping_list := shopping_list s;
     cooking_tips := cooking_tips s;
     final_recipe := v;
     online_search_results := online_search_results s;
     search_enhanced := search_enhanced s;
     search_enhancement_complete := search_enhancement_complete s;
     verification_result := verification_result s;
     processing_step := processing_step s;
     error_message := error_message s |}.

Definition set_online_search_results (v : list search_result) (s : RecipeState) : RecipeState :=
  {| ingredients := ingredients s;
     appliance := appliance s;
     available_appliances := available_appliances s;
     dietary_restrictions := dietary_restrictions s;
     cuisine_preference := cuisine_preference s;
     skill_level := skill_level s;
     parsed_ingredients := parsed_ingredients s;
     recipe_suggestions := recipe_suggestions s;
     selected_recipe := selected_recipe s;
     alternative_recipes := alternative_recipes s;
     user_selected_alternative := user_selected_alternative s;
     nutrition_info := nutrition_info s;
     shopping_list := shopping_list s;
     cooking_tips := cooking_tips s;
     final_recipe := final_recipe s;
     online_search_results := v;
     search_enhanced := search_enhanced s;
     search_enhancement_complete := search_enhancement_complete s;
     verification_result := verification_result s;
     processing_step := processing_step s;
     error_message := error_message s |}.

Definition set_search_enhanced (v : bool) (s : RecipeState) : RecipeState :=
  {| ingredients := ingredients s;
     appliance := appliance s;
     available_appliances := available_appliances s;
     dietary_restrictions := dietary_restrictions s;
     cuisine_preference := cuisine_preference s;
     skill_level := skill_level s;
     parsed_ingredients := parsed_ingredients s;
     recipe_suggestions := recipe_suggestions s;
     selected_recipe := selected_recipe s;
     alternative_recipes := alternative_recipes s;
     user_selected_alternative := user_selected_alternative s;
     nutrition_info := nutrition_info s;
     shopping_list := shopping_list s;
     cooking_tips := cooking_tips s;
     final_recipe := final_recipe s;
     online_search_results := online_search_results s;
     search_enhanced := v;
     search_enhancement_complete := search_enhancement_complete s;
     verification_result := verification_result s;
     processing_step := processing_step s;
     error_message := error_message s |}.

Definition set_search_enhancement_complete (v : bool) (s : RecipeState) : RecipeState :=
  {| ingredients := ingredients s;
     appliance := appliance s;
     available_appliances := available_appliances s;
     dietary_restrictions := dietary_restrictions s;
     cuisine_preference := cuisine_preference s;
     skill_level := skill_level s;
     parsed_ingredients := parsed_ingredients s;
     recipe_suggestions := recipe_suggestions s;
     selected_recipe := selected_recipe s;
     alternative_recipes := alternative_recipes s;
     user_selected_alternative := user_selected_alternative s;
     nutrition_info := nutrition_info s;
     shopping_list := shopping_list s;
     cooking_tips := cooking_tips s;
     final_recipe := final_recipe s;
     online_search_results := online_search_results s;
     search_enhanced := search_enhanced s;
     search_enhancement_complete := v;
     verification_result := verification_result s;
     processing_step := processing_step s;
     error_message := error_message s |}.

Definition set_processing_step (v : string) (s : RecipeState) : RecipeState :=
  {| ingredients := ingredients s;
     appliance := appliance s;
     available_appliances := available_appliances s;
     dietary_restrictions := dietary_restrictions s;
     cuisine_preference := cuisine_preference s;
     skill_level := skill_level s;
     parsed_ingredients := parsed_ingredients s;
     recipe_suggestions := recipe_suggestions s;
     selected_recipe := selected_recipe s;
     alternative_recipes := alternative_recipes s;
     user_selected_alternative := user_selected_alternative s;
     nutrition_info := nutrition_info s;
     shopping_list := shopping_list s;
     cooking_tips := cooking_tips s;
     final_recipe := final_recipe s;
     online_search_results := online_search_results s;
     search_enhanced := search_enhanced s;
     search_enhancement_complete := search_enhancement_complete s;
     verification_result := verification_result s;
     processing_step := v;
     error_message := error_message s |}.

Definition set_error_message (v : string) (s : RecipeState) : RecipeState :=
  {| ingredients := ingredients s;
     appliance := appliance s;
     available_appliances := available_appliances s;
     dietary_restrictions := dietary_restrictions s;
     cuisine_preference := cuisine_preference s;
     skill_level := skill_level s;
     parsed_ingredients := parsed_ingredients s;
     recipe_suggestions := recipe_suggestions s;
     selected_recipe := selected_recipe s;
     alternative_recipes := alternative_recipes s;
     user_selected_alternative := user_selected_alternative s;
     nutrition_info := nutrition_info s;
     shopping_list := shopping_list s;
     cooking_tips := cooking_tips s;
     final_recipe := final_recipe s;
     online_search_results := online_search_results s;
     search_enhanced := search_enhanced s;
     search_enhancement_complete := search_enhancement_complete s;
     verification_result := verification_result s;
     processing_step := processing_step s;
     error_message := v |}.

(** ** The environment of a run *)

(** One result of the search provider (the [tavily] library): a dict of
    which the nodes read the keys [title], [content] and [url], each of
    which may be missing. *)
Record tavily_hit : Type := {
  hit_title : option string;
  hit_content : option string;
  hit_url : option string
}.

(** The response of [TavilyClient.search]: [None] when the response is empty
    or has no ["results"] key. *)
Definition tavily_response : Type := option (list tavily_hit).

(** The providers and the two functions of the Python runtime that the
    nodes call.  A model call is a function of the values that the node
    substitutes in its prompt template. *)
Record World : Type := {
  (** [json.loads]; [None] is [JSONDecodeError] *)
  json_loads : string -> option pyval;
  (** [str(v)], as an f-string formats a value *)
  py_str : pyval -> string;
  (** [tavily_client.search(query, max_results=n)] *)
  tavily_search : string -> Z -> outcome tavily_response;
  (** [LLMService.client.invoke] on the combined-recipe prompt: ingredients,
      appliances, skill level, dietary restrictions, cuisine preference *)
  llm_combined :
    list string -> list string -> string -> list string -> string ->
    outcome string;
  (** the tips chain: recipe, appliance line, skill level *)
  llm_tips : pyval -> string -> string -> outcome string;
  (** the compilation chain [prompt | creative_llm | parser] followed by
      [.dict()]: selected recipe, ingredients, nutrition, tips, appliance
      line *)
  llm_compile :
    pyval -> list pyval -> pyval -> list string -> string -> outcome dict;
  (** the enhancement call: search content, recipe name, ingredients,
      appliances, current tips *)
  llm_enhance : string -> pyval -> string -> string -> string -> outcome string;
  (** the completion call: recipe name, ingredients, current instructions *)
  llm_completion : pyval -> string -> pyval -> outcome string
}.

(** The credentials given to [WorkflowService] and [RecipeNodes]. *)
Record Config : Type := {
  tavily_api_key : option string
}.

(** [self.tavily_enabled = tavily_api_key is not None] *)
Definition tavily_enabled (cfg : Config) : bool :=
  match tavily_api_key cfg with Some _ => true | None => false end.

(** [self.tavily_client = TavilyClient(...) if tavily_api_key else None],
    tested with [if not self.tavily_client]. *)
Definition tavily_client (cfg : Config) : bool :=
  match tavily_api_key cfg with Some k => PyStr.nonempty k | None => false end.

(** ** Traces and the execution monad *)

Inductive stage : Type :=
| St_combined_recipe_generation
| St_online_search
| St_enhance_with_search
| St_cooking_tips
| St_final_recipe_compiler
| St_instruction_completion.

Inductive llm_call : Type :=
| Call_combined
| Call_tips
| Call_compile
| Call_enhance
| Call_completion.

Inductive event : Type :=
| EvStage (st : stage)
| EvSearch (query : string) (max_results : Z)
| EvLLM (c : llm_call).

(** A computation that returns or raises, and the events it went through. *)
Definition Exec (A : Type) : Type := (outcome A * list event)%type.

Definition result {A : Type} (m : Exec A) : outcome A := fst m.
Definition trace {A : Type} (m : Exec A) : list event := snd m.

Definition ret {A : Type} (a : A) : Exec A := (Returns a, []).
Definition raise {A : Type} (e : exn) : Exec A := (Raises e, []).
Definition emit (ev : event) : Exec unit := (Returns tt, [ev]).
Definition lift {A : Type} (o : outcome A) : Exec A := (o, []).

Definition bind {A B : Type} (m : Exec A) (f : A -> Exec B) : Exec B :=
  match m with
  | (Returns a, t) => match f a with (r, t') => (r, t ++ t') end
  | (Raises e, t) => (Raises e, t)
  end.

(** [try: body except Exception as e: handler e] *)
Definition try_except {A : Type} (body : Exec A) (handler : exn -> Exec A)
  : Exec A :=
  match body with
  | (Returns a, t) => (Returns a, t)
  | (Raises e, t) => match handler e with (r, t') => (r, t ++ t') end
  end.

Notation "x <- m ;; k" := (bind m (fun x => k))
  (at level 61, m at next level, right associativity).
Notation "m ;;; k" := (bind m (fun _ => k))
  (at level 61, right associativity).

(** ** [LLMService] and [RecipeService] *)

Module LLMService.

(** [generate_json_response]: both failures are re-raised as [Exception]. *)
Definition generate_json_response (W : World)
    (ingredients_list appliances : list string) (skill : string)
    (dietary : list string) (cuisine : string) : Exec pyval :=
  emit (EvLLM Call_combined) ;;;
  match llm_combined W ingredients_list appliances skill dietary cuisine with
  | Raises e => raise ("JSON generation failed: " +++ e)
  | Returns content =>
      match json_loads W content with
      | None => raise "Failed to parse JSON response: JSONDecodeError"
      | Some v => ret v
      end
  end.

End LLMService.

Module RecipeService.

Definition bullet : string := "• ".

(** [generate_combined_recipe]: its [except] clause re-raises. *)
Definition generate_combined_recipe (W : World) (state : RecipeState)
  : Exec pyval :=
  LLMService.generate_json_response W (ingredients state)
    (available_appliances state) (skill_level state)
    (dietary_restrictions state) (cuisine_preference state).

Definition parse_ingredients (l : list string) : list string :=
  map PyStr.strip (filter (fun i => PyStr.nonempty (PyStr.strip i)) l).

Definition required_keys : list string :=
  ["recipe"; "nutrition"; "shopping_list"].

(** [all(key in recipe_data for key in keys)], left to right. *)
Fixpoint all_in (keys : list string) (recipe_data : pyval) : outcome bool :=
  match keys with
  | [] => Returns true
  | k :: r =>
      obind (Py.contains k recipe_data)
        (fun b => if b then all_in r recipe_data else Returns false)
  end.

Definition validate_recipe_data (recipe_data : pyval) : outcome bool :=
  all_in required_keys recipe_data.

Definition fallback_recipe (ingredients_list : list string)
    (appliance_name : string) : dict :=
  [ ("name", PStr "Simple Mixed Dish");
    ("description",
      PStr ("A simple dish using available ingredients with "
            +++ appliance_name));
    ("emoji_representation", PStr "🍽️✨");
    ("prep_time", PInt 15);
    ("cook_time", PInt 30);
    ("total_time", PInt 45);
    ("servings", PInt 4);
    ("difficulty", PStr "Easy");
    ("cuisine_type", PStr "International");
    ("appliance_used", PStr appliance_name);
    ("ingredients",
      Py.of_strings (map (fun i => bullet +++ i) ingredients_list));
    ("instructions",
      Py.of_strings
        [ "1. Prepare all ingredients by washing and chopping as needed";
          "2. Use your " +++ appliance_name +++ " to cook the ingredients";
          "3. Season to taste with salt and pepper";
          "4. Cook until ingredients are tender and flavors are combined";
          "5. Serve hot and enjoy!" ]);
    ("tips",
      Py.of_strings
        [ "Taste and adjust seasoning as needed";
          "Don't overcook the vegetables";
          "Add herbs or spices to enhance flavor" ]);
    ("variations",
      Py.of_strings
        [ "Add different seasonings";
          "Include additional vegetables";
          "Try different cooking methods" ]);
    ("storage_instructions", PStr "Store in refrigerator for up to 3 days") ].

Definition fallback_nutrition : dict :=
  [ ("calories_per_serving", PInt 300);
    ("protein_g", PFloat 12);
    ("carbs_g", PFloat 40);
    ("fat_g", PFloat 10);
    ("fiber_g", PFloat 5);
    ("sodium_mg", PFloat 500);
    ("sugar_g", PFloat 6);
    ("key_nutrients", Py.of_strings ["Vitamin C"; "Iron"; "Calcium"]);
    ("health_benefits",
      Py.of_strings
        ["Provides balanced nutrition"; "Contains essential vitamins"]) ].

Definition create_fallback_recipe (ingredients_list : list string)
    (appliance_name : string) : pyval :=
  PDict
    [ ("recipe", PDict (fallback_recipe ingredients_list appliance_name));
      ("nutrition", PDict fallback_nutrition);
      ("shopping_list", Py.of_strings ["Basic seasonings if needed"]) ].

End RecipeService.

(** ** The nodes ([nodes.py]) *)

Module RecipeNodes.

(** The appliance argument of the tips and compilation prompts. *)
Definition appliance_line (state : RecipeState) : string :=
  appliance state +++ " (Available: "
  +++ PyStr.join ", " (available_appliances state) +++ ")".

Definition generic_tips : list string :=
  [ "Read through the entire recipe before starting";
    "Prep all ingredients before cooking";
    "Keep a clean workspace";
    "Taste as you go and adjust seasoning" ].

(** [[tip.strip() for tip in content.split('\n') if tip.strip()]] *)
Definition split_tips (content : string) : list string :=
  map PyStr.strip
    (filter (fun tip => PyStr.nonempty (PyStr.strip tip))
       (PyStr.split PyStr.newline content)).

Definition cooking_tips_node (W : World) (state : RecipeState)
  : Exec RecipeState :=
  emit (EvStage St_cooking_tips) ;;;
  let state := set_processing_step "cooking_tips" state in
  try_except
    (emit (EvLLM Call_tips) ;;;
     content <- lift (llm_tips W (selected_recipe state)
                        (appliance_line state) (skill_level state)) ;;
     let tips := split_tips content in
     ret (set_processing_step "cooking_tips_complete"
            (set_cooking_tips tips state)))
    (fun _ => ret (set_cooking_tips generic_tips state)).

(** [[f"• {ing['name']}" for ing in parsed_ingredients]] *)
Fixpoint bulleted_names (W : World) (parsed : list pyval)
  : outcome (list pyval) :=
  match parsed with
  | [] => Returns []
  | ing :: r =>
      obind (Py.getitem ing "name") (fun name =>
      obind (bulleted_names W r) (fun t =>
      Returns (PStr (RecipeService.bullet +++ py_str W name) :: t)))
  end.

(** The recipe that the [except] clause of the compiler builds from the
    state. *)
Definition compile_fallback (W : World) (state : RecipeState)
  : outcome pyval :=
  let primary_appliance := appliance state in
  let selected := selected_recipe state in
  obind (Py.get selected "name" (PStr "Custom Recipe")) (fun name =>
  obind (Py.get selected "description" (PStr "A delicious homemade dish"))
    (fun description =>
  obind (bulleted_names W (parsed_ingredients state)) (fun ingredient_lines =>
  obind (Py.get selected "prep_time" (PInt 15)) (fun prep_time =>
  obind (Py.get selected "cook_time" (PInt 30)) (fun cook_time =>
  obind (Py.add prep_time cook_time) (fun total_time =>
  obind (Py.get selected "servings" (PInt 4)) (fun servings =>
  obind (Py.get selected "difficulty" (PStr "Medium")) (fun difficulty =>
  obind (Py.get selected "cuisine_type" (PStr "International"))
    (fun cuisine_type =>
  Returns (PDict
    [ ("name", name);
      ("description", description);
      ("ingredients", PList ingredient_lines);
      ("instructions",
        Py.of_strings
          [ "1. Prepare all ingredients";
            "2. Follow cooking method for your appliance";
            "3. Cook until done";
            "4. Serve and enjoy!" ]);
      ("prep_time", prep_time);
      ("cook_time", cook_time);
      ("total_time", total_time);
      ("servings", servings);
      ("difficulty", difficulty);
      ("cuisine_type", cuisine_type);
      ("appliance_used", PStr primary_appliance);
      ("nutrition", nutrition_info state);
      ("tips", Py.of_strings (cooking_tips state));
      ("variations",
        Py.of_strings ["Try different seasonings"; "Add more vegetables"]);
      ("storage_instructions",
        PStr "Store in refrigerator for up to 3 days");
      ("emoji_representation", PStr "🍽️✨") ])))))))))).

(** "Convert to dict and fix appliance_used field if it's a list". *)
Definition fix_appliance_used (final_recipe_dict : dict) : outcome dict :=
  match dict_get final_recipe_dict "appliance_used" with
  | Some (PList l) =>
      obind (Py.first l)
        (fun a => Returns (dict_set final_recipe_dict "appliance_used" a))
  | _ => Returns final_recipe_dict
  end.

Definition final_recipe_compiler_node (W : World) (state : RecipeState)
  : Exec RecipeState :=
  emit (EvStage St_final_recipe_compiler) ;;;
  let state := set_processing_step "final_recipe_compilation" state in
  try_except
    (emit (EvLLM Call_compile) ;;;
     final_recipe_dict <-
       lift (llm_compile W (selected_recipe state) (parsed_ingredients state)
               (nutrition_info state) (cooking_tips state)
               (appliance_line state)) ;;
     final_recipe_dict <- lift (fix_appliance_used final_recipe_dict) ;;
     ret (set_processing_step "final_recipe_complete"
            (set_final_recipe (PDict final_recipe_dict) state)))
    (fun _ =>
       recipe <- lift (compile_fallback W state) ;;
       ret (set_final_recipe recipe state)).

(** The queries that [online_search_node] builds, in order. *)
Definition search_queries (W : World) (state : RecipeState)
  : outcome (list string) :=
  let selected := selected_recipe state in
  obind (Py.get selected "name" PNone) (fun name =>
  obind (if Py.truthy name
         then obind (Py.getitem selected "name") (fun n =>
              Returns [py_str W n +++ " recipe cooking tips best practices"])
         else Returns []) (fun recipe_query =>
  let ingredient_query :=
    match ingredients state with
    | [] => []
    | _ :: _ =>
        [ "cooking techniques "
          +++ PyStr.join " " (firstn 3 (ingredients state))
          +++ " " +++ cuisine_preference state +++ " cuisine" ]
    end in
  let appliance_query :=
    match available_appliances state with
    | [] => []
    | _ :: _ =>
        [ "cooking tips " +++ PyStr.join " " (available_appliances state)
          +++ " techniques professional chef" ]
    end in
  Returns (recipe_query ++ ingredient_query ++ appliance_query))).

Definition or_empty (o : option string) : string :=
  match o with Some s => s | None => EmptyString end.

(** The records appended for one response. *)
Definition collect (query : string) (response : tavily_response)
  : list search_result :=
  match response with
  | Some hits =>
      map (fun hit =>
             {| sr_title := or_empty (hit_title hit);
                sr_content := or_empty (hit_content hit);
                sr_url := or_empty (hit_url hit);
                sr_query := query |}) hits
  | None => []
  end.

(** The test of the inner [except] clause on [str(search_error).lower()]. *)
Definition is_auth_error (e : exn) : bool :=
  let error_str := PyStr.lower e in
  PyStr.contains "unauthorized" error_str
  || PyStr.contains "api key" error_str.

(** The loop [for query in search_queries[:2]] with its accumulator
    [search_results]: [break] on an authentication error, [continue] on any
    other one. *)
Fixpoint perform_searches (W : World) (queries : list string)
    (search_results : list search_result) : Exec (list search_result) :=
  match queries with
  | [] => ret search_results
  | query :: rest =>
      emit (EvSearch query 2) ;;;
      match tavily_search W query 2 with
      | Returns response =>
          perform_searches W rest (search_results ++ collect query response)
      | Raises search_error =>
          if is_auth_error search_error then ret search_results
          else perform_searches W rest search_results
      end
  end.

Definition has_results (l : list search_result) : bool :=
  match l with [] => false | _ :: _ => true end.

Definition online_search_node (W : World) (cfg : Config)
    (state : RecipeState) : Exec RecipeState :=
  emit (EvStage St_online_search) ;;;
  let state := set_processing_step "online_search" state in
  if negb (tavily_client cfg) then
    ret (set_search_enhanced false (set_online_search_results [] state))
  else
    try_except
      (queries <- lift (search_queries W state) ;;
       search_results <- perform_searches W (firstn 2 queries) [] ;;
       ret (set_processing_step "online_search_complete"
              (set_search_enhanced (has_results search_results)
                 (set_online_search_results search_results state))))
      (fun e =>
         ret (set_error_message ("Online search error: " +++ e)
                (set_search_enhanced false
                   (set_online_search_results [] state)))).

(** The loop that removes duplicates "while preserving order": [seen] is the
    Python set, [unique_tips] the list built so far. *)
Fixpoint unique_loop (all_tips : list pyval) (unique_tips seen : list string)
  : list string :=
  match all_tips with
  | [] => unique_tips
  | PStr tip :: rest =>
      if existsb (String.eqb tip) seen
      then unique_loop rest unique_tips seen
      else unique_loop rest (unique_tips ++ [tip]) (tip :: seen)
  | _ :: rest => unique_loop rest unique_tips seen
  end.

(** [cooking_tips] after a successful enhancement call. *)
Definition merge_tips (current_tips : list string)
    (enhanced_tips : list pyval) : list string :=
  let all_tips := map PStr current_tips ++ enhanced_tips in
  firstn 8 (unique_loop all_tips [] []).

Definition line_break : string := String PyStr.newline EmptyString.

Definition search_content_of (search_results : list search_result)
  : list string :=
  map (fun r => "Source: " +++ sr_title r +++ line_break +++ sr_content r)
    (filter (fun r => PyStr.nonempty (sr_content r)) search_results).

(** [self.llm.invoke(prompt.format(...))] of the enhancement step. *)
Definition enhance_call (W : World) (state : RecipeState)
    (search_content : list string) (recipe_name : pyval) : outcome string :=
  let current_tips := cooking_tips state in
  llm_enhance W
    (PyStr.join (line_break +++ line_break) (firstn 3 search_content))
    recipe_name
    (PyStr.join ", " (ingredients state))
    (PyStr.join ", " (available_appliances state))
    (match current_tips with
     | [] => "None yet"
     | _ :: _ => PyStr.join ", " current_tips
     end).

Definition enhance_with_search_node (W : World) (state : RecipeState)
  : Exec RecipeState :=
  emit (EvStage St_enhance_with_search) ;;;
  let state := set_processing_step "search_enhancement" state in
  if search_enhancement_complete state then ret state
  else if negb (search_enhanced state)
          || negb (has_results (online_search_results state))
  then ret state
  else
    try_except
      (let search_content := search_content_of (online_search_results state) in
       match search_content with
       | [] => ret state
       | _ :: _ =>
           let current_tips := cooking_tips state in
           recipe_name <-
             lift (Py.get (selected_recipe state) "name"
                     (PStr "Unknown Recipe")) ;;
           emit (EvLLM Call_enhance) ;;;
           response_content <-
             lift (enhance_call W state search_content recipe_name) ;;
           match json_loads W response_content with
           | Some (PList enhanced_tips) =>
               ret (set_search_enhancement_complete true
                      (set_processing_step "search_enhancement_complete"
                         (set_cooking_tips
                            (merge_tips current_tips enhanced_tips) state)))
           | Some _ => ret state
           | None => ret state
           end
       end)
      (fun _ => ret state).

Fixpoint lengths (items : list pyval) : outcome (list nat) :=
  match items with
  | [] => Returns []
  | inst :: r =>
      obind (Py.len inst) (fun n =>
      obind (lengths r) (fun t => Returns (n :: t)))
  end.

Definition total (l : list nat) : nat := fold_right Nat.add 0%nat l.

(** [sum(len(inst) for inst in instructions) / len(instructions)].  Python
    divides two integers into the nearest float; the quotient is exact here.
    The comparison with 30 is the same for both as long as the list has
    fewer than 2^49 steps. *)
Definition avg_length (sum count : nat) : Q :=
  inject_Z (Z.of_nat sum) / inject_Z (Z.of_nat count).

Definition Qltb (a b : Q) : bool := negb (Qle_bool b a).

(** The heuristic of [instruction_completion_node]. *)
Definition needs_completion (instructions : pyval) : outcome bool :=
  if negb (Py.truthy instructions) then Returns true
  else
    obind (Py.len instructions) (fun count =>
    if (count <? 3)%nat then Returns true
    else
      obind (Py.iter instructions) (fun items =>
      obind (lengths items) (fun ls =>
      Returns (Qltb (avg_length (total ls) count) 30)))).

(** [recipe["instructions"] = complete_instructions] *)
Definition set_instructions (recipe complete_instructions : pyval)
  : outcome pyval :=
  match recipe with
  | PDict d => Returns (PDict (dict_set d "instructions" complete_instructions))
  | PList _ => Raises "TypeError: list indices must be integers or slices, not str"
  | _ => Raises "TypeError: object does not support item assignment"
  end.

(** The body of [if needs_completion:]. *)
Definition complete_instructions_of (W : World) (state : RecipeState)
    (recipe instructions ingredient_list : pyval) : Exec RecipeState :=
  name <- lift (Py.get recipe "name" (PStr "Unknown")) ;;
  joined <- lift (Py.join ", " ingredient_list) ;;
  emit (EvLLM Call_completion) ;;;
  content <- lift (llm_completion W name joined instructions) ;;
  match json_loads W content with
  | None => ret state
  | Some completion_result =>
      complete_instructions <-
        lift (Py.get completion_result "complete_instructions" (PList [])) ;;
      if Py.truthy complete_instructions then
        new_count <- lift (Py.len complete_instructions) ;;
        old_count <- lift (Py.len instructions) ;;
        if (old_count <? new_count)%nat then
          recipe <- lift (set_instructions recipe complete_instructions) ;;
          ret (set_selected_recipe recipe (set_final_recipe recipe state))
        else ret state
      else ret state
  end.

Definition instruction_completion_node (W : World) (state : RecipeState)
  : Exec RecipeState :=
  emit (EvStage St_instruction_completion) ;;;
  let state := set_processing_step "instruction_completion" state in
  try_except
    (let recipe := final_recipe state in
     if negb (Py.truthy recipe) then ret state
     else
       instructions <- lift (Py.get recipe "instructions" (PList [])) ;;
       ingredient_list <- lift (Py.get recipe "ingredients" (PList [])) ;;
       needs <- lift (needs_completion instructions) ;;
       state' <- (if needs
                  then complete_instructions_of W state recipe instructions
                         ingredient_list
                  else ret state) ;;
       ret (set_processing_step "instruction_completion_complete" state'))
    (fun _ => ret state).

End RecipeNodes.

(** ** The workflow ([src/services/workflow_service.py]) *)

Module WorkflowService.

Definition combined_recipe_generation_node (W : World) (state : RecipeState)
  : Exec RecipeState :=
  emit (EvStage St_combined_recipe_generation) ;;;
  try_except
    (let ingredients_list := ingredients state in
     let state :=
       set_parsed_ingredients
         (map PStr (RecipeService.parse_ingredients ingredients_list)) state in
     try_except
       (response_data <- RecipeService.generate_combined_recipe W state ;;
        valid <- lift (RecipeService.validate_recipe_data response_data) ;;
        if valid then
          recipe <- lift (Py.getitem response_data "recipe") ;;
          nutrition <- lift (Py.getitem response_data "nutrition") ;;
          shopping <- lift (Py.getitem response_data "shopping_list") ;;
          ret (set_final_recipe recipe
                 (set_shopping_list shopping
                    (set_nutrition_info nutrition
                       (set_selected_recipe recipe state))))
        else raise "Invalid recipe data structure")
       (fun _ =>
          let fallback_data :=
            RecipeService.create_fallback_recipe ingredients_list
              (appliance state) in
          recipe <- lift (Py.getitem fallback_data "recipe") ;;
          nutrition <- lift (Py.getitem fallback_data "nutrition") ;;
          shopping <- lift (Py.getitem fallback_data "shopping_list") ;;
          ret (set_final_recipe recipe
                 (set_shopping_list shopping
                    (set_nutrition_info nutrition
                       (set_selected_recipe recipe state))))))
    (fun e => raise ("Error in combined recipe generation: " +++ e)).

Definition enhanced_cooking_tips_node (W : World) (cfg : Config)
    (state : RecipeState) : Exec RecipeState :=
  try_except
    (state <- (if tavily_enabled cfg then
                 state <- RecipeNodes.online_search_node W cfg state ;;
                 if RecipeNodes.has_results (online_search_results state)
                 then RecipeNodes.enhance_with_search_node W state
                 else ret state
               else ret state) ;;
     state <- RecipeNodes.cooking_tips_node W state ;;
     RecipeNodes.final_recipe_compiler_node W state)
    (fun e => raise ("Error in enhanced cooking tips: " +++ e)).

(** *** The graph *)

Inductive node_name : Type :=
| combined_recipe_generation
| enhanced_cooking_tips
| instruction_completion.

Inductive target : Type :=
| Node (n : node_name)
| END.

Definition node_eqb (a b : node_name) : bool :=
  match a, b with
  | combined_recipe_generation, combined_recipe_generation => true
  | enhanced_cooking_tips, enhanced_cooking_tips => true
  | instruction_completion, instruction_completion => true
  | _, _ => false
  end.

(** What [StateGraph] records: the nodes added, the edges added and the
    entry point. *)
Record StateGraph : Type := {
  nodes : list node_name;
  edges : list (node_name * target);
  entry_point : option node_name
}.

Definition empty_graph : StateGraph :=
  {| nodes := []; edges := []; entry_point := None |}.

Definition add_node (n : node_name) (g : StateGraph) : StateGraph :=
  {| nodes := nodes g ++ [n]; edges := edges g; entry_point := entry_point g |}.

Definition add_edge (a : node_name) (b : target) (g : StateGraph)
  : StateGraph :=
  {| nodes := nodes g; edges := edges g ++ [(a, b)];
     entry_point := entry_point g |}.

Definition set_entry_point (n : node_name) (g : StateGraph) : StateGraph :=
  {| nodes := nodes g; edges := edges g; entry_point := Some n |}.

Definition create_workflow_graph (cfg : Config) : StateGraph :=
  let workflow := empty_graph in
  let workflow := add_node combined_recipe_generation workflow in
  let workflow :=
    if tavily_enabled cfg then
      let workflow := add_node enhanced_cooking_tips workflow in
      let workflow := add_node instruction_completion workflow in
      let workflow :=
        add_edge combined_recipe_generation (Node enhanced_cooking_tips)
          workflow in
      let workflow :=
        add_edge enhanced_cooking_tips (Node instruction_completion)
          workflow in
      add_edge instruction_completion END workflow
    else
      let workflow := add_node instruction_completion workflow in
      let workflow :=
        add_edge combined_recipe_generation (Node instruction_completion)
          workflow in
      add_edge instruction_completion END workflow in
  set_entry_point combined_recipe_generation workflow.

(** The method that [create_workflow_graph] binds to each node name. *)
Definition node_action (W : World) (cfg : Config) (n : node_name)
  : RecipeState -> Exec RecipeState :=
  match n with
  | combined_recipe_generation => combined_recipe_generation_node W
  | enhanced_cooking_tips => enhanced_cooking_tips_node W cfg
  | instruction_completion => RecipeNodes.instruction_completion_node W
  end.

Fixpoint successor (es : list (node_name * target)) (n : node_name)
  : option target :=
  match es with
  | [] => None
  | (a, b) :: r => if node_eqb a n then Some b else successor r n
  end.

(** LangGraph stops a run after 25 steps with [GraphRecursionError]. *)
Definition recursion_limit : nat := 25.

(** How the compiled graph runs (the LangGraph runtime is a library): the
    node at hand is run on the state, then the edge that leaves it is
    followed, until [END]. *)
Fixpoint run_from (W : World) (cfg : Config) (g : StateGraph) (steps : nat)
    (at_ : target) (state : RecipeState) : Exec RecipeState :=
  match at_ with
  | END => ret state
  | Node n =>
      match steps with
      | O => raise "GraphRecursionError"
      | S steps' =>
          if existsb (node_eqb n) (nodes g) then
            state <- node_action W cfg n state ;;
            match successor (edges g) n with
            | Some next => run_from W cfg g steps' next state
            | None => ret state
            end
          else raise "ValueError: unknown node"
      end
  end.

(** [graph.invoke(initial_state)] *)
Definition invoke (W : World) (cfg : Config) (g : StateGraph)
    (state : RecipeState) : Exec RecipeState :=
  match entry_point g with
  | Some n => run_from W cfg g recursion_limit (Node n) state
  | None => raise "ValueError: graph has no entry point"
  end.

(** [execute_workflow]: what it returns, and the events of the run.  Each
    node receives the state from the runtime, not the caller's dict, so the
    [except] clause writes the message into the state as the caller passed
    it. *)
Definition execute_workflow (W : World) (cfg : Config)
    (initial_state : RecipeState) : RecipeState * list event :=
  let run := invoke W cfg (create_workflow_graph cfg) initial_state in
  match result run with
  | Returns final => (final, trace run)
  | Raises e =>
      (set_error_message ("Workflow failed: " +++ e) initial_state, trace run)
  end.

End WorkflowService.

(** ** The caller ([app.py]) *)

Module App.

(** The initial state that [process_recipe_generation] builds from a
    validated form. *)
Definition initial_state (form_ingredients appliances dietary : list string)
    (cuisine skill : string) : RecipeState :=
  {| ingredients :=
       map PyStr.strip
         (filter (fun ing => PyStr.nonempty ing
                             && PyStr.nonempty (PyStr.strip ing))
            form_ingredients);
     appliance := match appliances with a :: _ => a | [] => "Oven" end;
     available_appliances := appliances;
     dietary_restrictions := dietary;
     cuisine_preference := cuisine;
     skill_level := skill;
     parsed_ingredients := [];
     recipe_suggestions := [];
     selected_recipe := PDict [];
     alternative_recipes := [];
     user_selected_alternative := None;
     nutrition_info := PDict [];
     shopping_list := PList [];
     cooking_tips := [];
     final_recipe := PDict [];
     online_search_results := [];
     search_enhanced := false;
     search_enhancement_complete := false;
     verification_result := None;
     processing_step := EmptyString;
     error_message := EmptyString |}.

End App.

(** ** Observations on traces, and the specification's wording *)

Import RecipeNodes WorkflowService.

(** The stages entered during a run, in order. *)
Fixpoint stages_of (t : list event) : list stage :=
  match t with
  | [] => []
  | EvStage st :: r => st :: stages_of r
  | _ :: r => stages_of r
  end.

(** The search requests issued during a run, in order. *)
Fixpoint searches_of (t : list event) : list (string * Z) :=
  match t with
  | [] => []
  | EvSearch q n :: r => (q, n) :: searches_of r
  | _ :: r => searches_of r
  end.

(** The model calls attempted during a run, in order. *)
Fixpoint calls_of (t : list event) : list llm_call :=
  match t with
  | [] => []
  | EvLLM c :: r => c :: calls_of r
  | _ :: r => calls_of r
  end.

Definition call_eqb (a b : llm_call) : bool :=
  match a, b with
  | Call_combined, Call_combined => true
  | Call_tips, Call_tips => true
  | Call_compile, Call_compile => true
  | Call_enhance, Call_enhance => true
  | Call_completion, Call_completion => true
  | _, _ => false
  end.

(** "The auditor attempts a corrective generation call". *)
Definition attempts_correction (t : list event) : bool :=
  existsb (call_eqb Call_completion) (calls_of t).

(** [x in l] *)
Definition mem (x : string) (l : list string) : bool :=
  existsb (String.eqb x) l.

(** The strings among the items of a JSON list. *)
Fixpoint strings_of (l : list pyval) : list string :=
  match l with
  | [] => []
  | PStr s :: r => s :: strings_of r
  | _ :: r => strings_of r
  end.

(** "Original order preserved and duplicate strings dropped": every string
    stays at its first occurrence. *)
Fixpoint dedup (l : list string) : list string :=
  match l with
  | [] => []
  | x :: r => x :: filter (fun y => negb (String.eqb y x)) (dedup r)
  end.

(** The merge as the specification words it: existing tips followed by the
    new ones, duplicates dropped, at most 8 kept. *)
Definition merged_tips_spec (existing new : list string) : list string :=
  firstn 8 (dedup (existing ++ new)).

(** "The mean character length across its steps". *)
Definition mean_char_length (steps : list string) : Q :=
  inject_Z (Z.of_nat (total (map PyStr.char_count steps)))
  / inject_Z (Z.of_nat (List.length steps)).

(** The trigger as the specification words it. *)
Definition judged_incomplete (steps : list string) : Prop :=
  (List.length steps < 3)%nat \/ (mean_char_length steps < 30)%Q.

(** The tips that [cooking_tips_node] stores: a function of the reply to its
    own prompt, which does not mention the tips already in the state. *)
Definition tips_outcome (W : World) (state : RecipeState) : list string :=
  match llm_tips W (selected_recipe state) (appliance_line state)
          (skill_level state) with
  | Returns content => split_tips content
  | Raises _ => generic_tips
  end.

(** The part of [enhanced_cooking_tips_node] that runs before the
    compiler. *)
Definition tips_stage (W : World) (cfg : Config) (state : RecipeState)
  : Exec RecipeState :=
  state <- (if tavily_enabled cfg then
              state <- online_search_node W cfg state ;;
              if has_results (online_search_results state)
              then enhance_with_search_node W state
              else ret state
            else ret state) ;;
  cooking_tips_node W state.

(** The state that leaves the draft stage when generation fails. *)
Definition fallback_draft (state : RecipeState) : RecipeState :=
  let recipe :=
    PDict (RecipeService.fallback_recipe (ingredients state)
             (appliance state)) in
  set_final_recipe recipe
    (set_shopping_list (Py.of_strings ["Basic seasonings if needed"])
       (set_nutrition_info (PDict RecipeService.fallback_nutrition)
          (set_selected_recipe recipe
             (set_parsed_ingredients
                (map PStr (RecipeService.parse_ingredients
                             (ingredients state))) state)))).

(** The combined call answered and its answer parsed as [data]. *)
Definition usable_reply (W : World) (state : RecipeState) (data : pyval)
  : Prop :=
  exists content,
    llm_combined W (ingredients state) (available_appliances state)
      (skill_level state) (dietary_restrictions state)
      (cuisine_preference state) = Returns content
    /\ json_loads W content = Some data.

(** A recipe as the auditor expects it: a non-empty dict whose instructions
    are the list [steps] of strings and whose ingredients can be joined. *)
Definition audited_recipe (state : RecipeState) (d : dict)
    (steps : list string) (joined : string) : Prop :=
  final_recipe state = PDict d
  /\ d <> []
  /\ dict_get_or d "instructions" (PList []) = Py.of_strings steps
  /\ Py.join ", " (dict_get_or d "ingredients" (PList [])) = Returns joined.

(** The decision of [needs_completion] on a list of strings. *)
Definition needs_completion_on (steps : list string) : bool :=
  match steps with
  | [] => true
  | _ :: _ =>
      if (List.length steps <? 3)%nat then true
      else Qltb (avg_length (total (map PyStr.char_count steps))
                   (List.length steps)) 30
  end.

(** The reply to the correction request for such a recipe. *)
Definition correction_reply (W : World) (d : dict) (steps : list string)
    (joined : string) : outcome string :=
  llm_completion W (dict_get_or d "name" (PStr "Unknown")) joined
    (Py.of_strings steps).

(** The auditor replaced the instructions of [s] by a longer value [v] that
    the correction call returned, in both views of the recipe. *)
Definition replaced_by_longer (W : World) (s s' : RecipeState) : Prop :=
  exists (d : dict) (v : pyval) (n_old n_new : nat)
         (name : pyval) (joined content : string) (reply : pyval),
    final_recipe s = PDict d
    /\ llm_completion W name joined (dict_get_or d "instructions" (PList []))
       = Returns content
    /\ json_loads W content = Some reply
    /\ Py.get reply "complete_instructions" (PList []) = Returns v
    /\ Py.truthy v = true
    /\ Py.len v = Returns n_new
    /\ Py.len (dict_get_or d "instructions" (PList [])) = Returns n_old
    /\ (n_old < n_new)%nat
    /\ final_recipe s' = PDict (dict_set d "instructions" v)
    /\ selected_recipe s' = PDict (dict_set d "instructions" v).

(** The request part of the state is the same in both states. *)
Definition request_kept (s s' : RecipeState) : Prop :=
  ingredients s' = ingredients s
  /\ appliance s' = appliance s
  /\ available_appliances s' = available_appliances s
  /\ dietary_restrictions s' = dietary_restrictions s
  /\ cuisine_preference s' = cuisine_preference s
  /\ skill_level s' = skill_level s.

(** The latch is not reset between the two states. *)
Definition latch_kept (s s' : RecipeState) : Prop :=
  search_enhancement_complete s = true ->
  search_enhancement_complete s' = true.

(** Every function that the workflow runs on the state. *)
Definition all_nodes (W : World) (cfg : Config)
  : list (RecipeState -> Exec RecipeState) :=
  [ combined_recipe_generation_node W;
    online_search_node W cfg;
    enhance_with_search_node W;
    cooking_tips_node W;
    final_recipe_compiler_node W;
    enhanced_cooking_tips_node W cfg;
    instruction_completion_node W ].

(** ** Sample runs *)

Module Samples.

Definition no_search_key : Config := {| tavily_api_key := None |}.

Definition with_search_key : Config :=
  {| tavily_api_key := Some "tvly-0123456789" |}.

(** A stand-in for [str()] that is right on strings. *)
Definition show (v : pyval) : string :=
  match v with PStr s => s | _ => EmptyString end.

(** Every provider fails. *)
Definition offline : World :=
  {| json_loads := fun _ => None;
     py_str := show;
     tavily_search := fun _ _ => Raises "connection refused";
     llm_combined := fun _ _ _ _ _ => Raises "GenerationFailure";
     llm_tips := fun _ _ _ => Raises "GenerationFailure";
     llm_compile := fun _ _ _ _ _ => Raises "GenerationFailure";
     llm_enhance := fun _ _ _ _ _ => Raises "GenerationFailure";
     llm_completion := fun _ _ _ => Raises "GenerationFailure" |}.

(** The request of the specification's end-to-end scenario. *)
Definition request : RecipeState :=
  App.initial_state ["chicken"; "rice"; "broccoli"] ["Oven"; "Stovetop"] []
    "Any" "Beginner".

Definition long_steps : list string :=
  [ "Step 1: wash, chop, and season the chicken for at least ten minutes before searing";
    "Step 2: sear on medium-high heat for six minutes per side";
    "Step 3: rest for five minutes before slicing and serving" ].

(** A combined reply whose recipe names its appliances as a list. *)
Definition list_appliance_recipe : pyval :=
  PDict
    [ ("name", PStr "Chicken and rice");
      ("appliance_used", PList [PStr "Oven"; PStr "Stovetop"]);
      ("ingredients", Py.of_strings ["chicken"; "rice"; "broccoli"]);
      ("instructions", Py.of_strings long_steps) ].

Definition list_appliance_reply : pyval :=
  PDict
    [ ("recipe", list_appliance_recipe);
      ("nutrition", PDict [("calories_per_serving", PInt 350)]);
      ("shopping_list", PList []) ].

(** The combined call succeeds with that reply; nothing else answers. *)
Definition list_appliance_world : World :=
  {| json_loads := fun text =>
       if String.eqb text "combined" then Some list_appliance_reply else None;
     py_str := show;
     tavily_search := fun _ _ => Raises "connection refused";
     llm_combined := fun _ _ _ _ _ => Returns "combined";
     llm_tips := fun _ _ _ => Raises "GenerationFailure";
     llm_compile := fun _ _ _ _ _ => Raises "GenerationFailure";
     llm_enhance := fun _ _ _ _ _ => Raises "GenerationFailure";
     llm_completion := fun _ _ _ => Raises "GenerationFailure" |}.

(** A state in which the enhancement has been applied. *)
Definition latched : RecipeState :=
  set_search_enhancement_complete true
    (set_cooking_tips ["A"; "B"]
       (set_processing_step "online_search_complete" request)).

Definition one_hit : tavily_hit :=
  {| hit_title := Some "Searing basics";
     hit_content := Some "Pat the chicken dry before searing.";
     hit_url := Some "https://example.org/searing" |}.

(** A state with one search result, tips [A; B] and the latch unset. *)
Definition searched : RecipeState :=
  set_search_enhanced true
    (set_online_search_results (collect "chicken" (Some [one_hit]))
       (set_cooking_tips ["A"; "B"]
          (set_selected_recipe (PDict [("name", PStr "Chicken and rice")])
             request))).

(** The enhancement call returns the JSON list [B; C; D]. *)
Definition enhancing_world : World :=
  {| json_loads := fun text =>
       if String.eqb text "enhanced"
       then Some (Py.of_strings ["B"; "C"; "D"]) else None;
     py_str := show;
     tavily_search := fun _ _ => Returns (Some [one_hit]);
     llm_combined := fun _ _ _ _ _ => Raises "GenerationFailure";
     llm_tips := fun _ _ _ => Returns "1. Rest the meat";
     llm_compile := fun _ _ _ _ _ => Raises "GenerationFailure";
     llm_enhance := fun _ _ _ _ _ => Returns "enhanced";
     llm_completion := fun _ _ _ => Raises "GenerationFailure" |}.

Definition short_steps : list string := ["Chop."; "Cook."; "Serve."].


(** A state whose final recipe has the three long steps. *)
Definition drafted_long : RecipeState :=
  let recipe :=
    PDict [ ("name", PStr "Chicken and rice");
            ("ingredients", Py.of_strings ["chicken"; "rice"]);
            ("instructions", Py.of_strings long_steps) ] in
  set_final_recipe recipe (set_selected_recipe recipe request).

(** A state whose final recipe has the three short steps. *)
Definition drafted_short : RecipeState :=
  let recipe :=
    PDict [ ("name", PStr "Chicken and rice");
            ("ingredients", Py.of_strings ["chicken"; "rice"]);
            ("instructions", Py.of_strings short_steps) ] in
  set_final_recipe recipe (set_selected_recipe recipe request).

(** The completion call returns two steps. *)
Definition two_step_world : World :=
  {| json_loads := fun text =>
       if String.eqb text "completion"
       then Some (PDict [("complete_instructions",
                          Py.of_strings ["Cook it."; "Eat it."])])
       else None;
     py_str := show;
     tavily_search := fun _ _ => Raises "connection refused";
     llm_combined := fun _ _ _ _ _ => Raises "GenerationFailure";
     llm_tips := fun _ _ _ => Raises "GenerationFailure";
     llm_compile := fun _ _ _ _ _ => Raises "GenerationFailure";
     llm_enhance := fun _ _ _ _ _ => Raises "GenerationFailure";
     llm_completion := fun _ _ _ => Returns "completion" |}.

(** The first search succeeds and the credential is rejected afterwards. *)
Definition revoked_world : World :=
  {| json_loads := fun _ => None;
     py_str := show;
     tavily_search := fun q _ =>
       if PyStr.contains "Chicken" q then Returns (Some [one_hit])
       else Raises "401 Unauthorized: invalid API key";
     llm_combined := fun _ _ _ _ _ => Raises "GenerationFailure";
     llm_tips := fun _ _ _ => Raises "GenerationFailure";
     llm_compile := fun _ _ _ _ _ => Raises "GenerationFailure";
     llm_enhance := fun _ _ _ _ _ => Raises "GenerationFailure";
     llm_completion := fun _ _ _ => Raises "GenerationFailure" |}.

End Samples.

(** ** The configuration tables ([app_config.py]) *)

Module AppConfig.

Definition SUPPORTED_APPLIANCES : list string :=
  [ "Oven"; "Stovetop"; "Microwave"; "Air Fryer"; "Slow Cooker";
    "Pressure Cooker"; "Grill"; "Toaster"; "Food Processor"; "Blender" ].

Definition SUPPORTED_SKILL_LEVELS : list string :=
  [ "Beginner"; "Intermediate"; "Advanced" ].

Definition SUPPORTED_DIETARY_RESTRICTIONS : list string :=
  [ "Vegetarian"; "Vegan"; "Gluten-Free"; "Dairy-Free"; "Keto"; "Low-Carb";
    "Low-Sodium"; "Nut-Free"; "Egg-Free"; "Soy-Free" ].

Definition SUPPORTED_CUISINES : list string :=
  [ "Any"; "Italian"; "Mexican"; "Asian"; "American"; "Mediterranean";
    "Indian"; "Thai"; "French"; "Middle Eastern"; "Japanese"; "Chinese";
    "Korean"; "Greek"; "Spanish" ].

End AppConfig.

(** ** The form and its validation ([app.py]) *)

Module RecipeAIApp.

(** What [render_cooking_preferences] returns. *)
Record Preferences : Type := {
  pref_appliances : list string;
  pref_skill_level : string;
  pref_dietary_restrictions : list string;
  pref_cuisine_preference : string
}.

(** The choices that the widgets of [render_cooking_preferences] offer. *)
Definition appliance_choices : list string :=
  [ "Oven"; "Stovetop"; "Microwave"; "Air Fryer"; "Slow Cooker";
    "Pressure Cooker"; "Grill"; "Toaster" ].

Definition skill_choices : list string :=
  [ "Beginner"; "Intermediate"; "Advanced" ].

Definition dietary_choices : list string :=
  [ "Vegetarian"; "Vegan"; "Gluten-Free"; "Dairy-Free"; "Keto"; "Low-Carb";
    "Low-Sodium"; "Nut-Free" ].

Definition cuisine_choices : list string :=
  [ "Any"; "Italian"; "Mexican"; "Asian"; "American"; "Mediterranean";
    "Indian"; "Thai"; "French"; "Middle Eastern" ].

(** [key and key.startswith('sk-')] *)
Definition key_ok (key : option string) : bool :=
  match key with
  | Some k => PyStr.nonempty k && String.prefix "sk-" k
  | None => false
  end.

Definition unsupported (table : list string) (l : list string)
  : list string :=
  filter (fun x => negb (mem x table)) l.

(** The list [errors] of [process_recipe_generation], in the order in which
    the messages are appended. *)
Definition validation_errors (key : option string)
    (form_ingredients : list string) (p : Preferences) : list string :=
  (if key_ok key then []
   else ["Please provide a valid OpenAI API key (starts with 'sk-')."])
  ++ match form_ingredients with
     | [] => ["Please select at least one ingredient."]
     | _ :: _ =>
         if (50 <? List.length form_ingredients)%nat
         then ["Too many ingredients selected (maximum 50)."]
         else []
     end
  ++ match pref_appliances p with
     | [] => ["Please select at least one cooking appliance."]
     | _ :: _ =>
         map (fun a => "Invalid appliance: " +++ a)
           (unsupported AppConfig.SUPPORTED_APPLIANCES (pref_appliances p))
     end
  ++ (if mem (pref_skill_level p) AppConfig.SUPPORTED_SKILL_LEVELS then []
      else [ "Invalid skill level. Must be one of: "
             +++ PyStr.join ", " AppConfig.SUPPORTED_SKILL_LEVELS ])
  ++ match pref_dietary_restrictions p with
     | [] => []
     | _ :: _ =>
         if forallb (fun r => mem r AppConfig.SUPPORTED_DIETARY_RESTRICTIONS)
              (pref_dietary_restrictions p)
         then []
         else [ "Invalid dietary restrictions: "
                +++ PyStr.join ", "
                      (unsupported AppConfig.SUPPORTED_DIETARY_RESTRICTIONS
                         (pref_dietary_restrictions p)) ]
     end
  ++ (if PyStr.nonempty (pref_cuisine_preference p)
         && negb (mem (pref_cuisine_preference p)
                    AppConfig.SUPPORTED_CUISINES)
      then [ "Invalid cuisine preference: " +++ pref_cuisine_preference p ]
      else []).

(** The first part of [process_recipe_generation]: the messages shown, or
    the initial state given to the workflow. *)
Definition prepare_request (key : option string)
    (form_ingredients : list string) (p : Preferences)
  : list string + RecipeState :=
  match validation_errors key form_ingredients p with
  | [] =>
      inr (App.initial_state form_ingredients (pref_appliances p)
             (pref_dietary_restrictions p) (pref_cuisine_preference p)
             (pref_skill_level p))
  | errors => inl errors
  end.

(** What [process_recipe_generation] does to
    [st.session_state.recipe_history] with the result of a run. *)
Definition record_result (recipe_history : list pyval) (result : RecipeState)
  : list pyval :=
  if PyStr.nonempty (error_message result) then recipe_history
  else
    let recipe_history := recipe_history ++ [final_recipe result] in
    if (10 <? List.length recipe_history)%nat then tl recipe_history
    else recipe_history.

(** The two credentials kept in [st.session_state]; both start as
    [None]. *)
Record ApiKeys : Type := {
  session_openai_api_key : option string;
  session_tavily_api_key : option string
}.

Definition initial_keys : ApiKeys :=
  {| session_openai_api_key := None; session_tavily_api_key := None |}.

(** What the user can do in the sidebar: submit either key form with the
    text typed, or press "Clear All API Keys". *)
Inductive key_action : Type :=
| SetOpenAIKey (input : string)
| SetTavilyKey (input : string)
| ClearAllKeys.

(** The effect of [render_api_configuration] on the stored credentials. *)
Definition render_api_configuration (keys : ApiKeys) (action : key_action)
  : ApiKeys :=
  match action with
  | SetOpenAIKey openai_api_key =>
      if PyStr.nonempty openai_api_key && String.prefix "sk-" openai_api_key
      then {| session_openai_api_key := Some openai_api_key;
              session_tavily_api_key := session_tavily_api_key keys |}
      else keys
  | SetTavilyKey tavily_api_key =>
      if PyStr.nonempty tavily_api_key
         && (10 <? PyStr.char_count tavily_api_key)%nat
      then {| session_openai_api_key := session_openai_api_key keys;
              session_tavily_api_key := Some tavily_api_key |}
      else keys
  | ClearAllKeys =>
      {| session_openai_api_key := None; session_tavily_api_key := None |}
  end.

(** The credentials that [process_recipe_generation] gives to
    [WorkflowService]. *)
Definition workflow_config (keys : ApiKeys) : Config :=
  {| tavily_api_key := session_tavily_api_key keys |}.

End RecipeAIApp.

(** ** The display of a recipe ([src/ui/components.py]) *)

Module RecipeUI.

(** [s.replace(old, '')] for a non-empty [old]: the occurrences are found
    from left to right and do not overlap.  [skip] counts the bytes of the
    occurrence at hand that are still to be dropped.  In UTF-8 an occurrence
    of a well-formed [old] starts and ends at code-point boundaries, so the
    bytes removed are those of the code points that Python removes. *)
Fixpoint remove_from (old s : string) (skip : nat) : string :=
  match s with
  | EmptyString => EmptyString
  | String c r =>
      match skip with
      | S k => remove_from old r k
      | O =>
          if String.prefix old s
          then remove_from old r (String.length old - 1)
          else String c (remove_from old r 0)
      end
  end.

Definition remove (old s : string) : string := remove_from old s 0.

(** [ingredient.replace(bullet, '').strip()], the bullet followed by a
    space *)
Definition clean_ingredient (ingredient : string) : string :=
  PyStr.strip (remove RecipeService.bullet ingredient).

(** What [display_ingredients_list] puts on the page. *)
Inductive ingredients_view : Type :=
| NothingShown
| IngredientRows (rows : list string)
| NoIngredientsListed.

Fixpoint clean_rows (items : list pyval) : outcome (list string) :=
  match items with
  | [] => Returns []
  | PStr ingredient :: r =>
      obind (clean_rows r)
        (fun t => Returns (clean_ingredient ingredient :: t))
  | _ :: _ => Raises "AttributeError: object has no attribute 'replace'"
  end.

Definition display_ingredients_list (recipe : pyval)
  : outcome ingredients_view :=
  if negb (Py.truthy recipe) then Returns NothingShown
  else
    obind (Py.contains "ingredients" recipe) (fun present =>
    if negb present then Returns NothingShown
    else
      obind (Py.getitem recipe "ingredients") (fun ingredient_list =>
      match ingredient_list with
      | PList (x :: r) =>
          obind (clean_rows (x :: r)) (fun rows => Returns (IngredientRows rows))
      | _ => Returns NoIngredientsListed
      end)).

End RecipeUI.

(** ** Observations used by the properties of the repository's code *)

(** The three sections of a combined reply, when the reply is a dict that
    holds all of them. *)
Definition reply_sections (data : pyval) : option (pyval * pyval * pyval) :=
  match data with
  | PDict d =>
      match dict_get d "recipe", dict_get d "nutrition",
            dict_get d "shopping_list" with
      | Some recipe, Some nutrition, Some shopping =>
          Some (recipe, nutrition, shopping)
      | _, _, _ => None
      end
  | _ => None
  end.

(** The state that leaves the draft stage with the sections of a reply. *)
Definition draft_from (recipe nutrition shopping : pyval)
    (state : RecipeState) : RecipeState :=
  set_final_recipe recipe
    (set_shopping_list shopping
       (set_nutrition_info nutrition
          (set_selected_recipe recipe
             (set_parsed_ingredients
                (map PStr (RecipeService.parse_ingredients
                             (ingredients state))) state)))).

(** A request that the validation of the application lets through. *)
Definition acceptable (key : option string) (form_ingredients : list string)
    (p : RecipeAIApp.Preferences) : Prop :=
  RecipeAIApp.key_ok key = true
  /\ (1 <= List.length form_ingredients <= 50)%nat
  /\ RecipeAIApp.pref_appliances p <> []
  /\ Forall (fun a => In a AppConfig.SUPPORTED_APPLIANCES)
       (RecipeAIApp.pref_appliances p)
  /\ In (RecipeAIApp.pref_skill_level p) AppConfig.SUPPORTED_SKILL_LEVELS
  /\ Forall (fun r => In r AppConfig.SUPPORTED_DIETARY_RESTRICTIONS)
       (RecipeAIApp.pref_dietary_restrictions p)
  /\ (RecipeAIApp.pref_cuisine_preference p = EmptyString
      \/ In (RecipeAIApp.pref_cuisine_preference p)
           AppConfig.SUPPORTED_CUISINES).

(** Credentials as the two key forms accept them. *)
Definition stored_keys_valid (keys : RecipeAIApp.ApiKeys) : Prop :=
  match RecipeAIApp.session_openai_api_key keys with
  | Some k => RecipeAIApp.key_ok (Some k) = true
  | None => True
  end
  /\ match RecipeAIApp.session_tavily_api_key keys with
     | Some k => PyStr.nonempty k = true
     | None => True
     end.

(** [c in s] for a character [c]. *)
Fixpoint has_char (c : ascii) (s : string) : bool :=
  match s with
  | EmptyString => false
  | String d r => Ascii.eqb d c || has_char c r
  end.

(** ** The search loop and the tips as the specification words them *)

(** "A query failure whose error text indicates an authentication
    problem". *)
Definition aborts_search (W : World) (query : string) : bool :=
  match tavily_search W query 2 with
  | Raises e => is_auth_error e
  | Returns _ => false
  end.

(** The queries that are issued: one after the other, and none after a
    query that aborts the search. *)
Fixpoint issued_spec (W : World) (queries : list string) : list string :=
  match queries with
  | [] => []
  | q :: rest => q :: (if aborts_search W q then [] else issued_spec W rest)
  end.

(** What one query adds to the result set: the records of its response,
    nothing when it fails. *)
Definition added_by (W : World) (query : string) : list search_result :=
  match tavily_search W query 2 with
  | Returns response => collect query response
  | Raises _ => []
  end.

(** The result set: what the issued queries added, in their order. *)
Definition collected_spec (W : World) (queries : list string)
  : list search_result :=
  flat_map (added_by W) (issued_spec W queries).

(** "The lines split from its own generation response": the lines of the
    reply, trimmed, without the blank ones. *)
Definition response_lines_spec (content : string) : list string :=
  filter PyStr.nonempty (map PyStr.strip (PyStr.split PyStr.newline content)).

(** ** More sample inputs *)

Module Scenarios.

(** The form as it is first shown, with three ingredients picked. *)
Definition default_preferences : RecipeAIApp.Preferences :=
  {| RecipeAIApp.pref_appliances := ["Oven"; "Stovetop"];
     RecipeAIApp.pref_skill_level := "Beginner";
     RecipeAIApp.pref_dietary_restrictions := [];
     RecipeAIApp.pref_cuisine_preference := "Any" |}.

Definition picked_ingredients : list string :=
  ["chicken"; "rice"; "broccoli"].

Definition stored_key : option string := Some "sk-0123456789".


(** A combined reply whose recipe has the three short steps. *)
Definition short_recipe : pyval :=
  PDict
    [ ("name", PStr "Chicken and rice");
      ("appliance_used", PStr "Oven");
      ("ingredients", Py.of_strings ["chicken"; "rice"; "broccoli"]);
      ("instructions", Py.of_strings Samples.short_steps) ].

Definition short_reply : pyval :=
  PDict
    [ ("recipe", short_recipe);
      ("nutrition", PDict [("calories_per_serving", PInt 350)]);
      ("shopping_list", PList []) ].

(** The combined call answers with that reply, and the correction call
    answers with a string where a list of steps is asked for. *)
Definition string_reply_world : World :=
  {| json_loads := fun text =>
       if String.eqb text "combined" then Some short_reply
       else if String.eqb text "completion"
       then Some (PDict [("complete_instructions", PStr "Cook.")])
       else None;
     py_str := Samples.show;
     tavily_search := fun _ _ => Raises "connection refused";
     llm_combined := fun _ _ _ _ _ => Returns "combined";
     llm_tips := fun _ _ _ => Raises "GenerationFailure";
     llm_compile := fun _ _ _ _ _ => Raises "GenerationFailure";
     llm_enhance := fun _ _ _ _ _ => Raises "GenerationFailure";
     llm_completion := fun _ _ _ => Returns "completion" |}.

(** The correction call answers with five steps. *)
Definition five_steps : list string :=
  [ "Step 1: wash and chop."; "Step 2: season."; "Step 3: sear.";
    "Step 4: rest."; "Step 5: serve." ].

Definition five_step_world : World :=
  {| json_loads := fun text =>
       if String.eqb text "completion"
       then Some (PDict [("complete_instructions", Py.of_strings five_steps)])
       else None;
     py_str := Samples.show;
     tavily_search := fun _ _ => Raises "connection refused";
     llm_combined := fun _ _ _ _ _ => Raises "GenerationFailure";
     llm_tips := fun _ _ _ => Raises "GenerationFailure";
     llm_compile := fun _ _ _ _ _ => Raises "GenerationFailure";
     llm_enhance := fun _ _ _ _ _ => Raises "GenerationFailure";
     llm_completion := fun _ _ _ => Returns "completion" |}.

(** A reply of the tips call: two tips, a blank line between them and white
    space around the second. *)
Definition tips_reply : string :=
  "1. Rest the meat before slicing

   2. Slice against the grain  ".

(** A recipe as the compilation chain returns it. *)
Definition compiled_recipe : dict :=
  [ ("name", PStr "Chicken and rice");
    ("description", PStr "Seared chicken on rice with broccoli");
    ("ingredients", Py.of_strings ["chicken"; "rice"; "broccoli"]);
    ("instructions", Py.of_strings Samples.long_steps);
    ("prep_time", PInt 15);
    ("cook_time", PInt 30);
    ("total_time", PInt 45);
    ("servings", PInt 4);
    ("difficulty", PStr "Easy");
    ("cuisine_type", PStr "International");
    ("appliance_used", PStr "Oven");
    ("nutrition", PDict RecipeService.fallback_nutrition);
    ("tips", Py.of_strings ["Rest the meat"]);
    ("variations", Py.of_strings ["Use tofu"]);
    ("storage_instructions", PStr "Store in refrigerator for up to 3 days");
    ("emoji_representation", PStr "chicken") ].

(** Every provider answers: the search finds one page, the enhancement call
    returns [B; C; D], the tips call returns [tips_reply]. *)
Definition answering_world : World :=
  {| json_loads := fun text =>
       if String.eqb text "enhanced"
       then Some (Py.of_strings ["B"; "C"; "D"]) else None;
     py_str := Samples.show;
     tavily_search := fun _ _ => Returns (Some [Samples.one_hit]);
     llm_combined := fun _ _ _ _ _ => Raises "GenerationFailure";
     llm_tips := fun _ _ _ => Returns tips_reply;
     llm_compile := fun _ _ _ _ _ => Returns compiled_recipe;
     llm_enhance := fun _ _ _ _ _ => Returns "enhanced";
     llm_completion := fun _ _ _ => Raises "GenerationFailure" |}.

(** The sample request after a draft stage that stored a named recipe. *)
Definition drafted_request : RecipeState :=
  draft_from (PDict [ ("name", PStr "Chicken and rice");
                      ("ingredients",
                        Py.of_strings ["chicken"; "rice"; "broccoli"]);
                      ("instructions", Py.of_strings Samples.long_steps) ])
    (PDict RecipeService.fallback_nutrition) (PList []) Samples.request.

End Scenarios.

(** ** Proof support *)

Ltac exec_unfold :=
  unfold bind, try_except, ret, raise, emit, lift, result, trace in *;
  cbn [fst snd app] in *.

Ltac break_inner x :=
  lazymatch x with
  | context [match ?y with _ => _ end] => break_inner y
  | _ => destruct x eqn:?
  end.

Ltac break_match :=
  match goal with
  | |- context [match ?x with _ => _ end] => break_inner x
  end.

(** ** The Recipe Draft Generator *)

Section DraftGenerator.

Variable W : World.

Lemma combined_node_cases (s : RecipeState) :
  exists recipe nutrition shopping,
    combined_recipe_generation_node W s =
    (Returns (set_final_recipe recipe
                (set_shopping_list shopping
                   (set_nutrition_info nutrition
                      (set_selected_recipe recipe
                         (set_parsed_ingredients
                            (map PStr (RecipeService.parse_ingredients
                                         (ingredients s))) s))))),
     [EvStage St_combined_recipe_generation; EvLLM Call_combined])
    /\ (recipe = PDict (RecipeService.fallback_recipe (ingredients s)
                          (appliance s))
        \/ exists data, usable_reply W s data
                        /\ Py.getitem data "recipe" = Returns recipe).
Proof.
  unfold usable_reply, combined_recipe_generation_node,
    RecipeService.generate_combined_recipe,
    LLMService.generate_json_response.
  cbn [ingredients available_appliances skill_level dietary_restrictions
       cuisine_preference appliance set_parsed_ingredients].
  destruct (llm_combined W _ _ _ _ _) as [content|e].
  - destruct (json_loads W content) as [v|] eqn:Hjson.
    + exec_unfold.
      destruct (RecipeService.validate_recipe_data v) as [[|]|e]; cbn.
      * destruct (Py.getitem v "recipe") as [r|e] eqn:Hr; cbn;
        destruct (Py.getitem v "nutrition") as [n|e']; cbn;
        destruct (Py.getitem v "shopping_list") as [sh|e'']; cbn;
        do 3 eexists; (split; [reflexivity|]);
        first [ right; exists v; split; [exists content; now split | exact Hr]
              | now left ].
      * do 3 eexists; split; [reflexivity | now left].
      * do 3 eexists; split; [reflexivity | now left].
    + exec_unfold. do 3 eexists; split; [reflexivity | now left].
  - exec_unfold. do 3 eexists; split; [reflexivity | now left].
Qed.

Lemma combined_node_fallback (s : RecipeState) (e : exn) :
  llm_combined W (ingredients s) (available_appliances s) (skill_level s)
    (dietary_restrictions s) (cuisine_preference s) = Raises e ->
  combined_recipe_generation_node W s =
  (Returns (fallback_draft s),
   [EvStage St_combined_recipe_generation; EvLLM Call_combined]).
Proof.
  intros H.
  unfold combined_recipe_generation_node,
    RecipeService.generate_combined_recipe,
    LLMService.generate_json_response.
  cbn [ingredients available_appliances skill_level dietary_restrictions
       cuisine_preference appliance set_parsed_ingredients].
  rewrite H. reflexivity.
Qed.

(** C5.  The draft stage returns on every state, whatever the providers do;
    and when the model call raises, it returns the local fallback draft,
    whose ingredients are the input ingredients with the bullet prefix and
    whose total time is the sum of its preparation and cooking times. *)
Theorem draft_fallback_is_deterministic (s : RecipeState) :
  (exists s',
      result (combined_recipe_generation_node W s) = Returns s')
  /\ ((exists e,
         llm_combined W (ingredients s) (available_appliances s)
           (skill_level s) (dietary_restrictions s) (cuisine_preference s)
         = Raises e) ->
      result (combined_recipe_generation_node W s)
      = Returns (fallback_draft s)
      /\ Py.getitem (selected_recipe (fallback_draft s)) "ingredients"
         = Returns (Py.of_strings
                      (map (fun i => "• " +++ i) (ingredients s)))
      /\ exists prep cook : Z,
           Py.getitem (selected_recipe (fallback_draft s)) "prep_time"
           = Returns (PInt prep)
           /\ Py.getitem (selected_recipe (fallback_draft s)) "cook_time"
              = Returns (PInt cook)
           /\ Py.getitem (selected_recipe (fallback_draft s)) "total_time"
              = Returns (PInt (prep + cook))).
Proof.
  split.
  - destruct (combined_node_cases s) as (r & n & sh & H & _).
    rewrite H. eexists. reflexivity.
  - intros [e He]. rewrite (combined_node_fallback s e He).
    split; [reflexivity|]. split; [reflexivity|].
    exists 15%Z, 30%Z. repeat split.
Qed.


End DraftGenerator.

(** ** The nodes of [nodes.py]: what each leaves in the state *)

Section Nodes.

Variable W : World.

Lemma cooking_tips_node_eq (s : RecipeState) :
  cooking_tips_node W s =
  (Returns
     (match llm_tips W (selected_recipe s) (appliance_line s)
              (skill_level s) with
      | Returns content =>
          set_processing_step "cooking_tips_complete"
            (set_cooking_tips (split_tips content)
               (set_processing_step "cooking_tips" s))
      | Raises _ =>
          set_cooking_tips generic_tips (set_processing_step "cooking_tips" s)
      end),
   [EvStage St_cooking_tips; EvLLM Call_tips]).
Proof.
  unfold cooking_tips_node. exec_unfold.
  change (appliance_line (set_processing_step "cooking_tips" s))
    with (appliance_line s).
  change (selected_recipe (set_processing_step "cooking_tips" s))
    with (selected_recipe s).
  change (skill_level (set_processing_step "cooking_tips" s))
    with (skill_level s).
  destruct (llm_tips W _ _ _); reflexivity.
Qed.

Lemma perform_searches_cases (qs : list string) :
  forall acc, exists res k,
    perform_searches W qs acc
    = (Returns res, map (fun q => EvSearch q 2) (firstn k qs)).
Proof.
  induction qs as [|q rest IH]; intros acc.
  - exists acc, 0%nat. reflexivity.
  - cbn [perform_searches]. exec_unfold.
    destruct (tavily_search W q 2) as [response|e].
    + destruct (IH (acc ++ collect q response)) as (res & k & H).
      exists res, (S k). rewrite H. reflexivity.
    + destruct (is_auth_error e).
      * exists acc, 1%nat. reflexivity.
      * destruct (IH acc) as (res & k & H).
        exists res, (S k). rewrite H. reflexivity.
Qed.

Lemma search_queries_length (s : RecipeState) (qs : list string) :
  search_queries W s = Returns qs -> (List.length qs <= 3)%nat.
Proof.
  unfold search_queries, obind.
  destruct (Py.get _ _ _) as [name|]; [|discriminate].
  destruct (Py.truthy name);
    [destruct (Py.getitem _ _); [|discriminate]|];
    destruct (ingredients s); destruct (available_appliances s);
    intros H; injection H as <-; cbn; lia.
Qed.

Lemma online_search_node_cases (cfg : Config) (s : RecipeState) :
  exists s' k qs,
    online_search_node W cfg s
    = (Returns s',
       EvStage St_online_search
       :: map (fun q => EvSearch q 2) (firstn k (firstn 2 qs)))
    /\ request_kept s s' /\ latch_kept s s'
    /\ selected_recipe s' = selected_recipe s
    /\ cooking_tips s' = cooking_tips s
    /\ final_recipe s' = final_recipe s.
Proof.
  unfold online_search_node, request_kept, latch_kept. exec_unfold.
  destruct (tavily_client cfg); cbn [negb].
  - destruct (search_queries W _) as [qs|e] eqn:Hq; cbn [fst snd app].
    + destruct (perform_searches_cases (firstn 2 qs) []) as (res & k & H).
      rewrite H. cbn [fst snd app]. rewrite app_nil_r.
      eexists. exists k, qs. split; [reflexivity|]. now repeat split.
    + eexists. exists 0%nat, []. split; [reflexivity|]. now repeat split.
  - eexists. exists 0%nat, []. split; [reflexivity|]. now repeat split.
Qed.

Lemma enhance_node_cases (s : RecipeState) :
  exists s' t,
    enhance_with_search_node W s
    = (Returns s', EvStage St_enhance_with_search :: t)
    /\ (t = [] \/ t = [EvLLM Call_enhance])
    /\ request_kept s s' /\ latch_kept s s'
    /\ selected_recipe s' = selected_recipe s
    /\ final_recipe s' = final_recipe s.
Proof.
  unfold enhance_with_search_node, request_kept, latch_kept. exec_unfold.
  repeat (break_match; cbn [fst snd app]);
    do 2 eexists; (split; [reflexivity|]); (split; [auto|]);
    now repeat split.
Qed.

Lemma compiler_node_cases (s : RecipeState) :
  trace (final_recipe_compiler_node W s)
  = [EvStage St_final_recipe_compiler; EvLLM Call_compile]
  /\ forall s', result (final_recipe_compiler_node W s) = Returns s' ->
       request_kept s s' /\ latch_kept s s'
       /\ cooking_tips s' = cooking_tips s
       /\ selected_recipe s' = selected_recipe s.
Proof.
  unfold final_recipe_compiler_node, request_kept, latch_kept. exec_unfold.
  repeat (break_match; cbn [fst snd app]); (split; [reflexivity|]);
    intros s' H; try discriminate; injection H as <-; now repeat split.
Qed.

Lemma instruction_completion_node_cases (s : RecipeState) :
  exists s' t,
    instruction_completion_node W s
    = (Returns s', EvStage St_instruction_completion :: t)
    /\ (t = [] \/ t = [EvLLM Call_completion])
    /\ request_kept s s' /\ latch_kept s s'
    /\ cooking_tips s' = cooking_tips s.
Proof.
  unfold instruction_completion_node, complete_instructions_of,
    request_kept, latch_kept.
  exec_unfold.
  repeat (break_match; cbn [fst snd app]);
    do 2 eexists; (split; [reflexivity|]); (split; [auto|]);
    now repeat split.
Qed.

End Nodes.

(** ** The Research Augmenter: merging the tips *)

Section Merge.

Lemma mem_In (x : string) (l : list string) : mem x l = true <-> In x l.
Proof.
  unfold mem. rewrite existsb_exists. split.
  - intros (y & Hy & E). apply String.eqb_eq in E. now subst.
  - intros H. exists x. split; [exact H | apply String.eqb_refl].
Qed.

Lemma filter_filter {A : Type} (p q : A -> bool) (l : list A) :
  filter p (filter q l) = filter (fun x => q x && p x) l.
Proof.
  induction l as [|a l IH]; [reflexivity|].
  cbn. destruct (q a); cbn; [destruct (p a)|]; now rewrite IH.
Qed.

(** The loop of the source computes [dedup] on the strings it is given:
    with [seen] holding the strings of [unique], it appends to [unique] the
    first occurrences that are not in it yet. *)
Lemma unique_loop_spec (all_tips : list pyval) :
  forall unique seen,
    (forall x, mem x seen = mem x unique) ->
    unique_loop all_tips unique seen
    = unique ++ filter (fun y => negb (mem y unique))
                  (dedup (strings_of all_tips)).
Proof.
  induction all_tips as [|tip rest IH]; intros unique seen Hseen.
  - cbn. now rewrite app_nil_r.
  - destruct tip; cbn [unique_loop strings_of]; try (apply IH; exact Hseen).
    cbn [dedup filter].
    change (existsb (String.eqb s) seen) with (mem s seen).
    rewrite Hseen. destruct (mem s unique) eqn:Hs; cbn [negb].
    + rewrite (IH _ _ Hseen). f_equal.
      rewrite filter_filter. apply filter_ext_in. intros y _.
      destruct (String.eqb y s) eqn:E; cbn; [|reflexivity].
      apply String.eqb_eq in E. subst y. now rewrite Hs.
    + rewrite (IH (unique ++ [s]) (s :: seen)).
      * rewrite <- app_assoc. cbn [app]. do 2 f_equal.
        rewrite filter_filter. apply filter_ext. intros y.
        unfold mem. rewrite existsb_app. cbn [existsb].
        rewrite orb_false_r, negb_orb. apply andb_comm.
      * intros x. unfold mem in *. rewrite existsb_app. cbn [existsb].
        rewrite Hseen, orb_false_r. apply orb_comm.
Qed.

Lemma strings_of_app (l m : list pyval) :
  strings_of (l ++ m) = strings_of l ++ strings_of m.
Proof.
  induction l as [|v l IH]; [reflexivity|].
  destruct v; cbn; now rewrite ?IH.
Qed.

Lemma strings_of_strings (l : list string) : strings_of (map PStr l) = l.
Proof. induction l as [|s l IH]; cbn; now rewrite ?IH. Qed.

Lemma merge_tips_spec (current : list string) (enhanced : list pyval) :
  merge_tips current enhanced
  = merged_tips_spec current (strings_of enhanced).
Proof.
  unfold merge_tips, merged_tips_spec.
  rewrite (unique_loop_spec _ [] []) by reflexivity.
  cbn [app mem existsb negb].
  rewrite strings_of_app, strings_of_strings. f_equal.
  induction (dedup _) as [|x l IH]; cbn; now rewrite ?IH.
Qed.

Lemma dedup_In (x : string) (l : list string) : In x (dedup l) <-> In x l.
Proof.
  induction l as [|a l IH]; [reflexivity|].
  cbn [dedup In]. rewrite filter_In, IH.
  destruct (String.eqb x a) eqn:E.
  - apply String.eqb_eq in E. subst. intuition congruence.
  - apply String.eqb_neq in E. cbn. intuition congruence.
Qed.

Lemma NoDup_filter {A : Type} (p : A -> bool) (l : list A) :
  NoDup l -> NoDup (filter p l).
Proof.
  induction 1 as [|a l Hin Hnd IH]; cbn; [constructor|].
  destruct (p a); [constructor|]; auto.
  rewrite filter_In. tauto.
Qed.

Lemma dedup_NoDup (l : list string) : NoDup (dedup l).
Proof.
  induction l as [|a l IH]; cbn; constructor.
  - rewrite filter_In, String.eqb_refl. cbn. intros [_ H]. discriminate.
  - now apply NoDup_filter.
Qed.

Lemma NoDup_firstn {A : Type} (n : nat) (l : list A) :
  NoDup l -> NoDup (firstn n l).
Proof.
  revert l. induction n as [|n IH]; intros l H; cbn; [constructor|].
  destruct H as [|a l Hin Hnd]; constructor; auto.
  intros Hf. apply Hin. rewrite <- (firstn_skipn n l).
  apply in_or_app. now left.
Qed.

End Merge.

Section Augmenter.

Variable W : World.

Lemma enhance_latched (s : RecipeState) :
  search_enhancement_complete s = true ->
  enhance_with_search_node W s
  = (Returns (set_processing_step "search_enhancement" s),
     [EvStage St_enhance_with_search]).
Proof.
  intros H. unfold enhance_with_search_node. exec_unfold.
  change (search_enhancement_complete
            (set_processing_step "search_enhancement" s))
    with (search_enhancement_complete s).
  rewrite H. reflexivity.
Qed.

Lemma enhance_merges (s : RecipeState) (c : string) (cs : list string)
    (name : pyval) (content : string) (enhanced : list pyval) :
  search_enhancement_complete s = false ->
  search_enhanced s = true ->
  search_content_of (online_search_results s) = c :: cs ->
  Py.get (selected_recipe s) "name" (PStr "Unknown Recipe") = Returns name ->
  enhance_call W s (c :: cs) name = Returns content ->
  json_loads W content = Some (PList enhanced) ->
  enhance_with_search_node W s
  = (Returns
       (set_search_enhancement_complete true
          (set_processing_step "search_enhancement_complete"
             (set_cooking_tips (merge_tips (cooking_tips s) enhanced)
                (set_processing_step "search_enhancement" s)))),
     [EvStage St_enhance_with_search; EvLLM Call_enhance]).
Proof.
  intros Hlatch Hsearch Hcontent Hname Hcall Hjson.
  unfold enhance_with_search_node. exec_unfold.
  set (s1 := set_processing_step "search_enhancement" s).
  change (search_enhancement_complete s1)
    with (search_enhancement_complete s).
  change (search_enhanced s1) with (search_enhanced s).
  change (online_search_results s1) with (online_search_results s).
  change (selected_recipe s1) with (selected_recipe s).
  change (cooking_tips s1) with (cooking_tips s).
  rewrite Hlatch, Hsearch, Hcontent, Hname.
  assert (Hres : has_results (online_search_results s) = true).
  { destruct (online_search_results s); [discriminate Hcontent|reflexivity]. }
  rewrite Hres. cbn [negb orb fst snd app].
  change (enhance_call W s1 (c :: cs) name)
    with (enhance_call W s (c :: cs) name).
  rewrite Hcall. cbn [fst snd app]. rewrite Hjson. reflexivity.
Qed.

(** C4.  When the enhancement call returns text that parses as a JSON
    list, the tips stored are the existing tips followed by the strings of
    that list, each kept at its first occurrence, cut to 8 entries: no
    duplicate, at most 8, and the latch is set.  Existing [A; B] merged with
    [B; C; D] gives [A; B; C; D]. *)
Theorem enhancement_merges_in_order_without_duplicates
    (s : RecipeState) (c : string) (cs : list string) (name : pyval)
    (content : string) (enhanced : list pyval) :
  search_enhancement_complete s = false ->
  search_enhanced s = true ->
  search_content_of (online_search_results s) = c :: cs ->
  Py.get (selected_recipe s) "name" (PStr "Unknown Recipe") = Returns name ->
  enhance_call W s (c :: cs) name = Returns content ->
  json_loads W content = Some (PList enhanced) ->
  exists s',
    result (enhance_with_search_node W s) = Returns s'
    /\ cooking_tips s'
       = merged_tips_spec (cooking_tips s) (strings_of enhanced)
    /\ NoDup (cooking_tips s')
    /\ (List.length (cooking_tips s') <= 8)%nat
    /\ search_enhancement_complete s' = true
    /\ merged_tips_spec ["A"; "B"] (strings_of [PStr "B"; PStr "C"; PStr "D"])
       = ["A"; "B"; "C"; "D"].
Proof.
  intros Hlatch Hsearch Hcontent Hname Hcall Hjson.
  rewrite (enhance_merges s c cs name content enhanced) by assumption.
  eexists. split; [reflexivity|].
  cbn [cooking_tips set_search_enhancement_complete set_processing_step
       set_cooking_tips search_enhancement_complete].
  rewrite merge_tips_spec. unfold merged_tips_spec.
  split; [reflexivity|]. split; [apply NoDup_firstn, dedup_NoDup|].
  split; [apply firstn_le_length|]. split; reflexivity.
Qed.

End Augmenter.

(** ** The Instruction Completeness Auditor *)

Section Auditor.

Variable W : World.

Lemma lengths_strings (l : list string) :
  lengths (map PStr l) = Returns (map PyStr.char_count l).
Proof.
  induction l as [|s l IH]; [reflexivity|].
  cbn [map lengths Py.len obind]. now rewrite IH.
Qed.

Lemma needs_completion_strings (steps : list string) :
  needs_completion (Py.of_strings steps)
  = Returns (needs_completion_on steps).
Proof.
  unfold needs_completion, needs_completion_on, Py.of_strings.
  destruct steps as [|a steps]; [reflexivity|].
  cbn [map Py.truthy negb Py.len Py.iter obind List.length].
  rewrite length_map.
  destruct (_ <? 3)%nat; [reflexivity|].
  change (PStr a :: map PStr steps) with (map PStr (a :: steps)).
  now rewrite lengths_strings.
Qed.

Lemma Qltb_lt (a b : Q) : Qltb a b = true <-> (a < b)%Q.
Proof.
  unfold Qltb. rewrite negb_true_iff, <- not_true_iff_false, Qle_bool_iff.
  split; [apply Qnot_le_lt | apply Qlt_not_le].
Qed.

(** The heuristic of the source is the trigger of the specification. *)
Lemma needs_completion_on_spec (steps : list string) :
  needs_completion_on steps = true <-> judged_incomplete steps.
Proof.
  unfold needs_completion_on, judged_incomplete.
  destruct steps as [|a steps].
  - split; [intros _; left; cbn; lia | reflexivity].
  - destruct (Nat.ltb_spec (List.length (a :: steps)) 3) as [Hlt|Hge].
    + split; [intros _; now left | reflexivity].
    + rewrite Qltb_lt. unfold mean_char_length. split.
      * intros H. now right.
      * intros [H|H]; [lia | exact H].
Qed.

Ltac auditor_start Haud :=
  destruct Haud as (Hfin & Hne & Hinstr & Hjoin);
  unfold instruction_completion_node, correction_reply in *;
  match goal with
  | |- context [set_processing_step "instruction_completion" ?s] =>
      set (s1 := set_processing_step "instruction_completion" s);
      change (final_recipe s1) with (final_recipe s)
  end;
  rewrite Hfin;
  match goal with
  | |- context [Py.truthy (PDict ?d)] =>
      replace (Py.truthy (PDict d)) with true
        by (destruct d; [contradiction|reflexivity])
  end;
  cbn [negb Py.get]; rewrite Hinstr;
  exec_unfold; rewrite needs_completion_strings.


Lemma auditor_skips (s : RecipeState) (d : dict) (steps : list string)
    (joined : string) :
  audited_recipe s d steps joined ->
  needs_completion_on steps = false ->
  instruction_completion_node W s
  = (Returns (set_processing_step "instruction_completion_complete"
                (set_processing_step "instruction_completion" s)),
     [EvStage St_instruction_completion]).
Proof.
  intros Haud Hneeds. auditor_start Haud. rewrite Hneeds. reflexivity.
Qed.

Lemma auditor_attempts (s : RecipeState) (d : dict) (steps : list string)
    (joined : string) :
  audited_recipe s d steps joined ->
  needs_completion_on steps = true ->
  exists s',
    instruction_completion_node W s
    = (Returns s', [EvStage St_instruction_completion; EvLLM Call_completion]).
Proof.
  intros Haud Hneeds. auditor_start Haud. rewrite Hneeds.
  unfold complete_instructions_of. exec_unfold. cbn [Py.get].
  rewrite Hjoin. cbn [fst snd app].
  repeat (break_match; cbn [fst snd app]); eexists; reflexivity.
Qed.

Lemma auditor_outcome (s : RecipeState) (d : dict) (steps : list string)
    (joined content : string) (r : dict) (new : list pyval) :
  audited_recipe s d steps joined ->
  needs_completion_on steps = true ->
  correction_reply W d steps joined = Returns content ->
  json_loads W content = Some (PDict r) ->
  dict_get_or r "complete_instructions" (PList []) = PList new ->
  result (instruction_completion_node W s)
  = Returns
      (let s1 := set_processing_step "instruction_completion" s in
       let recipe := PDict (dict_set d "instructions" (PList new)) in
       set_processing_step "instruction_completion_complete"
         (if (List.length steps <? List.length new)%nat
          then set_selected_recipe recipe (set_final_recipe recipe s1)
          else s1)).
Proof.
  intros Haud Hneeds Hreply Hjson Hnew. auditor_start Haud. rewrite Hneeds.
  unfold complete_instructions_of. exec_unfold. cbn [Py.get].
  rewrite Hjoin. cbn [fst snd app]. rewrite Hreply. cbn [fst snd app].
  rewrite Hjson. cbn [Py.get fst snd app]. rewrite Hnew.
  destruct new as [|x new]; cbn [Py.truthy]; [reflexivity|].
  cbn [Py.len Py.of_strings fst snd app]. rewrite length_map.
  destruct (_ <? _)%nat; reflexivity.
Qed.

(** Whatever the state and the providers, the auditor leaves both recipe
    views alone unless the correction call returned a longer value. *)
Lemma auditor_changes_only_for_longer (s s' : RecipeState) :
  result (instruction_completion_node W s) = Returns s' ->
  (final_recipe s' = final_recipe s
   /\ selected_recipe s' = selected_recipe s)
  \/ replaced_by_longer W s s'.
Proof.
  unfold instruction_completion_node, complete_instructions_of,
    replaced_by_longer.
  set (s1 := set_processing_step "instruction_completion" s).
  change (final_recipe s1) with (final_recipe s).
  destruct (final_recipe s) as [| | | | | |d] eqn:Hfin;
    try (exec_unfold; cbn [Py.get Py.truthy negb];
         repeat (break_match; cbn [fst snd app]);
         intros H; injection H as <-; left;
         (split; [exact Hfin | reflexivity])).
  exec_unfold. cbn [Py.get set_instructions].
  repeat (break_match; cbn [fst snd app]);
    intros H; injection H as <-;
    try (left; (split; [exact Hfin | reflexivity])).
  right. exists d, a2, a4, a3, (dict_get_or d "name" (PStr "Unknown")), a0, a1, p.
  apply Nat.ltb_lt in Heqb2. repeat split; assumption || reflexivity.
Qed.

Lemma auditor_skips_complete (s : RecipeState) (d : dict)
    (steps : list string) :
  final_recipe s = PDict d ->
  d <> [] ->
  dict_get_or d "instructions" (PList []) = Py.of_strings steps ->
  needs_completion_on steps = false ->
  instruction_completion_node W s
  = (Returns (set_processing_step "instruction_completion_complete" s),
     [EvStage St_instruction_completion]).
Proof.
  intros Hfin Hne Hinstr Hneeds. unfold instruction_completion_node.
  set (s1 := set_processing_step "instruction_completion" s).
  change (final_recipe s1) with (final_recipe s). rewrite Hfin.
  replace (Py.truthy (PDict d)) with true
    by (destruct d; [contradiction | reflexivity]).
  cbn [negb Py.get]. rewrite Hinstr. exec_unfold.
  rewrite needs_completion_strings, Hneeds. reflexivity.
Qed.

(** The ingredients are joined into the prompt before the call is made:
    when they cannot be joined, the step ends without a call. *)
Lemma auditor_cannot_join (s : RecipeState) (d : dict)
    (steps : list string) (e : exn) :
  final_recipe s = PDict d ->
  d <> [] ->
  dict_get_or d "instructions" (PList []) = Py.of_strings steps ->
  needs_completion_on steps = true ->
  Py.join ", " (dict_get_or d "ingredients" (PList [])) = Raises e ->
  instruction_completion_node W s
  = (Returns (set_processing_step "instruction_completion" s),
     [EvStage St_instruction_completion]).
Proof.
  intros Hfin Hne Hinstr Hneeds Hjoin. unfold instruction_completion_node.
  set (s1 := set_processing_step "instruction_completion" s).
  change (final_recipe s1) with (final_recipe s). rewrite Hfin.
  replace (Py.truthy (PDict d)) with true
    by (destruct d; [contradiction | reflexivity]).
  cbn [negb Py.get]. rewrite Hinstr. exec_unfold.
  rewrite needs_completion_strings, Hneeds.
  unfold complete_instructions_of. exec_unfold. cbn [Py.get].
  rewrite Hjoin. reflexivity.
Qed.



Lemma dict_set_then_get (d : dict) (k : string) (v : pyval) :
  dict_get (dict_set d k v) k = Some v.
Proof.
  induction d as [|[k0 v0] d IH]; cbn [dict_set dict_get].
  - now rewrite String.eqb_refl.
  - destruct (String.eqb_spec k0 k) as [->|Hne]; cbn [dict_get].
    + now rewrite String.eqb_refl.
    + destruct (String.eqb_spec k0 k); [congruence | exact IH].
Qed.

(** Replies that hold a list.  When the correction call answers a recipe
    judged incomplete with a list, the instructions are replaced, in both
    the final and the selected recipe, exactly when that list is longer than
    the current one, and the new list is then what both recipes hold as
    instructions; a list of equal or smaller length leaves both recipes as
    they were.  And on any state, the auditor changes a recipe view only
    for a returned value, a list or not, that is not empty and whose length
    exceeds the number of current steps. *)
Theorem auditor_replaces_only_with_longer_list
    (s : RecipeState) (d : dict) (steps : list string)
    (joined content : string) (r : dict) (new : list pyval) :
  audited_recipe s d steps joined ->
  judged_incomplete steps ->
  correction_reply W d steps joined = Returns content ->
  json_loads W content = Some (PDict r) ->
  dict_get_or r "complete_instructions" (PList []) = PList new ->
  (exists s',
      result (instruction_completion_node W s) = Returns s'
      /\ ((List.length steps < List.length new)%nat ->
          final_recipe s' = PDict (dict_set d "instructions" (PList new))
          /\ selected_recipe s'
             = PDict (dict_set d "instructions" (PList new))
          /\ Py.getitem (final_recipe s') "instructions"
             = Returns (PList new)
          /\ Py.getitem (selected_recipe s') "instructions"
             = Returns (PList new))
      /\ ((List.length new <= List.length steps)%nat ->
          final_recipe s' = final_recipe s
          /\ selected_recipe s' = selected_recipe s))
  /\ (forall s0 s0',
        result (instruction_completion_node W s0) = Returns s0' ->
        (final_recipe s0' = final_recipe s0
         /\ selected_recipe s0' = selected_recipe s0)
        \/ replaced_by_longer W s0 s0').
Proof.
  intros Haud Hinc Hreply Hjson Hnew. split.
  - apply needs_completion_on_spec in Hinc.
    rewrite (auditor_outcome s d steps joined content r new) by assumption.
    eexists. split; [reflexivity|]. cbv zeta. split; intros Hlen.
    + apply Nat.ltb_lt in Hlen. rewrite Hlen.
      assert (Hread :
        Py.getitem (PDict (dict_set d "instructions" (PList new)))
          "instructions" = Returns (PList new)).
      { cbn [Py.getitem]. now rewrite dict_set_then_get. }
      split; [reflexivity|]. split; [reflexivity|]. split; exact Hread.
    + apply Nat.ltb_ge in Hlen. rewrite Hlen. split; reflexivity.
  - apply auditor_changes_only_for_longer.
Qed.

End Auditor.

(** ** The search stage *)

Section SearchStage.

Variable W : World.

Lemma searches_of_queries (qs : list string) :
  searches_of (map (fun q => EvSearch q 2) qs) = map (fun q => (q, 2%Z)) qs.
Proof. induction qs as [|q qs IH]; cbn; now rewrite ?IH. Qed.

Lemma stages_of_queries (qs : list string) :
  stages_of (map (fun q => EvSearch q 2) qs) = [].
Proof. induction qs as [|q qs IH]; cbn; now rewrite ?IH. Qed.

Lemma calls_of_queries (qs : list string) :
  calls_of (map (fun q => EvSearch q 2) qs) = [].
Proof. induction qs as [|q qs IH]; cbn; now rewrite ?IH. Qed.

Lemma collected_spec_cons (q : string) (rest : list string) :
  collected_spec W (q :: rest)
  = added_by W q ++ (if aborts_search W q then [] else collected_spec W rest).
Proof.
  unfold collected_spec. cbn [issued_spec flat_map].
  now destruct (aborts_search W q).
Qed.

(** The loop of the source issues the queries and collects the records
    that the specification's words describe. *)
Lemma perform_searches_spec (qs : list string) :
  forall acc,
    perform_searches W qs acc
    = (Returns (acc ++ collected_spec W qs),
       map (fun q => EvSearch q 2) (issued_spec W qs)).
Proof.
  induction qs as [|q rest IH]; intros acc.
  - cbn. now rewrite app_nil_r.
  - cbn [perform_searches]. exec_unfold.
    rewrite collected_spec_cons. cbn [issued_spec map].
    unfold aborts_search, added_by.
    destruct (tavily_search W q 2) as [response|e].
    + now rewrite IH, app_assoc.
    + destruct (is_auth_error e).
      * cbn [app map]. now rewrite app_nil_r.
      * now rewrite IH.
Qed.

Lemma search_node_spec (cfg : Config) (s : RecipeState) (qs : list string) :
  tavily_client cfg = true ->
  search_queries W s = Returns qs ->
  online_search_node W cfg s
  = (Returns
       (set_processing_step "online_search_complete"
          (set_search_enhanced (has_results (collected_spec W (firstn 2 qs)))
             (set_online_search_results (collected_spec W (firstn 2 qs))
                (set_processing_step "online_search" s)))),
     EvStage St_online_search
     :: map (fun q => EvSearch q 2) (issued_spec W (firstn 2 qs))).
Proof.
  intros Hclient Hqs. unfold online_search_node. exec_unfold.
  rewrite Hclient. cbn [negb].
  change (search_queries W (set_processing_step "online_search" s))
    with (search_queries W s).
  rewrite Hqs. cbn [fst snd app]. rewrite perform_searches_spec.
  cbn [fst snd app]. now rewrite app_nil_r.
Qed.

Lemma collected_spec_all_fail (qs : list string) :
  (forall q, In q qs -> exists e, tavily_search W q 2 = Raises e) ->
  collected_spec W qs = [].
Proof.
  induction qs as [|q rest IH]; intros Hfail; [reflexivity|].
  destruct (Hfail q (or_introl eq_refl)) as (e & He).
  rewrite collected_spec_cons. unfold added_by. rewrite He. cbn [app].
  destruct (aborts_search W q); [reflexivity|].
  apply IH. intros q' Hq'. apply Hfail. now right.
Qed.

(** C8.  The search stage returns in every case.  It issues at most 2 of
    the at most 3 queries it builds, each for 2 results.  With a search
    client, the queries issued are the first two in order, none after a
    query that failed with an authentication error; the result set stored
    in the state holds what the issued queries returned, in order, and the
    flag says whether it is non-empty.  So a failure that names an
    authentication problem ends the search with the results collected so
    far kept, any other failure goes on with the next query, and when every
    query fails the result set is empty, the flag false and the error
    message left alone. *)
Theorem search_is_bounded_and_tolerates_failures
    (cfg : Config) (s : RecipeState) :
  (exists s', result (online_search_node W cfg s) = Returns s')
  /\ (List.length (searches_of (trace (online_search_node W cfg s))) <= 2)%nat
  /\ Forall (fun request => snd request = 2%Z)
       (searches_of (trace (online_search_node W cfg s)))
  /\ (forall qs, search_queries W s = Returns qs -> (List.length qs <= 3)%nat)
  /\ (forall qs,
        tavily_client cfg = true ->
        search_queries W s = Returns qs ->
        exists s',
          result (online_search_node W cfg s) = Returns s'
          /\ searches_of (trace (online_search_node W cfg s))
             = map (fun q => (q, 2%Z)) (issued_spec W (firstn 2 qs))
          /\ online_search_results s' = collected_spec W (firstn 2 qs)
          /\ search_enhanced s'
             = has_results (collected_spec W (firstn 2 qs))
          /\ error_message s' = error_message s)
  /\ (forall q rest e,
        tavily_search W q 2 = Raises e -> is_auth_error e = true ->
        issued_spec W (q :: rest) = [q]
        /\ collected_spec W (q :: rest) = [])
  /\ (forall q rest e,
        tavily_search W q 2 = Raises e -> is_auth_error e = false ->
        issued_spec W (q :: rest) = q :: issued_spec W rest
        /\ collected_spec W (q :: rest) = collected_spec W rest)
  /\ (forall q rest response,
        tavily_search W q 2 = Returns response ->
        issued_spec W (q :: rest) = q :: issued_spec W rest
        /\ collected_spec W (q :: rest)
           = collect q response ++ collected_spec W rest)
  /\ (forall qs,
        tavily_client cfg = true ->
        search_queries W s = Returns qs ->
        (forall q, In q (firstn 2 qs) ->
                   exists e, tavily_search W q 2 = Raises e) ->
        exists s',
          result (online_search_node W cfg s) = Returns s'
          /\ online_search_results s' = []
          /\ search_enhanced s' = false
          /\ error_message s' = error_message s)
  /\ is_auth_error "401 Unauthorized: invalid API key" = true
  /\ is_auth_error "Invalid API Key provided" = true
  /\ is_auth_error "connection refused" = false.
Proof.
  destruct (online_search_node_cases W cfg s) as (s' & k & qs & H & _).
  split; [rewrite H; eexists; reflexivity|].
  split.
  { rewrite H. unfold trace. cbn [snd searches_of].
    rewrite searches_of_queries, length_map, !length_firstn. lia. }
  split.
  { rewrite H. unfold trace. cbn [snd searches_of].
    rewrite searches_of_queries.
    apply Forall_forall. intros [q n] Hin. apply in_map_iff in Hin.
    destruct Hin as (q' & E & _). now inversion E. }
  split; [apply search_queries_length|].
  split.
  { intros qs' Hclient Hqs.
    rewrite (search_node_spec cfg s qs' Hclient Hqs).
    eexists. split; [reflexivity|]. unfold trace.
    cbn [snd searches_of]. rewrite searches_of_queries.
    now repeat split. }
  split.
  { intros q rest e He Hauth. rewrite collected_spec_cons.
    cbn [issued_spec]. unfold aborts_search, added_by.
    now rewrite He, Hauth. }
  split.
  { intros q rest e He Hauth. rewrite collected_spec_cons.
    cbn [issued_spec]. unfold aborts_search, added_by.
    now rewrite He, Hauth. }
  split.
  { intros q rest response Hq. rewrite collected_spec_cons.
    cbn [issued_spec]. unfold aborts_search, added_by.
    now rewrite Hq. }
  split.
  { intros qs' Hclient Hqs Hfail.
    rewrite (search_node_spec cfg s qs' Hclient Hqs).
    rewrite (collected_spec_all_fail _ Hfail).
    eexists. split; [reflexivity|]. now repeat split. }
  split; [reflexivity|]. split; reflexivity.
Qed.

End SearchStage.

(** ** The tips stage and the compiler *)

Section TipsStage.

Variable W : World.

Lemma bind_assoc {A B C : Type} (m : Exec A) (f : A -> Exec B)
    (g : B -> Exec C) :
  bind (bind m f) g = bind m (fun x => bind (f x) g).
Proof.
  unfold bind. destruct m as [[a|e] t]; [|reflexivity].
  destruct (f a) as [[b|e] t']; [|reflexivity].
  destruct (g b) as [r t'']. now rewrite app_assoc.
Qed.

Lemma stages_of_app (t u : list event) :
  stages_of (t ++ u) = stages_of t ++ stages_of u.
Proof.
  induction t as [|ev t IH]; [reflexivity|].
  destruct ev; cbn; now rewrite IH.
Qed.

Lemma tips_outcome_ext (s s' : RecipeState) :
  request_kept s s' -> selected_recipe s' = selected_recipe s ->
  tips_outcome W s' = tips_outcome W s.
Proof.
  intros (_ & Ha & Hav & _ & _ & Hsk) Hsel.
  unfold tips_outcome, appliance_line. now rewrite Ha, Hav, Hsk, Hsel.
Qed.

Lemma cooking_tips_node_facts (s : RecipeState) :
  exists s',
    cooking_tips_node W s
    = (Returns s', [EvStage St_cooking_tips; EvLLM Call_tips])
    /\ cooking_tips s' = tips_outcome W s
    /\ request_kept s s' /\ latch_kept s s'
    /\ selected_recipe s' = selected_recipe s
    /\ final_recipe s' = final_recipe s.
Proof.
  rewrite cooking_tips_node_eq. unfold tips_outcome, request_kept, latch_kept.
  eexists. split; [reflexivity|].
  destruct (llm_tips W _ _ _); now repeat split.
Qed.

Lemma request_kept_trans (a b c : RecipeState) :
  request_kept a b -> request_kept b c -> request_kept a c.
Proof.
  unfold request_kept. intros (?&?&?&?&?&?) (?&?&?&?&?&?).
  repeat split; congruence.
Qed.

Lemma latch_kept_trans (a b c : RecipeState) :
  latch_kept a b -> latch_kept b c -> latch_kept a c.
Proof. unfold latch_kept. auto. Qed.

Lemma tips_stage_cases (cfg : Config) (s : RecipeState) :
  exists s1 enh t,
    tips_stage W cfg s = (Returns s1, t)
    /\ stages_of t
       = (if tavily_enabled cfg
          then St_online_search
               :: (if enh : bool then [St_enhance_with_search] else [])
          else [])
         ++ [St_cooking_tips]
    /\ cooking_tips s1 = tips_outcome W s
    /\ request_kept s s1 /\ latch_kept s s1
    /\ selected_recipe s1 = selected_recipe s.
Proof.
  unfold tips_stage. destruct (tavily_enabled cfg).
  - destruct (online_search_node_cases W cfg s)
      as (sa & k & qs & Hs & Hreq & Hlatch & Hsel & _ & _).
    destruct (has_results (online_search_results sa)) eqn:Hres.
    + destruct (enhance_node_cases W sa)
        as (sb & te & He & Hte & Hreq' & Hlatch' & Hsel' & _).
      destruct (cooking_tips_node_facts sb)
        as (sc & Hc & Htips & Hreq'' & Hlatch'' & Hsel'' & _).
      exists sc, true. eexists. split.
      { unfold bind at 2. rewrite Hs, Hres, He. unfold bind.
        rewrite Hc. reflexivity. }
      split.
      { cbn [stages_of app]. rewrite !stages_of_app, stages_of_queries.
        destruct Hte as [-> | ->]; reflexivity. }
      split.
      { rewrite Htips. apply tips_outcome_ext.
        - eapply request_kept_trans; eassumption.
        - congruence. }
      split; [eauto using request_kept_trans|].
      split; [eauto using latch_kept_trans | congruence].
    + destruct (cooking_tips_node_facts sa)
        as (sc & Hc & Htips & Hreq'' & Hlatch'' & Hsel'' & _).
      exists sc, false. eexists. split.
      { unfold bind at 2. rewrite Hs, Hres. unfold ret, bind.
        rewrite Hc. reflexivity. }
      split.
      { cbn [stages_of app]. rewrite !stages_of_app, stages_of_queries.
        reflexivity. }
      split; [rewrite Htips; now apply tips_outcome_ext|].
      split; [eauto using request_kept_trans|].
      split; [eauto using latch_kept_trans | congruence].
  - destruct (cooking_tips_node_facts s)
      as (sc & Hc & Htips & Hreq & Hlatch & Hsel & _).
    exists sc, false. eexists. split.
    { unfold ret, bind. rewrite Hc. reflexivity. }
    split; [reflexivity|]. split; [exact Htips|]. split; [exact Hreq|].
    split; [exact Hlatch | exact Hsel].
Qed.

Lemma enhanced_node_unfold (cfg : Config) (s : RecipeState) :
  enhanced_cooking_tips_node W cfg s
  = try_except
      (s1 <- tips_stage W cfg s ;; final_recipe_compiler_node W s1)
      (fun e => raise ("Error in enhanced cooking tips: " +++ e)).
Proof.
  unfold enhanced_cooking_tips_node, tips_stage.
  now rewrite bind_assoc.
Qed.

(** The tips stage again, with the state [sa] that left the search step:
    the enhancement step is entered exactly when that state holds search
    results. *)
Lemma tips_stage_stages (cfg : Config) (s : RecipeState) :
  exists sa s1 t,
    result (online_search_node W cfg s) = Returns sa
    /\ tips_stage W cfg s = (Returns s1, t)
    /\ stages_of t
       = (if tavily_enabled cfg
          then St_online_search
               :: (if has_results (online_search_results sa)
                   then [St_enhance_with_search] else [])
          else [])
         ++ [St_cooking_tips]
    /\ cooking_tips s1 = tips_outcome W s.
Proof.
  destruct (online_search_node_cases W cfg s)
    as (sa & k & qs & Hs & Hreq & _ & Hsel & _ & _).
  exists sa. unfold tips_stage. destruct (tavily_enabled cfg).
  - destruct (has_results (online_search_results sa)) eqn:Hres.
    + destruct (enhance_node_cases W sa)
        as (sb & te & He & Hte & Hreq' & _ & Hsel' & _).
      destruct (cooking_tips_node_facts sb) as (sc & Hc & Htips & _).
      exists sc. eexists. split; [now rewrite Hs|]. split.
      { unfold bind at 2. rewrite Hs, Hres, He. unfold bind.
        rewrite Hc. reflexivity. }
      split.
      { cbn [stages_of app]. rewrite !stages_of_app, stages_of_queries.
        destruct Hte as [-> | ->]; reflexivity. }
      rewrite Htips. apply tips_outcome_ext.
      * eapply request_kept_trans; eassumption.
      * congruence.
    + destruct (cooking_tips_node_facts sa) as (sc & Hc & Htips & _).
      exists sc. eexists. split; [now rewrite Hs|]. split.
      { unfold bind at 2. rewrite Hs, Hres. unfold ret, bind.
        rewrite Hc. reflexivity. }
      split.
      { cbn [stages_of app]. rewrite !stages_of_app, stages_of_queries.
        reflexivity. }
      rewrite Htips. now apply tips_outcome_ext.
  - destruct (cooking_tips_node_facts s) as (sc & Hc & Htips & _).
    exists sc. eexists. split; [now rewrite Hs|]. split.
    { unfold ret, bind. rewrite Hc. reflexivity. }
    split; [reflexivity | exact Htips].
Qed.

(** The list comprehension of the source keeps the lines that the
    specification's words name. *)
Lemma split_tips_spec (content : string) :
  split_tips content = response_lines_spec content.
Proof.
  unfold split_tips, response_lines_spec.
  induction (PyStr.split PyStr.newline content) as [|line l IH];
    [reflexivity|].
  cbn [map filter]. destruct (PyStr.nonempty (PyStr.strip line)); cbn [map];
    now rewrite IH.
Qed.

(** C9.  In the enhanced node the tips step runs after the search and the
    enhancement step, and the tips it leaves are the trimmed non-blank
    lines of the reply to its own request, or the 4 generic tips when that
    request fails.  This list depends on the recipe, the appliances and the
    skill level only: whatever tips the state held before, and whatever the
    enhancement step merged into them, it is the list that the node returns
    after the compilation. *)
Theorem tips_generation_overwrites_enhanced_tips
    (cfg : Config) (s : RecipeState) :
  exists sa s1 t,
    result (online_search_node W cfg s) = Returns sa
    /\ tips_stage W cfg s = (Returns s1, t)
    /\ enhanced_cooking_tips_node W cfg s
       = try_except
           (bind (tips_stage W cfg s) (final_recipe_compiler_node W))
           (fun e => raise ("Error in enhanced cooking tips: " +++ e))
    /\ stages_of t
       = (if tavily_enabled cfg
          then St_online_search
               :: (if has_results (online_search_results sa)
                   then [St_enhance_with_search] else [])
          else [])
         ++ [St_cooking_tips]
    /\ cooking_tips s1
       = match llm_tips W (selected_recipe s) (appliance_line s)
                 (skill_level s) with
         | Returns content => response_lines_spec content
         | Raises _ =>
             [ "Read through the entire recipe before starting";
               "Prep all ingredients before cooking";
               "Keep a clean workspace";
               "Taste as you go and adjust seasoning" ]
         end
    /\ (forall s2,
          result (enhanced_cooking_tips_node W cfg s) = Returns s2 ->
          cooking_tips s2 = cooking_tips s1)
    /\ (forall tips s1' t',
          tips_stage W cfg (set_cooking_tips tips s) = (Returns s1', t') ->
          cooking_tips s1' = cooking_tips s1).
Proof.
  destruct (tips_stage_stages cfg s) as (sa & s1 & t & Hs & H & Hst & Htips).
  exists sa, s1, t. split; [exact Hs|]. split; [exact H|].
  split; [apply enhanced_node_unfold|]. split; [exact Hst|].
  assert (Hout : forall s0,
            tips_outcome W s0
            = match llm_tips W (selected_recipe s0) (appliance_line s0)
                      (skill_level s0) with
              | Returns content => response_lines_spec content
              | Raises _ =>
                  [ "Read through the entire recipe before starting";
                    "Prep all ingredients before cooking";
                    "Keep a clean workspace";
                    "Taste as you go and adjust seasoning" ]
              end).
  { intros s0. unfold tips_outcome.
    destruct (llm_tips W _ _ _); [apply split_tips_spec | reflexivity]. }
  split; [now rewrite Htips, Hout|]. split.
  - intros s2. rewrite enhanced_node_unfold, H.
    destruct (compiler_node_cases W s1) as (_ & Hres).
    unfold result, bind, try_except, raise in *.
    destruct (final_recipe_compiler_node W s1) as [[s2'|e] tc];
      cbn [fst snd] in *; intros E; [|discriminate E].
    injection E as <-. now destruct (Hres s2' eq_refl) as (_ & _ & Hc & _).
  - intros tips s1' t' H'.
    destruct (tips_stage_stages cfg (set_cooking_tips tips s))
      as (_ & s1'' & t'' & _ & H'' & _ & Htips').
    rewrite H' in H''. injection H'' as <- _.
    rewrite Htips', Htips. reflexivity.
Qed.

Lemma enhanced_node_cases (cfg : Config) (s : RecipeState) :
  exists s1 enh t,
    tips_stage W cfg s = (Returns s1, t)
    /\ stages_of t
       = (if tavily_enabled cfg
          then St_online_search
               :: (if enh : bool then [St_enhance_with_search] else [])
          else [])
         ++ [St_cooking_tips]
    /\ stages_of (trace (enhanced_cooking_tips_node W cfg s))
       = stages_of t ++ [St_final_recipe_compiler]
    /\ (forall s2, result (enhanced_cooking_tips_node W cfg s) = Returns s2 ->
                   latch_kept s s2 /\ request_kept s s2).
Proof.
  destruct (tips_stage_cases cfg s)
    as (s1 & enh & t & H & Hst & _ & Hreq & Hlatch & _).
  exists s1, enh, t. split; [exact H|]. split; [exact Hst|].
  rewrite enhanced_node_unfold, H.
  destruct (compiler_node_cases W s1) as (Htr & Hres).
  unfold trace, result, bind, try_except, raise in *.
  destruct (final_recipe_compiler_node W s1) as [[s2|e] tc];
    cbn [fst snd] in *; subst tc.
  - split; [rewrite stages_of_app; reflexivity|].
    intros s2' E. injection E as <-.
    destruct (Hres s2 eq_refl) as (Hreq' & Hlatch' & _).
    split; eauto using latch_kept_trans, request_kept_trans.
  - split; [rewrite !stages_of_app; cbn; now rewrite app_nil_r|].
    intros s2' E. discriminate E.
Qed.

End TipsStage.

(** ** The workflow *)

Section Workflow.

Variable W : World.

Lemma invoke_simple (cfg : Config) (s : RecipeState) :
  tavily_enabled cfg = false ->
  invoke W cfg (create_workflow_graph cfg) s
  = (s1 <- combined_recipe_generation_node W s ;;
     s2 <- instruction_completion_node W s1 ;;
     ret s2).
Proof.
  intros H. unfold invoke, create_workflow_graph. rewrite H. reflexivity.
Qed.

Lemma invoke_enhanced (cfg : Config) (s : RecipeState) :
  tavily_enabled cfg = true ->
  invoke W cfg (create_workflow_graph cfg) s
  = (s1 <- combined_recipe_generation_node W s ;;
     s2 <- enhanced_cooking_tips_node W cfg s1 ;;
     s3 <- instruction_completion_node W s2 ;;
     ret s3).
Proof.
  intros H. unfold invoke, create_workflow_graph. rewrite H. reflexivity.
Qed.

Lemma combined_node_frame (s : RecipeState) :
  exists s1,
    combined_recipe_generation_node W s
    = (Returns s1,
       [EvStage St_combined_recipe_generation; EvLLM Call_combined])
    /\ request_kept s s1 /\ latch_kept s s1.
Proof.
  destruct (combined_node_cases W s) as (r & n & sh & H & _).
  eexists. split; [exact H|]. unfold request_kept, latch_kept.
  now repeat split.
Qed.

(** What a run returns and the stages it goes through. *)
Lemma execute_workflow_cases (cfg : Config) (s : RecipeState) :
  exists s1 enh,
    result (combined_recipe_generation_node W s) = Returns s1
    /\ stages_of (snd (execute_workflow W cfg s))
       = (if tavily_enabled cfg then
            [St_combined_recipe_generation; St_online_search]
            ++ (if enh : bool then [St_enhance_with_search] else [])
            ++ [St_cooking_tips; St_final_recipe_compiler]
            ++ match result (enhanced_cooking_tips_node W cfg s1) with
               | Returns _ => [St_instruction_completion]
               | Raises _ => []
               end
          else [St_combined_recipe_generation; St_instruction_completion])
    /\ latch_kept s (fst (execute_workflow W cfg s)).
Proof.
  destruct (combined_node_frame s) as (s1 & Hc & Hreq & Hlatch).
  unfold execute_workflow.
  destruct (tavily_enabled cfg) eqn:Hen.
  - rewrite (invoke_enhanced cfg s Hen).
    destruct (enhanced_node_cases W cfg s1)
      as (sa & enh & t & _ & Hst & Hstages & Hkept).
    rewrite Hen in Hst.
    exists s1, enh. rewrite Hc. split; [reflexivity|].
    unfold result, trace, bind, ret in *. cbn [fst snd] in *.
    destruct (enhanced_cooking_tips_node W cfg s1) as [[s2|e] te];
      cbn [fst snd] in *.
    + destruct (instruction_completion_node_cases W s2)
        as (s3 & ti & Hi & Hti & _ & Hlatch3 & _).
      rewrite Hi. cbn [fst snd]. split.
      * cbn [stages_of app]. rewrite !stages_of_app, Hstages, Hst.
        cbn [stages_of]. rewrite app_nil_r.
        replace (stages_of ti) with (@nil stage)
          by (destruct Hti as [-> | ->]; reflexivity).
        destruct enh; reflexivity.
      * destruct (Hkept s2 eq_refl) as (Hlatch2 & _).
        eauto using latch_kept_trans.
    + split.
      * cbn [stages_of app]. rewrite Hstages, Hst.
        destruct enh; reflexivity.
      * intros Hflag. exact Hflag.
  - rewrite (invoke_simple cfg s Hen).
    exists s1, false. rewrite Hc. split; [reflexivity|].
    unfold result, trace, bind, ret. cbn [fst snd].
    destruct (instruction_completion_node_cases W s1)
      as (s2 & ti & Hi & Hti & _ & Hlatch2 & _).
    rewrite Hi. cbn [fst snd]. split.
    + cbn [stages_of app]. rewrite app_nil_r.
      destruct Hti as [-> | ->]; reflexivity.
    + eauto using latch_kept_trans.
Qed.


Lemma every_node_keeps_the_latch (cfg : Config) :
  Forall (fun node : RecipeState -> Exec RecipeState =>
            forall s s', result (node s) = Returns s' -> latch_kept s s')
    (all_nodes W cfg).
Proof.
  unfold all_nodes. repeat constructor; intros s s' H.
  - destruct (combined_node_frame s) as (s1 & Hc & _ & Hl).
    rewrite Hc in H. injection H as <-. exact Hl.
  - destruct (online_search_node_cases W cfg s)
      as (s1 & k & qs & Hc & _ & Hl & _).
    rewrite Hc in H. injection H as <-. exact Hl.
  - destruct (enhance_node_cases W s) as (s1 & t & Hc & _ & _ & Hl & _).
    rewrite Hc in H. injection H as <-. exact Hl.
  - destruct (cooking_tips_node_facts W s) as (s1 & Hc & _ & _ & Hl & _).
    rewrite Hc in H. injection H as <-. exact Hl.
  - destruct (compiler_node_cases W s) as (_ & Hc).
    now destruct (Hc s' H) as (_ & Hl & _).
  - destruct (enhanced_node_cases W cfg s) as (s1 & enh & t & _ & _ & _ & Hc).
    now destruct (Hc s' H).
  - destruct (instruction_completion_node_cases W s)
      as (s1 & t & Hc & _ & _ & Hl & _).
    rewrite Hc in H. injection H as <-. exact Hl.
Qed.

(** C3, as the code has it.  On a state whose latch is set, the enhancement
    step calls no provider and changes nothing but [processing_step], which
    it sets to "search_enhancement": the tips are the same list.  No node
    and no run resets the latch. *)
Theorem latched_enhancement_only_moves_the_breadcrumb
    (cfg : Config) (s : RecipeState) :
  search_enhancement_complete s = true ->
  enhance_with_search_node W s
  = (Returns (set_processing_step "search_enhancement" s),
     [EvStage St_enhance_with_search])
  /\ (forall s', result (enhance_with_search_node W s) = Returns s' ->
                 cooking_tips s' = cooking_tips s
                 /\ search_enhancement_complete s' = true)
  /\ Forall (fun node : RecipeState -> Exec RecipeState =>
               forall s0 s', result (node s0) = Returns s' ->
                             search_enhancement_complete s0 = true ->
                             search_enhancement_complete s' = true)
       (all_nodes W cfg)
  /\ search_enhancement_complete (fst (execute_workflow W cfg s)) = true.
Proof.
  intros Hlatch. split; [now apply enhance_latched|].
  split.
  { rewrite (enhance_latched W s Hlatch). intros s' H.
    injection H as <-. split; [reflexivity | exact Hlatch]. }
  split; [exact (every_node_keeps_the_latch cfg)|].
  destruct (execute_workflow_cases cfg s) as (s1 & enh & _ & _ & Hl).
  exact (Hl Hlatch).
Qed.

(** The compiler takes the first element of a list-shaped appliance. *)
Lemma compiler_collapses_appliance_list (d : dict) (a : pyval)
    (rest : list pyval) :
  dict_get d "appliance_used" = Some (PList (a :: rest)) ->
  fix_appliance_used d = Returns (dict_set d "appliance_used" a).
Proof. intros H. unfold fix_appliance_used. now rewrite H. Qed.

(** The recipe that the compiler builds when its call fails reads
    [ing['name']] on every parsed ingredient; [parse_ingredients] produces
    strings, on which this raises. *)
Lemma compile_fallback_needs_named_ingredients (s : RecipeState) (d : dict)
    (i : string) (rest : list pyval) :
  selected_recipe s = PDict d ->
  parsed_ingredients s = PStr i :: rest ->
  compile_fallback W s
  = Raises "TypeError: string indices must be integers, not 'str'".
Proof.
  intros Hsel Hparsed. unfold compile_fallback.
  rewrite Hsel, Hparsed. reflexivity.
Qed.

End Workflow.

(** ** The properties on the sample runs *)

Section OnSamples.

Import Samples.

(** The fallback draft of the sample request, with every provider down. *)
Lemma draft_fallback_on_sample_request :
  (exists e,
      llm_combined offline (ingredients request)
        (available_appliances request) (skill_level request)
        (dietary_restrictions request) (cuisine_preference request)
      = Raises e)
  /\ result (combined_recipe_generation_node offline request)
     = Returns (fallback_draft request)
  /\ Py.getitem (selected_recipe (fallback_draft request)) "ingredients"
     = Returns (Py.of_strings ["• chicken"; "• rice"; "• broccoli"]).
Proof.
  assert (H : exists e,
             llm_combined offline (ingredients request)
               (available_appliances request) (skill_level request)
               (dietary_restrictions request) (cuisine_preference request)
             = Raises e) by (eexists; reflexivity).
  split; [exact H|].
  destruct (proj2 (draft_fallback_is_deterministic offline request) H)
    as (Hres & Hing & _).
  split; [exact Hres | exact Hing].
Defined.

(** Tips [A; B] merged with the returned [B; C; D]. *)
Lemma merge_on_sample_search :
  search_enhancement_complete searched = false
  /\ search_enhanced searched = true
  /\ json_loads enhancing_world "enhanced"
     = Some (PList [PStr "B"; PStr "C"; PStr "D"])
  /\ exists s',
       result (enhance_with_search_node enhancing_world searched) = Returns s'
       /\ cooking_tips s' = ["A"; "B"; "C"; "D"].
Proof.
  split; [reflexivity|]. split; [reflexivity|]. split; [reflexivity|].
  destruct (enhancement_merges_in_order_without_duplicates enhancing_world
              searched
              "Source: Searing basics
Pat the chicken dry before searing." []
              (PStr "Chicken and rice") "enhanced"
              [PStr "B"; PStr "C"; PStr "D"]
              eq_refl eq_refl eq_refl eq_refl eq_refl eq_refl)
    as (s' & Hres & Htips & _).
  exists s'. split; [exact Hres|]. rewrite Htips. reflexivity.
Defined.



(** The auditor leaves the three long steps alone. *)
Example auditor_skips_long_steps :
  instruction_completion_node offline drafted_long
  = (Returns (set_processing_step "instruction_completion_complete"
                drafted_long),
     [EvStage St_instruction_completion]).
Proof. vm_compute. reflexivity. Qed.

(** Two returned steps do not replace three. *)
Lemma two_steps_do_not_replace_three :
  audited_recipe drafted_short
    [ ("name", PStr "Chicken and rice");
      ("ingredients", Py.of_strings ["chicken"; "rice"]);
      ("instructions", Py.of_strings short_steps) ]
    short_steps "chicken, rice"
  /\ judged_incomplete short_steps
  /\ exists s',
       result (instruction_completion_node two_step_world drafted_short)
       = Returns s'
       /\ final_recipe s' = final_recipe drafted_short
       /\ selected_recipe s' = selected_recipe drafted_short.
Proof.
  assert (Haud : audited_recipe drafted_short
            [ ("name", PStr "Chicken and rice");
              ("ingredients", Py.of_strings ["chicken"; "rice"]);
              ("instructions", Py.of_strings short_steps) ]
            short_steps "chicken, rice").
  { split; [reflexivity|]. split; [discriminate|].
    split; reflexivity. }
  assert (Hinc : judged_incomplete short_steps).
  { right. vm_compute. reflexivity. }
  split; [exact Haud|]. split; [exact Hinc|].
  destruct (auditor_replaces_only_with_longer_list two_step_world
              drafted_short _ _ _ "completion"
              [("complete_instructions",
                Py.of_strings ["Cook it."; "Eat it."])]
              [PStr "Cook it."; PStr "Eat it."]
              Haud Hinc eq_refl eq_refl eq_refl)
    as ((s' & Hres & _ & Hkeep) & _).
  exists s'. split; [exact Hres|]. apply Hkeep. cbn. lia.
Defined.

(** A search whose credential is rejected after the first query keeps the
    record of the first query and does not issue a third one; a search
    with every query failing stores nothing. *)
Lemma search_on_sample_failures :
  tavily_client with_search_key = true
  /\ search_queries revoked_world searched
     = Returns
         [ "Chicken and rice recipe cooking tips best practices";
           "cooking techniques chicken rice broccoli Any cuisine";
           "cooking tips Oven Stovetop techniques professional chef" ]
  /\ (exists s',
        result (online_search_node revoked_world with_search_key searched)
        = Returns s'
        /\ searches_of
             (trace (online_search_node revoked_world with_search_key
                       searched))
           = [ ("Chicken and rice recipe cooking tips best practices", 2%Z);
               ("cooking techniques chicken rice broccoli Any cuisine", 2%Z) ]
        /\ online_search_results s'
           = [ {| sr_title := "Searing basics";
                  sr_content := "Pat the chicken dry before searing.";
                  sr_url := "https://example.org/searing";
                  sr_query :=
                    "Chicken and rice recipe cooking tips best practices" |} ]
        /\ search_enhanced s' = true)
  /\ (exists s',
        result (online_search_node offline with_search_key searched)
        = Returns s'
        /\ online_search_results s' = []
        /\ search_enhanced s' = false
        /\ error_message s' = error_message searched).
Proof.
  split; [reflexivity|]. split; [reflexivity|].
  destruct (search_is_bounded_and_tolerates_failures revoked_world
              with_search_key searched)
    as (_ & _ & _ & _ & Hnode & _).
  destruct (search_is_bounded_and_tolerates_failures offline with_search_key
              searched) as (_ & _ & _ & _ & _ & _ & _ & _ & Hall & _).
  split.
  - destruct (Hnode _ eq_refl eq_refl) as (s' & Hres & Hq & Hr & Hf & _).
    exists s'. split; [exact Hres|]. split; [rewrite Hq; reflexivity|].
    split; [rewrite Hr; reflexivity | rewrite Hf; reflexivity].
  - apply (Hall [ "Chicken and rice recipe cooking tips best practices";
                  "cooking techniques chicken rice broccoli Any cuisine";
                  "cooking tips Oven Stovetop techniques professional chef" ]);
      [reflexivity | reflexivity |].
    intros q _. eexists. reflexivity.
Defined.


(** C2, on the failing input.  Without a search key, a combined reply whose
    recipe carries the list [Oven; Stovetop] as [appliance_used] ends the
    run with that list in the final recipe, and with no error message. *)
Theorem draft_appliance_list_reaches_final_recipe :
  let final :=
    fst (execute_workflow list_appliance_world no_search_key request) in
  Py.getitem (final_recipe final) "appliance_used"
  = Returns (PList [PStr "Oven"; PStr "Stovetop"])
  /\ error_message final = EmptyString.
Proof. vm_compute. split; reflexivity. Qed.

(** C3, counterexample.  With the latch set, the state that the
    enhancement step returns is not the state it was given. *)
Lemma latched_enhancement_changes_the_state :
  search_enhancement_complete latched = true
  /\ result (enhance_with_search_node offline latched) <> Returns latched.
Proof.
  split; [reflexivity|]. intros H.
  apply (f_equal (fun o => match o with
                           | Returns x => processing_step x
                           | Raises _ => EmptyString
                           end)) in H.
  vm_compute in H. discriminate H.
Qed.

(** On the latched sample state, only the breadcrumb moves. *)
Lemma latched_enhancement_on_sample :
  search_enhancement_complete latched = true
  /\ enhance_with_search_node offline latched
     = (Returns (set_processing_step "search_enhancement" latched),
        [EvStage St_enhance_with_search])
  /\ search_enhancement_complete
       (fst (execute_workflow offline with_search_key latched)) = true.
Proof.
  split; [reflexivity|].
  destruct (latched_enhancement_only_moves_the_breadcrumb offline
              with_search_key latched eq_refl) as (H1 & _ & _ & H4).
  split; [exact H1 | exact H4].
Defined.

(** With a search key, the tips merged by the enhancement step are not in
    the list that reaches the compiler. *)
Example enhanced_tips_do_not_survive :
  exists s1 t,
    tips_stage enhancing_world with_search_key
      (set_selected_recipe (PDict [("name", PStr "Chicken and rice")])
         (set_cooking_tips ["A"; "B"] request))
    = (Returns s1, t)
    /\ In (EvLLM Call_enhance) t
    /\ cooking_tips s1 = ["1. Rest the meat"].
Proof.
  do 2 eexists. split; [vm_compute; reflexivity|].
  split; [cbn; tauto | reflexivity].
Qed.

(** With a search key and every provider down, the compilation raises and
    the run ends with an error message, before the audit. *)
Example run_fails_when_compilation_fails :
  let run := execute_workflow offline with_search_key request in
  error_message (fst run)
  = "Workflow failed: Error in enhanced cooking tips: TypeError: string indices must be integers, not 'str'"
  /\ stages_of (snd run)
     = [ St_combined_recipe_generation; St_online_search; St_cooking_tips;
         St_final_recipe_compiler ].
Proof. vm_compute. split; reflexivity. Qed.

(** Five returned steps replace three, in both recipe views. *)
Example five_steps_replace_three :
  exists s',
    result (instruction_completion_node Scenarios.five_step_world
              drafted_short) = Returns s'
    /\ Py.getitem (final_recipe s') "instructions"
       = Returns (Py.of_strings Scenarios.five_steps)
    /\ Py.getitem (selected_recipe s') "instructions"
       = Returns (Py.of_strings Scenarios.five_steps).
Proof. eexists. split; [vm_compute; reflexivity|]. split; reflexivity. Qed.

(** C7, on the failing input.  Without a search key, the draft call
    returns a recipe with three short steps, and the correction call
    answers with the string "Cook." where a list of steps is asked for.
    The string has 5 characters, more than the list has steps, so the run
    ends with the string in place of the instruction list, in both recipe
    views, and with no error message. *)
Theorem string_reply_replaces_the_instruction_list :
  let run :=
    execute_workflow Scenarios.string_reply_world no_search_key request in
  (exists s1,
      result (combined_recipe_generation_node Scenarios.string_reply_world
                request) = Returns s1
      /\ Py.getitem (final_recipe s1) "instructions"
         = Returns (Py.of_strings ["Chop."; "Cook."; "Serve."]))
  /\ calls_of (snd run) = [Call_combined; Call_completion]
  /\ Py.getitem (final_recipe (fst run)) "instructions"
     = Returns (PStr "Cook.")
  /\ Py.getitem (selected_recipe (fst run)) "instructions"
     = Returns (PStr "Cook.")
  /\ error_message (fst run) = EmptyString.
Proof.
  cbv zeta. split.
  - eexists. split; vm_compute; reflexivity.
  - vm_compute. repeat split.
Qed.

(** The search finds a page, the enhancement step merges [B; C; D] into
    the tips, and the tips step replaces them by the two lines of its own
    reply, which the node returns after the compilation. *)
Lemma tips_overwrite_on_sample_search :
  exists sa sb s1 s2 t,
    result (online_search_node Scenarios.answering_world with_search_key
              Scenarios.drafted_request) = Returns sa
    /\ result (enhance_with_search_node Scenarios.answering_world sa)
       = Returns sb
    /\ cooking_tips sb = ["B"; "C"; "D"]
    /\ tips_stage Scenarios.answering_world with_search_key
         Scenarios.drafted_request = (Returns s1, t)
    /\ stages_of t
       = [St_online_search; St_enhance_with_search; St_cooking_tips]
    /\ cooking_tips s1
       = ["1. Rest the meat before slicing"; "2. Slice against the grain"]
    /\ result (enhanced_cooking_tips_node Scenarios.answering_world
                 with_search_key Scenarios.drafted_request) = Returns s2
    /\ cooking_tips s2
       = ["1. Rest the meat before slicing"; "2. Slice against the grain"].
Proof.
  destruct (tips_generation_overwrites_enhanced_tips
              Scenarios.answering_world with_search_key
              Scenarios.drafted_request)
    as (sa & s1 & t & Hs & Ht & _ & Hst & Htips & Hnode & _).
  assert (Hsa : sa = set_processing_step "online_search_complete"
                       (set_search_enhanced true
                          (set_online_search_results
                             (collect
                                "Chicken and rice recipe cooking tips best practices"
                                (Some [one_hit])
                              ++ collect
                                   "cooking techniques chicken rice broccoli Any cuisine"
                                   (Some [one_hit]))
                             (set_processing_step "online_search"
                                Scenarios.drafted_request)))).
  { assert (E : Returns sa
                = result (online_search_node Scenarios.answering_world
                            with_search_key Scenarios.drafted_request))
      by (symmetry; exact Hs).
    vm_compute in E. injection E as ->. vm_compute. reflexivity. }
  assert (Hsb : exists sb,
             result (enhance_with_search_node Scenarios.answering_world sa)
             = Returns sb
             /\ cooking_tips sb = ["B"; "C"; "D"]).
  { rewrite Hsa. eexists. split; vm_compute; reflexivity. }
  destruct Hsb as (sb & Hb & Hbtips).
  assert (Hex : exists s2,
             result (enhanced_cooking_tips_node Scenarios.answering_world
                       with_search_key Scenarios.drafted_request)
             = Returns s2).
  { eexists. vm_compute. reflexivity. }
  destruct Hex as (s2 & Hs2).
  exists sa, sb, s1, s2, t.
  split; [exact Hs|]. split; [exact Hb|]. split; [exact Hbtips|].
  split; [exact Ht|]. split; [rewrite Hst, Hsa; reflexivity|].
  split; [rewrite Htips; vm_compute; reflexivity|].
  split; [exact Hs2|].
  rewrite (Hnode s2 Hs2), Htips. vm_compute. reflexivity.
Defined.

End OnSamples.

(** ** Python strings: stripping and counting *)

Section Strings.

Lemma append_empty_r (s : string) : s +++ EmptyString = s.
Proof. induction s as [|c s IH]; cbn; now rewrite ?IH. Qed.

Lemma rev_onto_rev_onto (s : string) :
  forall a b, PyStr.rev_onto (PyStr.rev_onto s a) b = PyStr.rev_onto a (s +++ b).
Proof.
  induction s as [|c s IH]; intros a b; [reflexivity|].
  cbn [PyStr.rev_onto]. now rewrite IH.
Qed.

Lemma reverse_involutive (s : string) : PyStr.reverse (PyStr.reverse s) = s.
Proof.
  unfold PyStr.reverse. rewrite rev_onto_rev_onto. cbn.
  apply append_empty_r.
Qed.

Lemma rev_onto_append (s : string) :
  forall a b, PyStr.rev_onto (s +++ a) b = PyStr.rev_onto a (PyStr.rev_onto s b).
Proof.
  induction s as [|c s IH]; intros a b; [reflexivity|].
  cbn [String.append PyStr.rev_onto]. now rewrite IH.
Qed.

Lemma rev_onto_acc (s : string) :
  forall a, PyStr.rev_onto s a = PyStr.reverse s +++ a.
Proof.
  unfold PyStr.reverse.
  induction s as [|c s IH]; intros a; [reflexivity|].
  cbn [PyStr.rev_onto]. rewrite IH, (IH (String c EmptyString)). clear IH.
  induction (PyStr.rev_onto s EmptyString) as [|d r IHr]; cbn;
    now rewrite ?IHr.
Qed.

Lemma lstrip_idempotent (s : string) :
  PyStr.lstrip (PyStr.lstrip s) = PyStr.lstrip s.
Proof.
  induction s as [|c s IH]; [reflexivity|].
  cbn [PyStr.lstrip]. destruct (PyStr.is_space c) eqn:E; [exact IH|].
  cbn [PyStr.lstrip]. now rewrite E.
Qed.

Lemma rstrip_idempotent (s : string) :
  PyStr.rstrip (PyStr.rstrip s) = PyStr.rstrip s.
Proof.
  unfold PyStr.rstrip. now rewrite reverse_involutive, lstrip_idempotent.
Qed.

Lemma lstrip_head (s : string) :
  match PyStr.lstrip s with
  | EmptyString => True
  | String c _ => PyStr.is_space c = false
  end.
Proof.
  induction s as [|c s IH]; [exact I|].
  cbn [PyStr.lstrip]. destruct (PyStr.is_space c) eqn:E; [exact IH | exact E].
Qed.

Lemma lstrip_before_nonspace (x : string) (c : ascii) (y : string) :
  PyStr.is_space c = false ->
  PyStr.lstrip (x +++ String c y) = PyStr.lstrip x +++ String c y.
Proof.
  intros Hc. induction x as [|d x IH]; cbn [String.append PyStr.lstrip].
  - now rewrite Hc.
  - destruct (PyStr.is_space d); [exact IH | reflexivity].
Qed.

(** Stripping on the right keeps a first character that is not a space. *)
Lemma rstrip_head (c : ascii) (r : string) :
  PyStr.is_space c = false ->
  exists r', PyStr.rstrip (String c r) = String c r'.
Proof.
  intros Hc. unfold PyStr.rstrip.
  assert (E : PyStr.reverse (String c r)
              = PyStr.reverse r +++ String c EmptyString).
  { unfold PyStr.reverse at 1. cbn [PyStr.rev_onto]. apply rev_onto_acc. }
  rewrite E, (lstrip_before_nonspace _ c EmptyString Hc).
  unfold PyStr.reverse at 1. rewrite rev_onto_append. cbn [PyStr.rev_onto].
  eexists. reflexivity.
Qed.

Lemma strip_idempotent (s : string) :
  PyStr.strip (PyStr.strip s) = PyStr.strip s.
Proof.
  unfold PyStr.strip. pose proof (lstrip_head s) as H.
  destruct (PyStr.lstrip s) as [|c r]; [reflexivity|].
  destruct (rstrip_head c r H) as (r' & E).
  rewrite E at 1. cbn [PyStr.lstrip]. rewrite H, <- E.
  apply rstrip_idempotent.
Qed.

Lemma strip_nonempty (s : string) :
  PyStr.nonempty (PyStr.strip s) = true -> PyStr.nonempty s = true.
Proof. destruct s; [discriminate | reflexivity]. Qed.

Lemma char_count_append (a b : string) :
  PyStr.char_count (a +++ b) = (PyStr.char_count a + PyStr.char_count b)%nat.
Proof.
  induction a as [|c a IH]; [reflexivity|].
  cbn [String.append PyStr.char_count]. rewrite IH. lia.
Qed.

End Strings.

(** ** The draft stage: which replies are kept *)

Section DraftReplies.

Variable W : World.

(** X1.  The draft stage keeps the sections of the model's reply exactly
    when the reply is a dict that holds a recipe, a nutrition and a
    shopping-list section; every other reply, also a JSON list or string in
    which the three names occur, gives the fallback draft. *)
Theorem draft_keeps_a_reply_only_with_its_three_sections
    (s : RecipeState) (data : pyval) :
  usable_reply W s data ->
  combined_recipe_generation_node W s
  = (Returns (match reply_sections data with
              | Some (recipe, nutrition, shopping) =>
                  draft_from recipe nutrition shopping s
              | None => fallback_draft s
              end),
     [EvStage St_combined_recipe_generation; EvLLM Call_combined]).
Proof.
  intros (content & Hllm & Hjson).
  unfold combined_recipe_generation_node,
    RecipeService.generate_combined_recipe,
    LLMService.generate_json_response.
  cbn [ingredients available_appliances skill_level dietary_restrictions
       cuisine_preference appliance set_parsed_ingredients].
  rewrite Hllm, Hjson. exec_unfold.
  unfold RecipeService.validate_recipe_data, RecipeService.required_keys.
  destruct data as [| | | |t|l|d];
    cbn [RecipeService.all_in Py.contains obind reply_sections];
    try reflexivity.
  - destruct (PyStr.contains "recipe" t); [|reflexivity].
    destruct (PyStr.contains "nutrition" t); [|reflexivity].
    destruct (PyStr.contains "shopping_list" t); reflexivity.
  - destruct (existsb (Py.is_str_eq "recipe") l); [|reflexivity].
    destruct (existsb (Py.is_str_eq "nutrition") l); [|reflexivity].
    destruct (existsb (Py.is_str_eq "shopping_list") l); reflexivity.
  - unfold Py.getitem.
    destruct (dict_get d "recipe"); cbn [fst snd app]; [|reflexivity].
    destruct (dict_get d "nutrition"); cbn [fst snd app]; [|reflexivity].
    destruct (dict_get d "shopping_list"); reflexivity.
Qed.

End DraftReplies.

(** ** The ingredient list *)

Section Ingredients.

Lemma parse_ingredients_fixed (l : list string) :
  Forall (fun i => PyStr.nonempty i = true /\ PyStr.strip i = i) l ->
  RecipeService.parse_ingredients l = l.
Proof.
  unfold RecipeService.parse_ingredients.
  induction 1 as [|i l [Hne Hi] _ IH]; [reflexivity|].
  cbn [filter]. rewrite Hi, Hne. cbn [map]. now rewrite Hi, IH.
Qed.

Lemma parse_ingredients_entries (l : list string) :
  Forall (fun i => PyStr.nonempty i = true /\ PyStr.strip i = i)
    (RecipeService.parse_ingredients l).
Proof.
  unfold RecipeService.parse_ingredients. apply Forall_forall.
  intros x Hx. apply in_map_iff in Hx. destruct Hx as (i & <- & Hi).
  apply filter_In in Hi. destruct Hi as [_ Hi].
  split; [exact Hi | apply strip_idempotent].
Qed.

(** X2.  [parse_ingredients] returns entries that are not empty and carry
    no white space at either end, in the order of the input; parsing a
    parsed list changes nothing. *)
Theorem parse_ingredients_is_a_normal_form (l : list string) :
  Forall (fun i => PyStr.nonempty i = true /\ PyStr.strip i = i)
    (RecipeService.parse_ingredients l)
  /\ RecipeService.parse_ingredients (RecipeService.parse_ingredients l)
     = RecipeService.parse_ingredients l
  /\ (List.length (RecipeService.parse_ingredients l) <= List.length l)%nat.
Proof.
  split; [apply parse_ingredients_entries|].
  split; [apply parse_ingredients_fixed, parse_ingredients_entries|].
  unfold RecipeService.parse_ingredients. rewrite length_map.
  apply filter_length_le.
Qed.

Lemma initial_state_ingredients (form_ingredients appliances dietary
    : list string) (cuisine skill : string) :
  ingredients (App.initial_state form_ingredients appliances dietary
                 cuisine skill)
  = RecipeService.parse_ingredients form_ingredients.
Proof.
  cbn [App.initial_state ingredients].
  unfold RecipeService.parse_ingredients. f_equal.
  apply filter_ext. intros i. destruct i; reflexivity.
Qed.

(** X3.  The cleaning of the form's ingredients in the application is the
    parsing of the draft stage: the state that the application builds holds
    the parsed list, and the draft stage, which parses it again, stores the
    same strings in [parsed_ingredients]. *)
Theorem draft_stage_parses_what_the_form_cleaned
    (W : World) (form_ingredients appliances dietary : list string)
    (cuisine skill : string) :
  let s := App.initial_state form_ingredients appliances dietary cuisine
             skill in
  ingredients s = RecipeService.parse_ingredients form_ingredients
  /\ exists s1,
       result (combined_recipe_generation_node W s) = Returns s1
       /\ parsed_ingredients s1 = map PStr (ingredients s)
       /\ ingredients s1 = ingredients s.
Proof.
  intros s. split; [apply initial_state_ingredients|].
  destruct (combined_node_cases W s) as (r & n & sh & H & _).
  rewrite H. eexists. split; [reflexivity|]. split; [|reflexivity].
  cbn [parsed_ingredients set_final_recipe set_shopping_list
       set_nutrition_info set_selected_recipe set_parsed_ingredients].
  f_equal. unfold s. rewrite initial_state_ingredients.
  apply parse_ingredients_fixed, parse_ingredients_entries.
Qed.

End Ingredients.

(** ** The auditor's threshold in whole characters *)

Section AuditThreshold.

Variable W : World.

Lemma avg_length_below_30 (sum count : nat) :
  (0 < count)%nat ->
  Qltb (avg_length sum count) 30 = (sum <? 30 * count)%nat.
Proof.
  intros Hc. apply eq_true_iff_eq. rewrite Qltb_lt, Nat.ltb_lt.
  unfold avg_length. destruct count as [|n]; [lia|].
  unfold Qlt, Qdiv, Qmult, Qinv, inject_Z. cbn [Qnum Qden Z.of_nat].
  cbn. lia.
Qed.

Lemma needs_completion_on_count (steps : list string) :
  needs_completion_on steps
  = (List.length steps <? 3)%nat
    || (total (map PyStr.char_count steps) <? 30 * List.length steps)%nat.
Proof.
  unfold needs_completion_on. destruct steps as [|a steps]; [reflexivity|].
  destruct (_ <? 3)%nat; [reflexivity|].
  apply avg_length_below_30. cbn. lia.
Qed.

Lemma total_of_long_steps (steps : list string) :
  Forall (fun step => (30 <= PyStr.char_count step)%nat) steps ->
  (30 * List.length steps <= total (map PyStr.char_count steps))%nat.
Proof.
  unfold total.
  induction 1 as [|a l Ha _ IH]; cbn [map fold_right List.length] in *; lia.
Qed.

Lemma total_of_short_steps (steps : list string) :
  Forall (fun step => (PyStr.char_count step < 30)%nat) steps ->
  steps <> [] ->
  (total (map PyStr.char_count steps) < 30 * List.length steps)%nat.
Proof.
  unfold total.
  induction 1 as [|a l Ha Hl IH]; [congruence|]. intros _.
  cbn [map fold_right List.length] in *.
  destruct l as [|b l]; [cbn; lia|].
  specialize (IH ltac:(discriminate)). cbn [List.length] in *. lia.
Qed.

Lemma all_str_strings (l : list string) :
  Py.all_str (map PStr l) = Returns l.
Proof.
  induction l as [|a l IH]; [reflexivity|].
  cbn [map Py.all_str]. now rewrite IH.
Qed.

Lemma join_of_strings (sep : string) (l : list string) :
  Py.join sep (Py.of_strings l) = Returns (PyStr.join sep l).
Proof.
  unfold Py.join, Py.of_strings. cbn [Py.iter obind].
  now rewrite all_str_strings.
Qed.

(** X4.  On a final recipe that is a non-empty dict with a list of strings
    as instructions: with at least 3 steps of at least 30 characters each,
    the auditor attempts no correction and changes nothing but
    [processing_step]; when every step is shorter than 30 characters, it
    attempts the correction exactly when the ingredients of the recipe can
    be joined into the text of the request. *)
Theorem auditor_decides_on_whole_characters
    (s : RecipeState) (d : dict) (steps : list string) :
  final_recipe s = PDict d ->
  d <> [] ->
  dict_get_or d "instructions" (PList []) = Py.of_strings steps ->
  ((3 <= List.length steps)%nat ->
   Forall (fun step => (30 <= PyStr.char_count step)%nat) steps ->
   instruction_completion_node W s
   = (Returns (set_processing_step "instruction_completion_complete" s),
      [EvStage St_instruction_completion]))
  /\ (Forall (fun step => (PyStr.char_count step < 30)%nat) steps ->
      (attempts_correction (trace (instruction_completion_node W s)) = true
       <-> exists joined,
             Py.join ", " (dict_get_or d "ingredients" (PList []))
             = Returns joined)).
Proof.
  intros Hfin Hne Hinstr. split.
  - intros Hlen Hlong. apply (auditor_skips_complete W s d steps); trivial.
    rewrite needs_completion_on_count. apply orb_false_iff. split.
    + apply Nat.ltb_ge. exact Hlen.
    + apply Nat.ltb_ge. now apply total_of_long_steps.
  - intros Hshort.
    assert (Hneeds : needs_completion_on steps = true).
    { destruct steps as [|a l]; [reflexivity|].
      rewrite needs_completion_on_count. apply orb_true_iff. right.
      apply Nat.ltb_lt. apply total_of_short_steps; [exact Hshort|].
      discriminate. }
    destruct (Py.join ", " (dict_get_or d "ingredients" (PList [])))
      as [joined|e] eqn:Hjoin.
    + assert (Haud : audited_recipe s d steps joined).
      { split; [exact Hfin|]. split; [exact Hne|]. now split. }
      destruct (auditor_attempts W s d steps joined Haud Hneeds) as (s' & H).
      rewrite H. split; [intros _; now exists joined | reflexivity].
    + rewrite (auditor_cannot_join W s d steps e) by assumption.
      split; [discriminate | intros (joined & H); discriminate H].
Qed.

Lemma fallback_steps_are_complete (appliance_name : string) :
  needs_completion_on
    [ "1. Prepare all ingredients by washing and chopping as needed";
      "2. Use your " +++ appliance_name +++ " to cook the ingredients";
      "3. Season to taste with salt and pepper";
      "4. Cook until ingredients are tender and flavors are combined";
      "5. Serve hot and enjoy!" ] = false.
Proof.
  rewrite needs_completion_on_count. apply orb_false_iff.
  split; [reflexivity|]. apply Nat.ltb_ge.
  unfold total. cbn [map List.length fold_right].
  rewrite !char_count_append.
  change (PyStr.char_count "2. Use your ") with 12%nat.
  change (PyStr.char_count " to cook the ingredients") with 24%nat.
  change (PyStr.char_count
            "1. Prepare all ingredients by washing and chopping as needed")
    with 60%nat.
  change (PyStr.char_count "3. Season to taste with salt and pepper")
    with 39%nat.
  change (PyStr.char_count
            "4. Cook until ingredients are tender and flavors are combined")
    with 61%nat.
  change (PyStr.char_count "5. Serve hot and enjoy!") with 23%nat.
  lia.
Qed.

Lemma auditor_on_fallback_draft (s : RecipeState) :
  instruction_completion_node W (fallback_draft s)
  = (Returns (set_processing_step "instruction_completion_complete"
                (set_processing_step "instruction_completion"
                   (fallback_draft s))),
     [EvStage St_instruction_completion]).
Proof.
  eapply auditor_skips; [|apply (fallback_steps_are_complete (appliance s))].
  split; [reflexivity|]. split; [discriminate|]. split; [reflexivity|].
  change (dict_get_or
            (RecipeService.fallback_recipe (ingredients s) (appliance s))
            "ingredients" (PList []))
    with (Py.of_strings
            (map (fun i => RecipeService.bullet +++ i) (ingredients s))).
  apply join_of_strings.
Qed.

(** X5.  When the model call of the draft stage fails, the auditor accepts
    the fallback draft as it is, whatever the appliance and the ingredients:
    it asks for no correction.  Without a search key the whole run then
    returns the fallback draft after a single model call. *)
Theorem fallback_draft_needs_no_correction
    (cfg : Config) (s : RecipeState) (e : exn) :
  tavily_enabled cfg = false ->
  llm_combined W (ingredients s) (available_appliances s) (skill_level s)
    (dietary_restrictions s) (cuisine_preference s) = Raises e ->
  attempts_correction
    (trace (instruction_completion_node W (fallback_draft s))) = false
  /\ execute_workflow W cfg s
     = (set_processing_step "instruction_completion_complete"
          (set_processing_step "instruction_completion" (fallback_draft s)),
        [ EvStage St_combined_recipe_generation; EvLLM Call_combined;
          EvStage St_instruction_completion ]).
Proof.
  intros Hcfg Hllm. split.
  - rewrite auditor_on_fallback_draft. reflexivity.
  - unfold execute_workflow. rewrite (invoke_simple W cfg s Hcfg).
    rewrite (combined_node_fallback W s e Hllm).
    unfold bind, ret. cbv beta iota.
    rewrite auditor_on_fallback_draft. reflexivity.
Qed.

End AuditThreshold.

(** ** The search stage: what it leaves in the state *)

Section SearchResults.

Variable W : World.

Lemma collect_query (q : string) (response : tavily_response) :
  Forall (fun r => sr_query r = q) (collect q response).
Proof.
  destruct response as [hits|]; [|constructor].
  apply Forall_forall. intros r Hr. apply in_map_iff in Hr.
  now destruct Hr as (hit & <- & _).
Qed.

Lemma perform_searches_collects (qs : list string) :
  forall acc, exists more k,
    perform_searches W qs acc
    = (Returns (acc ++ more), map (fun q => EvSearch q 2) (firstn k qs))
    /\ Forall (fun r => In (sr_query r) (firstn k qs)) more.
Proof.
  induction qs as [|q rest IH]; intros acc.
  - exists [], 0%nat. rewrite app_nil_r. split; [reflexivity | constructor].
  - cbn [perform_searches]. exec_unfold.
    destruct (tavily_search W q 2) as [response|e].
    + destruct (IH (acc ++ collect q response)) as (more & k & H & Hq).
      exists (collect q response ++ more), (S k).
      rewrite H, app_assoc. split; [reflexivity|].
      apply Forall_app. split.
      * eapply Forall_impl; [|apply collect_query].
        intros r Hr. left. now symmetry.
      * eapply Forall_impl; [|exact Hq]. intros r Hr. now right.
    + destruct (is_auth_error e).
      * exists [], 1%nat. rewrite app_nil_r.
        split; [reflexivity | constructor].
      * destruct (IH acc) as (more & k & H & Hq).
        exists more, (S k). rewrite H. split; [reflexivity|].
        eapply Forall_impl; [|exact Hq]. intros r Hr. now right.
Qed.

(** X6.  The search stage always returns.  The flag [search_enhanced] says
    whether it stored a result; every stored record carries a query that
    was issued during this stage; without a search client nothing is issued
    and nothing is stored; and an error message is written only together
    with an empty result list. *)
Theorem search_results_agree_with_the_flag_and_the_queries
    (cfg : Config) (s : RecipeState) :
  exists s',
    result (online_search_node W cfg s) = Returns s'
    /\ search_enhanced s' = has_results (online_search_results s')
    /\ Forall (fun r =>
                 In (sr_query r, 2%Z)
                   (searches_of (trace (online_search_node W cfg s))))
         (online_search_results s')
    /\ (tavily_client cfg = false ->
        online_search_results s' = []
        /\ searches_of (trace (online_search_node W cfg s)) = [])
    /\ (error_message s' = error_message s
        \/ online_search_results s' = []
           /\ exists e, error_message s' = "Online search error: " +++ e).
Proof.
  unfold online_search_node. exec_unfold.
  destruct (tavily_client cfg); cbn [negb].
  - destruct (search_queries W _) as [qs|e]; cbn [fst snd app].
    + destruct (perform_searches_collects (firstn 2 qs) [])
        as (more & k & H & Hq).
      rewrite H. cbn [fst snd app]. rewrite app_nil_r.
      eexists. split; [reflexivity|]. split; [reflexivity|].
      split.
      { cbn [online_search_results set_processing_step set_search_enhanced
             set_online_search_results searches_of].
        rewrite searches_of_queries.
        eapply Forall_impl; [|exact Hq]. intros r Hr.
        apply in_map_iff. exists (sr_query r). now split. }
      split; [discriminate | now left].
    + eexists. split; [reflexivity|]. split; [reflexivity|].
      split; [constructor|]. split; [discriminate|].
      right. split; [reflexivity|]. now exists e.
  - eexists. split; [reflexivity|]. split; [reflexivity|].
    split; [constructor|]. split; [now split | now left].
Qed.

End SearchResults.

(** ** The enhancement step: all or nothing *)

Section Enhancement.

Variable W : World.


End Enhancement.

(** ** The merge of the tips: what happens to the existing ones *)

Section MergeOrder.

Lemma filter_all {A : Type} (p : A -> bool) (l : list A) :
  (forall x, In x l -> p x = true) -> filter p l = l.
Proof.
  induction l as [|a l IH]; intros H; [reflexivity|].
  cbn [filter]. rewrite (H a (or_introl eq_refl)).
  f_equal. apply IH. intros x Hx. apply H. now right.
Qed.

Lemma dedup_app_NoDup (l m : list string) :
  NoDup l ->
  dedup (l ++ m) = l ++ filter (fun y => negb (mem y l)) (dedup m).
Proof.
  induction 1 as [|a l Hin Hnd IH].
  - cbn [app]. symmetry. apply filter_all. reflexivity.
  - cbn [app dedup]. rewrite IH, filter_app. f_equal. f_equal.
    + apply filter_all. intros x Hx.
      destruct (String.eqb x a) eqn:E; [|reflexivity].
      apply String.eqb_eq in E. now subst.
    + rewrite filter_filter. apply filter_ext. intros y.
      unfold mem. cbn [existsb]. rewrite negb_orb.
      rewrite (String.eqb_sym y a). apply andb_comm.
Qed.

Lemma strings_of_In (x : string) (l : list pyval) :
  In x (strings_of l) <-> In (PStr x) l.
Proof.
  induction l as [|v l IH]; [reflexivity|].
  destruct v; cbn [strings_of In]; rewrite IH;
    try (split; [now right | intros [H|H]; [discriminate H | exact H]]).
  split; (intros [H|H]; [left; congruence | now right]).
Qed.

(** X8.  Existing tips that hold no duplicate and number at most 8 keep
    their places at the front of the merged list; what follows them are
    strings of the model's list that are not among them, and the whole has
    at most 8 entries. *)
Theorem merge_keeps_the_existing_tips_in_front
    (existing : list string) (enhanced : list pyval) :
  NoDup existing ->
  (List.length existing <= 8)%nat ->
  exists more,
    merge_tips existing enhanced = existing ++ more
    /\ Forall (fun tip => In (PStr tip) enhanced /\ ~ In tip existing) more
    /\ (List.length (existing ++ more) <= 8)%nat.
Proof.
  intros Hnd Hlen. rewrite merge_tips_spec. unfold merged_tips_spec.
  rewrite (dedup_app_NoDup _ _ Hnd), firstn_app.
  rewrite (firstn_all2 existing) by exact Hlen.
  eexists. split; [reflexivity|]. split.
  - apply Forall_forall. intros x Hx.
    assert (Hx' : In x (filter (fun y => negb (mem y existing))
                          (dedup (strings_of enhanced)))).
    { rewrite <- (firstn_skipn (8 - List.length existing)).
      apply in_or_app. now left. }
    apply filter_In in Hx'. destruct Hx' as [Hd Hm].
    apply dedup_In, strings_of_In in Hd. split; [exact Hd|].
    intros Hin. apply mem_In in Hin. rewrite Hin in Hm. discriminate Hm.
  - rewrite length_app. pose proof (firstn_le_length
      (8 - List.length existing)
      (filter (fun y => negb (mem y existing))
         (dedup (strings_of enhanced)))). lia.
Qed.

End MergeOrder.

(** ** The tips step: what a tip looks like *)

Section Tips.

Variable W : World.

Lemma split_pieces (sep : ascii) (s : string) :
  Forall (fun piece => has_char sep piece = false) (PyStr.split sep s).
Proof.
  induction s as [|c s IH]; [repeat constructor|].
  cbn [PyStr.split]. destruct (Ascii.eqb c sep) eqn:E.
  - constructor; [reflexivity | exact IH].
  - destruct (PyStr.split sep s) as [|h t]; [repeat constructor|].
    + cbn. now rewrite E.
    + inversion IH as [|? ? Hh Ht]. constructor; [|exact Ht].
      cbn [has_char]. now rewrite E, Hh.
Qed.

Lemma has_char_lstrip (c : ascii) (s : string) :
  has_char c s = false -> has_char c (PyStr.lstrip s) = false.
Proof.
  induction s as [|d s IH]; [reflexivity|].
  cbn [PyStr.lstrip]. destruct (PyStr.is_space d); [|auto].
  cbn [has_char]. intros H. apply orb_false_iff in H. now apply IH.
Qed.

Lemma has_char_rev_onto (c : ascii) (s : string) :
  forall a, has_char c (PyStr.rev_onto s a) = has_char c s || has_char c a.
Proof.
  induction s as [|d s IH]; intros a; [reflexivity|].
  cbn [PyStr.rev_onto has_char]. rewrite IH. cbn [has_char].
  destruct (Ascii.eqb d c), (has_char c s); reflexivity.
Qed.

Lemma has_char_reverse (c : ascii) (s : string) :
  has_char c (PyStr.reverse s) = has_char c s.
Proof.
  unfold PyStr.reverse. rewrite has_char_rev_onto. apply orb_false_r.
Qed.

Lemma has_char_strip (c : ascii) (s : string) :
  has_char c s = false -> has_char c (PyStr.strip s) = false.
Proof.
  intros H. unfold PyStr.strip, PyStr.rstrip.
  rewrite has_char_reverse. apply has_char_lstrip.
  rewrite has_char_reverse. now apply has_char_lstrip.
Qed.

Lemma split_tips_entries (content : string) :
  Forall (fun tip => PyStr.nonempty tip = true
                     /\ PyStr.strip tip = tip
                     /\ has_char PyStr.newline tip = false)
    (split_tips content).
Proof.
  unfold split_tips. apply Forall_forall. intros x Hx.
  apply in_map_iff in Hx. destruct Hx as (i & <- & Hi).
  apply filter_In in Hi. destruct Hi as [Hin Hi].
  split; [exact Hi|]. split; [apply strip_idempotent|].
  apply has_char_strip.
  pose proof (split_pieces PyStr.newline content) as Hall.
  rewrite Forall_forall in Hall. now apply Hall.
Qed.

(** X9.  The tips step always returns, after one model call, and every tip
    it stores is one line that is not blank and carries no white space at
    either end; it does not touch the error message. *)
Theorem every_tip_is_one_trimmed_line (s : RecipeState) :
  exists s',
    cooking_tips_node W s
    = (Returns s', [EvStage St_cooking_tips; EvLLM Call_tips])
    /\ Forall (fun tip => PyStr.nonempty tip = true
                          /\ PyStr.strip tip = tip
                          /\ has_char PyStr.newline tip = false)
         (cooking_tips s')
    /\ error_message s' = error_message s.
Proof.
  rewrite cooking_tips_node_eq. eexists. split; [reflexivity|].
  destruct (llm_tips W _ _ _) as [content|e].
  - split; [apply split_tips_entries | reflexivity].
  - split; [|reflexivity].
    cbn [cooking_tips set_cooking_tips]. unfold generic_tips.
    repeat constructor.
Qed.

End Tips.

(** ** The auditor: which keys it writes *)

Section RecipeKeys.

Variable W : World.

Lemma dict_get_set_other (d : dict) (k k' : string) (v : pyval) :
  k <> k' -> dict_get (dict_set d k' v) k = dict_get d k.
Proof.
  intros Hk. induction d as [|[k0 v0] d IH]; cbn [dict_set dict_get].
  - destruct (String.eqb_spec k' k); [congruence | reflexivity].
  - destruct (String.eqb_spec k0 k') as [->|Hne]; cbn [dict_get].
    + destruct (String.eqb_spec k' k); [congruence | reflexivity].
    + destruct (String.eqb_spec k0 k); [reflexivity | exact IH].
Qed.

(** X10.  The auditor always returns, and whatever the correction call
    answers, every entry of the final recipe other than ["instructions"]
    is what it was before. *)
Theorem auditor_writes_only_the_instructions (s : RecipeState) :
  exists s',
    result (instruction_completion_node W s) = Returns s'
    /\ forall k, k <> "instructions" ->
         Py.getitem (final_recipe s') k = Py.getitem (final_recipe s) k.
Proof.
  destruct (instruction_completion_node_cases W s) as (s' & t & H & _).
  exists s'. rewrite H. split; [reflexivity|]. intros k Hk.
  assert (Hres : result (instruction_completion_node W s) = Returns s')
    by now rewrite H.
  destruct (auditor_changes_only_for_longer W s s' Hres)
    as [[Hf _] | (d & v & ? & ? & ? & ? & ? & ? & Hd & _ & _ & _ & _ & _ & _
                  & _ & Hf & _)].
  - now rewrite Hf.
  - rewrite Hf, Hd. cbn [Py.getitem].
    now rewrite dict_get_set_other.
Qed.

End RecipeKeys.

(** ** A whole run: events, budget and failure *)

Section Runs.

Variable W : World.

Lemma searches_of_app (t u : list event) :
  searches_of (t ++ u) = searches_of t ++ searches_of u.
Proof.
  induction t as [|ev t IH]; [reflexivity|].
  destruct ev; cbn; now rewrite IH.
Qed.

Lemma calls_of_app (t u : list event) :
  calls_of (t ++ u) = calls_of t ++ calls_of u.
Proof.
  induction t as [|ev t IH]; [reflexivity|].
  destruct ev; cbn; now rewrite IH.
Qed.

Lemma search_node_events (cfg : Config) (s : RecipeState) :
  exists s' qs,
    online_search_node W cfg s
    = (Returns s',
       EvStage St_online_search :: map (fun q => EvSearch q 2) qs)
    /\ (List.length qs <= 2)%nat
    /\ (tavily_client cfg = false -> qs = [])
    /\ parsed_ingredients s' = parsed_ingredients s.
Proof.
  unfold online_search_node. exec_unfold.
  destruct (tavily_client cfg); cbn [negb].
  - destruct (search_queries W _) as [qs|e]; cbn [fst snd app].
    + destruct (perform_searches_cases W (firstn 2 qs) []) as (res & k & H).
      rewrite H. cbn [fst snd app]. rewrite app_nil_r.
      eexists. exists (firstn k (firstn 2 qs)).
      split; [reflexivity|]. split; [|split; [discriminate | reflexivity]].
      rewrite !length_firstn. lia.
    + eexists. exists []. split; [reflexivity|].
      split; [cbn; lia|]. split; reflexivity.
  - eexists. exists []. split; [reflexivity|].
    split; [cbn; lia|]. split; reflexivity.
Qed.

Lemma enhance_node_events (s : RecipeState) :
  exists s' t,
    enhance_with_search_node W s
    = (Returns s', EvStage St_enhance_with_search :: t)
    /\ (t = [] \/ t = [EvLLM Call_enhance])
    /\ parsed_ingredients s' = parsed_ingredients s.
Proof.
  unfold enhance_with_search_node. exec_unfold.
  repeat (break_match; cbn [fst snd app]);
    do 2 eexists; (split; [reflexivity|]); (split; [auto | reflexivity]).
Qed.

(** The events of the part of the enhanced node that runs before the
    compiler: [qs] are the queries searched, [te] the events of the
    enhancement step. *)
Lemma tips_stage_events (cfg : Config) (s : RecipeState) :
  exists s1 qs te,
    tips_stage W cfg s
    = (Returns s1,
       (if tavily_enabled cfg
        then EvStage St_online_search
             :: map (fun q => EvSearch q 2) qs ++ te
        else [])
       ++ [EvStage St_cooking_tips; EvLLM Call_tips])
    /\ (List.length qs <= 2)%nat
    /\ (tavily_client cfg = false -> qs = [])
    /\ (te = [] \/ te = [EvStage St_enhance_with_search]
        \/ te = [EvStage St_enhance_with_search; EvLLM Call_enhance])
    /\ parsed_ingredients s1 = parsed_ingredients s.
Proof.
  unfold tips_stage. destruct (tavily_enabled cfg).
  - destruct (search_node_events cfg s) as (sa & qs & Hs & Hlen & Hno & Hp).
    destruct (has_results (online_search_results sa)) eqn:Hres.
    + destruct (enhance_node_events sa) as (sb & t & He & Ht & Hp').
      eexists. exists qs, (EvStage St_enhance_with_search :: t). split.
      { unfold bind at 2. rewrite Hs, Hres, He. unfold bind.
        rewrite cooking_tips_node_eq.
        cbn [app]. rewrite <- app_assoc. reflexivity. }
      split; [exact Hlen|]. split; [exact Hno|]. split.
      { destruct Ht as [-> | ->]; auto. }
      rewrite <- Hp, <- Hp'. destruct (llm_tips W _ _ _); reflexivity.
    + eexists. exists qs, []. split.
      { unfold bind at 2. rewrite Hs, Hres. unfold ret, bind.
        rewrite cooking_tips_node_eq. cbn [app]. rewrite !app_nil_r.
        reflexivity. }
      split; [exact Hlen|]. split; [exact Hno|]. split; [auto|].
      rewrite <- Hp. destruct (llm_tips W _ _ _); reflexivity.
  - eexists. exists [], []. split.
    { unfold ret, bind. rewrite cooking_tips_node_eq. reflexivity. }
    split; [cbn; lia|]. split; [reflexivity|]. split; [auto|].
    destruct (llm_tips W _ _ _); reflexivity.
Qed.

(** The enhanced node: its events, and the form of its failure. *)
Lemma enhanced_node_events (cfg : Config) (s : RecipeState) :
  exists s1 qs te,
    tips_stage W cfg s
    = (Returns s1,
       (if tavily_enabled cfg
        then EvStage St_online_search
             :: map (fun q => EvSearch q 2) qs ++ te
        else [])
       ++ [EvStage St_cooking_tips; EvLLM Call_tips])
    /\ (List.length qs <= 2)%nat
    /\ (tavily_client cfg = false -> qs = [])
    /\ (te = [] \/ te = [EvStage St_enhance_with_search]
        \/ te = [EvStage St_enhance_with_search; EvLLM Call_enhance])
    /\ parsed_ingredients s1 = parsed_ingredients s
    /\ enhanced_cooking_tips_node W cfg s
       = (match result (final_recipe_compiler_node W s1) with
          | Returns s2 => Returns s2
          | Raises e => Raises ("Error in enhanced cooking tips: " +++ e)
          end,
          ((if tavily_enabled cfg
            then EvStage St_online_search
                 :: map (fun q => EvSearch q 2) qs ++ te
            else [])
           ++ [EvStage St_cooking_tips; EvLLM Call_tips])
          ++ [EvStage St_final_recipe_compiler; EvLLM Call_compile]).
Proof.
  destruct (tips_stage_events cfg s)
    as (s1 & qs & te & H & Hlen & Hno & Hte & Hp).
  exists s1, qs, te. split; [exact H|]. split; [exact Hlen|].
  split; [exact Hno|]. split; [exact Hte|]. split; [exact Hp|].
  rewrite enhanced_node_unfold, H.
  destruct (compiler_node_cases W s1) as (Htr & _).
  unfold trace, result, bind, try_except, raise in *.
  destruct (final_recipe_compiler_node W s1) as [[s2|e] tc];
    cbn [fst snd] in *; subst tc; [reflexivity|].
  now rewrite app_nil_r.
Qed.

Lemma auditor_events (s : RecipeState) :
  exists s' t,
    instruction_completion_node W s
    = (Returns s', EvStage St_instruction_completion :: t)
    /\ (t = [] \/ t = [EvLLM Call_completion])
    /\ request_kept s s'
    /\ cooking_tips s' = cooking_tips s
    /\ error_message s' = error_message s
    /\ online_search_results s' = online_search_results s
    /\ (selected_recipe s = final_recipe s ->
        selected_recipe s' = final_recipe s').
Proof.
  destruct (instruction_completion_node_cases W s)
    as (s' & t & H & Ht & Hreq & _ & Htips).
  exists s', t. split; [exact H|]. split; [exact Ht|].
  split; [exact Hreq|]. split; [exact Htips|].
  assert (Hres : result (instruction_completion_node W s) = Returns s')
    by now rewrite H.
  split; [|split].
  - clear Hres Hreq Htips Ht. revert H.
    unfold instruction_completion_node, complete_instructions_of.
    exec_unfold.
    repeat (break_match; cbn [fst snd app]);
      intros H; injection H as <- _; reflexivity.
  - clear Hres Hreq Htips Ht. revert H.
    unfold instruction_completion_node, complete_instructions_of.
    exec_unfold.
    repeat (break_match; cbn [fst snd app]);
      intros H; injection H as <- _; reflexivity.
  - intros Heq.
    destruct (auditor_changes_only_for_longer W s s' Hres)
      as [[Hf Hs] | (d & v & ? & ? & ? & ? & ? & ? & _ & _ & _ & _ & _ & _
                     & _ & _ & Hf & Hs)]; congruence.
Qed.

(** What a run returns: the state that left the auditor, or, when the
    enhanced node raised, the initial state with the message. *)
Lemma execute_workflow_outcome (cfg : Config) (s : RecipeState) :
  (exists s',
      result (invoke W cfg (create_workflow_graph cfg) s) = Returns s'
      /\ fst (execute_workflow W cfg s) = s'
      /\ request_kept s s')
  \/ (tavily_enabled cfg = true
      /\ exists e,
           result (invoke W cfg (create_workflow_graph cfg) s)
           = Raises ("Error in enhanced cooking tips: " +++ e)
           /\ fst (execute_workflow W cfg s)
              = set_error_message
                  ("Workflow failed: Error in enhanced cooking tips: " +++ e)
                  s).
Proof.
  destruct (combined_node_frame W s) as (s1 & Hc & Hreq & _).
  unfold execute_workflow. destruct (tavily_enabled cfg) eqn:Hen.
  - rewrite (invoke_enhanced W cfg s Hen), Hc.
    destruct (enhanced_node_events cfg s1)
      as (sa & qs & te & _ & _ & _ & _ & _ & He).
    destruct (enhanced_node_cases W cfg s1) as (_ & _ & _ & _ & _ & _ & Hk).
    rewrite He in Hk.
    unfold result, trace, bind, ret in *. cbn [fst snd] in *.
    rewrite He. cbn [fst snd].
    destruct (fst (final_recipe_compiler_node W sa)) as [s2|e].
    + destruct (auditor_events s2) as (s3 & ti & Hi & _ & Hreq3 & _).
      rewrite Hi. cbn [fst snd]. left. exists s3.
      split; [reflexivity|]. split; [reflexivity|].
      destruct (Hk s2 eq_refl) as (_ & Hreq2).
      eauto using request_kept_trans.
    + right. split; [reflexivity|]. exists e. split; reflexivity.
  - rewrite (invoke_simple W cfg s Hen), Hc.
    unfold result, trace, bind, ret. cbn [fst snd].
    destruct (auditor_events s1) as (s2 & ti & Hi & _ & Hreq2 & _).
    rewrite Hi. cbn [fst snd]. left. exists s2.
    split; [reflexivity|]. split; [reflexivity|].
    eauto using request_kept_trans.
Qed.

(** X13.  A run never changes the request: ingredients, appliances,
    dietary restrictions, cuisine preference and skill level come back as
    they were given, whether the run completes or fails. *)
Theorem a_run_never_changes_the_request (cfg : Config) (s : RecipeState) :
  request_kept s (fst (execute_workflow W cfg s)).
Proof.
  destruct (execute_workflow_outcome cfg s)
    as [(s' & _ & -> & Hreq) | (_ & e & _ & ->)]; [exact Hreq|].
  unfold request_kept. now repeat split.
Qed.

(** X14.  A run fails only in the enhanced node.  Either the graph runs to
    its end and the state that left the auditor is returned, or a search key
    is configured, the enhanced node raised, and the caller gets back its
    own initial state, the draft lost, with the message "Workflow failed:
    Error in enhanced cooking tips: ...". *)
Theorem a_run_fails_only_in_the_enhanced_node
    (cfg : Config) (s : RecipeState) :
  (exists s',
      result (invoke W cfg (create_workflow_graph cfg) s) = Returns s'
      /\ fst (execute_workflow W cfg s) = s')
  \/ (tavily_enabled cfg = true
      /\ exists e,
           fst (execute_workflow W cfg s)
           = set_error_message
               ("Workflow failed: Error in enhanced cooking tips: " +++ e) s
           /\ final_recipe (fst (execute_workflow W cfg s)) = final_recipe s
           /\ selected_recipe (fst (execute_workflow W cfg s))
              = selected_recipe s).
Proof.
  destruct (execute_workflow_outcome cfg s)
    as [(s' & H & E & _) | (Hen & e & _ & E)].
  - left. exists s'. now split.
  - right. split; [exact Hen|]. exists e. rewrite E. now repeat split.
Qed.

(** The events of a run. *)
Lemma execute_workflow_events (cfg : Config) (s : RecipeState) :
  exists qs te tail,
    snd (execute_workflow W cfg s)
    = [EvStage St_combined_recipe_generation; EvLLM Call_combined]
      ++ (if tavily_enabled cfg
          then EvStage St_online_search
               :: map (fun q => EvSearch q 2) qs ++ te
               ++ [ EvStage St_cooking_tips; EvLLM Call_tips;
                    EvStage St_final_recipe_compiler; EvLLM Call_compile ]
          else [])
      ++ tail
    /\ (List.length qs <= 2)%nat
    /\ (tavily_client cfg = false -> qs = [])
    /\ (te = [] \/ te = [EvStage St_enhance_with_search]
        \/ te = [EvStage St_enhance_with_search; EvLLM Call_enhance])
    /\ (tail = [] \/ tail = [EvStage St_instruction_completion]
        \/ tail = [EvStage St_instruction_completion; EvLLM Call_completion]).
Proof.
  destruct (combined_node_frame W s) as (s1 & Hc & _ & _).
  unfold execute_workflow. destruct (tavily_enabled cfg) eqn:Hen.
  - rewrite (invoke_enhanced W cfg s Hen), Hc.
    destruct (enhanced_node_events cfg s1)
      as (sa & qs & te & _ & Hlen & Hno & Hte & _ & He).
    rewrite Hen in He.
    unfold result, trace, bind, ret in *. cbn [fst snd].
    rewrite He. cbn [fst snd].
    destruct (fst (final_recipe_compiler_node W sa)) as [s2|e].
    + destruct (auditor_events s2) as (s3 & ti & Hi & Hti & _).
      rewrite Hi. cbn [fst snd].
      exists qs, te, (EvStage St_instruction_completion :: ti). split.
      { cbn [app]. rewrite app_nil_r, <- !app_assoc. reflexivity. }
      split; [exact Hlen|]. split; [exact Hno|]. split; [exact Hte|].
      destruct Hti as [-> | ->]; auto.
    + cbn [fst snd]. exists qs, te, []. split.
      { cbn [app]. rewrite app_nil_r, <- !app_assoc. reflexivity. }
      split; [exact Hlen|]. split; [exact Hno|]. split; [exact Hte | auto].
  - rewrite (invoke_simple W cfg s Hen), Hc.
    unfold result, trace, bind, ret. cbn [fst snd].
    destruct (auditor_events s1) as (s2 & ti & Hi & Hti & _).
    rewrite Hi. cbn [fst snd].
    exists [], [], (EvStage St_instruction_completion :: ti). split.
    { cbn [app]. now rewrite app_nil_r. }
    split; [cbn; lia|]. split; [reflexivity|]. split; [auto|].
    destruct Hti as [-> | ->]; auto.
Qed.

(** X15.  The budget of a run.  The model is called once for the draft,
    then, with a search key, at most once for the enhancement and once each
    for the tips and the compilation, and at most once for the correction:
    never more than 5 calls.  At most 2 searches are issued, and none
    without a search client. *)
Theorem a_run_stays_within_its_budget (cfg : Config) (s : RecipeState) :
  (exists enh comp : bool,
      calls_of (snd (execute_workflow W cfg s))
      = [Call_combined]
        ++ (if tavily_enabled cfg
            then (if enh then [Call_enhance] else [])
                 ++ [Call_tips; Call_compile]
            else [])
        ++ (if comp then [Call_completion] else []))
  /\ (List.length (calls_of (snd (execute_workflow W cfg s))) <= 5)%nat
  /\ (List.length (searches_of (snd (execute_workflow W cfg s))) <= 2)%nat
  /\ (tavily_client cfg = false ->
      searches_of (snd (execute_workflow W cfg s)) = []).
Proof.
  destruct (execute_workflow_events cfg s)
    as (qs & te & tail & -> & Hlen & Hno & Hte & Htail).
  assert (Hcalls :
    exists enh comp : bool,
      calls_of
        ([EvStage St_combined_recipe_generation; EvLLM Call_combined]
         ++ (if tavily_enabled cfg
             then EvStage St_online_search
                  :: map (fun q => EvSearch q 2) qs ++ te
                  ++ [ EvStage St_cooking_tips; EvLLM Call_tips;
                       EvStage St_final_recipe_compiler; EvLLM Call_compile ]
             else [])
         ++ tail)
      = [Call_combined]
        ++ (if tavily_enabled cfg
            then (if enh then [Call_enhance] else [])
                 ++ [Call_tips; Call_compile]
            else [])
        ++ (if comp then [Call_completion] else [])).
  { exists (match te with [_; _] => true | _ => false end),
           (match tail with [_; _] => true | _ => false end).
    rewrite !calls_of_app.
    destruct (tavily_enabled cfg).
    - cbn [calls_of app]. rewrite !calls_of_app, calls_of_queries.
      destruct Hte as [-> | [-> | ->]];
        destruct Htail as [-> | [-> | ->]]; reflexivity.
    - destruct Htail as [-> | [-> | ->]]; reflexivity. }
  split; [exact Hcalls|]. split.
  { destruct Hcalls as (enh & comp & ->).
    destruct (tavily_enabled cfg), enh, comp; cbn; lia. }
  assert (Hs :
    searches_of
      ([EvStage St_combined_recipe_generation; EvLLM Call_combined]
       ++ (if tavily_enabled cfg
           then EvStage St_online_search
                :: map (fun q => EvSearch q 2) qs ++ te
                ++ [ EvStage St_cooking_tips; EvLLM Call_tips;
                     EvStage St_final_recipe_compiler; EvLLM Call_compile ]
           else [])
       ++ tail)
    = if tavily_enabled cfg then map (fun q => (q, 2%Z)) qs else []).
  { rewrite !searches_of_app.
    destruct (tavily_enabled cfg).
    - cbn [searches_of app].
      rewrite !searches_of_app, searches_of_queries.
      destruct Hte as [-> | [-> | ->]];
        destruct Htail as [-> | [-> | ->]]; cbn [searches_of app];
        rewrite ?app_nil_r; reflexivity.
    - destruct Htail as [-> | [-> | ->]]; reflexivity. }
  rewrite Hs. split.
  - destruct (tavily_enabled cfg); [now rewrite length_map | cbn; lia].
  - intros Hclient. rewrite (Hno Hclient).
    now destruct (tavily_enabled cfg).
Qed.

(** X16.  Without a search key a run always completes: it returns the
    state that left the auditor, in which the error message, the cooking
    tips and the search results are those of the initial state, so no tips
    are generated, and the selected and the final recipe are the same
    recipe. *)
Theorem simple_workflow_always_completes (cfg : Config) (s : RecipeState) :
  tavily_enabled cfg = false ->
  exists s',
    result (invoke W cfg (create_workflow_graph cfg) s) = Returns s'
    /\ fst (execute_workflow W cfg s) = s'
    /\ error_message s' = error_message s
    /\ cooking_tips s' = cooking_tips s
    /\ online_search_results s' = online_search_results s
    /\ selected_recipe s' = final_recipe s'.
Proof.
  intros Hen. unfold execute_workflow.
  rewrite (invoke_simple W cfg s Hen).
  destruct (combined_node_cases W s) as (r & n & sh & Hc & _).
  rewrite Hc. unfold result, trace, bind, ret. cbn [fst snd].
  match goal with
  | |- context [instruction_completion_node W ?x] =>
      destruct (auditor_events x)
        as (s2 & ti & Hi & _ & _ & Htips & Herr & Hres & Hsame)
  end.
  rewrite Hi. cbn [fst snd]. exists s2.
  split; [reflexivity|]. split; [reflexivity|].
  split; [exact Herr|]. split; [exact Htips|]. split; [exact Hres|].
  apply Hsame. reflexivity.
Qed.

Lemma compile_fallback_raises (s : RecipeState) (i : string)
    (rest : list pyval) :
  parsed_ingredients s = PStr i :: rest ->
  exists e, compile_fallback W s = Raises e.
Proof.
  intros Hp. unfold compile_fallback. rewrite Hp.
  destruct (selected_recipe s); cbn; eexists; reflexivity.
Qed.

Lemma compiler_fails_on_strings (s : RecipeState) (i : string)
    (rest : list pyval) :
  (exists e,
      llm_compile W (selected_recipe s) (parsed_ingredients s)
        (nutrition_info s) (cooking_tips s) (appliance_line s) = Raises e) ->
  parsed_ingredients s = PStr i :: rest ->
  exists e, result (final_recipe_compiler_node W s) = Raises e.
Proof.
  intros (e & Hllm) Hp.
  destruct (compile_fallback_raises s i rest Hp) as (e' & Hfb).
  unfold final_recipe_compiler_node. exec_unfold.
  set (s1 := set_processing_step "final_recipe_compilation" s).
  change (llm_compile W (selected_recipe s1) (parsed_ingredients s1)
            (nutrition_info s1) (cooking_tips s1) (appliance_line s1))
    with (llm_compile W (selected_recipe s) (parsed_ingredients s)
            (nutrition_info s) (cooking_tips s) (appliance_line s)).
  change (compile_fallback W s1) with (compile_fallback W s).
  rewrite Hllm. cbn [fst snd app]. rewrite Hfb. now exists e'.
Qed.

(** X17.  With a search key, a failure of the compilation call fails the
    whole run as soon as the request has one ingredient that is not blank:
    the recipe that the compiler would build itself reads a name from each
    parsed ingredient, and the parsed ingredients are strings.  The caller
    gets its initial state back with the message; the draft is lost and the
    audit is not run. *)
Theorem failed_compilation_fails_the_run (cfg : Config) (s : RecipeState) :
  tavily_enabled cfg = true ->
  RecipeService.parse_ingredients (ingredients s) <> [] ->
  (forall selected parsed nutrition tips line,
      exists e, llm_compile W selected parsed nutrition tips line = Raises e) ->
  exists e,
    fst (execute_workflow W cfg s)
    = set_error_message
        ("Workflow failed: Error in enhanced cooking tips: " +++ e) s
    /\ ~ In St_instruction_completion
         (stages_of (snd (execute_workflow W cfg s))).
Proof.
  intros Hen Hing Hllm.
  destruct (combined_node_cases W s) as (r & n & sh & Hc & _).
  unfold execute_workflow. rewrite (invoke_enhanced W cfg s Hen), Hc.
  match type of Hc with
  | _ = (Returns ?x, _) => set (s1 := x) in *
  end.
  destruct (enhanced_node_events cfg s1)
    as (sa & qs & te & _ & _ & _ & Hte & Hp & He).
  rewrite Hen in He.
  assert (Hparsed : exists i rest, parsed_ingredients sa = PStr i :: rest).
  { rewrite Hp. subst s1.
    cbn [parsed_ingredients set_final_recipe set_shopping_list
         set_nutrition_info set_selected_recipe set_parsed_ingredients].
    destruct (RecipeService.parse_ingredients (ingredients s)) as [|i l];
      [congruence|].
    now exists i, (map PStr l). }
  destruct Hparsed as (i & rest & Hparsed).
  destruct (compiler_fails_on_strings sa i rest (Hllm _ _ _ _ _) Hparsed)
    as (e & Hfail).
  unfold result, trace, bind, ret in *. cbn [fst snd].
  rewrite He, Hfail. cbn [fst snd].
  exists e. split; [reflexivity|].
  cbn [app stages_of]. rewrite !stages_of_app, stages_of_queries.
  destruct Hte as [-> | [-> | ->]]; cbn; intuition discriminate.
Qed.

End Runs.

(** ** The application: validation, credentials and history *)

Section Application.

Import RecipeAIApp.

Lemma unsupported_nil (table l : list string) :
  unsupported table l = [] <-> Forall (fun x => In x table) l.
Proof.
  unfold unsupported. induction l as [|a l IH]; cbn [filter].
  - split; [constructor | reflexivity].
  - destruct (mem a table) eqn:E; cbn [negb].
    + rewrite IH. apply mem_In in E. split.
      * now constructor.
      * intros H. now inversion H.
    + split; [discriminate|]. intros H. inversion H as [|? ? Ha _].
      apply mem_In in Ha. congruence.
Qed.

Lemma no_message_iff (l m : list string) :
  l ++ m = [] <-> l = [] /\ m = [].
Proof.
  destruct l; cbn; split; try tauto; try discriminate.
  intros [H _]. discriminate H.
Qed.

Lemma all_supported (table l : list string) :
  forallb (fun r => mem r table) l = true
  <-> Forall (fun x => In x table) l.
Proof.
  rewrite forallb_forall, Forall_forall.
  split; intros H x Hx; apply mem_In; auto.
Qed.

Lemma validation_errors_nil (key : option string)
    (form_ingredients : list string) (p : Preferences) :
  validation_errors key form_ingredients p = []
  <-> acceptable key form_ingredients p.
Proof.
  unfold validation_errors, acceptable.
  rewrite !no_message_iff.
  assert (Hkey :
    (if key_ok key then []
     else ["Please provide a valid OpenAI API key (starts with 'sk-')."])
    = [] <-> key_ok key = true).
  { destruct (key_ok key); split; congruence. }
  assert (Hing :
    match form_ingredients with
    | [] => ["Please select at least one ingredient."]
    | _ :: _ =>
        if (50 <? List.length form_ingredients)%nat
        then ["Too many ingredients selected (maximum 50)."]
        else []
    end = [] <-> (1 <= List.length form_ingredients <= 50)%nat).
  { destruct form_ingredients as [|i l]; [cbn; split; [discriminate | lia]|].
    destruct (Nat.ltb_spec 50 (List.length (i :: l))).
    - split; [discriminate | lia].
    - split; [cbn [List.length] in *; lia | reflexivity]. }
  assert (Happ :
    match pref_appliances p with
    | [] => ["Please select at least one cooking appliance."]
    | _ :: _ =>
        map (fun a => "Invalid appliance: " +++ a)
          (unsupported AppConfig.SUPPORTED_APPLIANCES (pref_appliances p))
    end = []
    <-> pref_appliances p <> []
        /\ Forall (fun a => In a AppConfig.SUPPORTED_APPLIANCES)
             (pref_appliances p)).
  { rewrite <- unsupported_nil.
    destruct (pref_appliances p) as [|a l].
    - split; [discriminate | intros [H _]; congruence].
    - split.
      + intros H. split; [discriminate|].
        now apply map_eq_nil in H.
      + intros [_ H]. now rewrite H. }
  assert (Hskill :
    (if mem (pref_skill_level p) AppConfig.SUPPORTED_SKILL_LEVELS then []
     else [ "Invalid skill level. Must be one of: "
            +++ PyStr.join ", " AppConfig.SUPPORTED_SKILL_LEVELS ])
    = [] <-> In (pref_skill_level p) AppConfig.SUPPORTED_SKILL_LEVELS).
  { rewrite <- mem_In.
    destruct (mem (pref_skill_level p) AppConfig.SUPPORTED_SKILL_LEVELS);
      split; congruence. }
  assert (Hdiet :
    match pref_dietary_restrictions p with
    | [] => []
    | _ :: _ =>
        if forallb (fun r => mem r AppConfig.SUPPORTED_DIETARY_RESTRICTIONS)
             (pref_dietary_restrictions p)
        then []
        else [ "Invalid dietary restrictions: "
               +++ PyStr.join ", "
                     (unsupported AppConfig.SUPPORTED_DIETARY_RESTRICTIONS
                        (pref_dietary_restrictions p)) ]
    end = []
    <-> Forall (fun r => In r AppConfig.SUPPORTED_DIETARY_RESTRICTIONS)
          (pref_dietary_restrictions p)).
  { rewrite <- all_supported.
    destruct (pref_dietary_restrictions p) as [|r l];
      [split; reflexivity|].
    destruct (forallb _ _); split; congruence. }
  assert (Hcuisine :
    (if PyStr.nonempty (pref_cuisine_preference p)
        && negb (mem (pref_cuisine_preference p) AppConfig.SUPPORTED_CUISINES)
     then [ "Invalid cuisine preference: " +++ pref_cuisine_preference p ]
     else [])
    = []
    <-> pref_cuisine_preference p = EmptyString
        \/ In (pref_cuisine_preference p) AppConfig.SUPPORTED_CUISINES).
  { rewrite <- mem_In.
    destruct (pref_cuisine_preference p) as [|c r]; cbn [PyStr.nonempty andb].
    - split; [now left | reflexivity].
    - destruct (mem (String c r) AppConfig.SUPPORTED_CUISINES); cbn [negb].
      + split; [now right | reflexivity].
      + split; [discriminate | intros [H|H]; discriminate H]. }
  rewrite Hkey, Hing, Happ, Hskill, Hdiet, Hcuisine. tauto.
Qed.

(** X18.  A request reaches the workflow exactly when a key starting with
    "sk-" is stored, between 1 and 50 ingredients are given, at least one
    appliance is given, and the appliances, the skill level, the dietary
    restrictions and a non-empty cuisine are in the supported tables; the
    state handed over is then the initial state built from the form. *)
Theorem a_request_is_run_exactly_when_it_is_supported
    (key : option string) (form_ingredients : list string)
    (p : Preferences) :
  ((exists s, prepare_request key form_ingredients p = inr s)
   <-> acceptable key form_ingredients p)
  /\ (forall s,
        prepare_request key form_ingredients p = inr s ->
        s = App.initial_state form_ingredients (pref_appliances p)
              (pref_dietary_restrictions p) (pref_cuisine_preference p)
              (pref_skill_level p))
  /\ (forall errors,
        prepare_request key form_ingredients p = inl errors ->
        errors = validation_errors key form_ingredients p /\ errors <> []).
Proof.
  rewrite <- validation_errors_nil. unfold prepare_request.
  destruct (validation_errors key form_ingredients p) as [|e l].
  - split; [split; [reflexivity | intros _; eexists; reflexivity]|].
    split; [intros s H; now injection H as <-|]. intros errors H.
    discriminate H.
  - split; [split; [intros [s H]; discriminate H | discriminate]|].
    split; [intros s H; discriminate H|]. intros errors H.
    injection H as <-. split; [reflexivity | discriminate].
Qed.

(** X19.  Whatever the user picks in the preference widgets is supported:
    with a stored key, between 1 and 50 ingredients and at least one
    appliance picked, a form filled from the choices offered always reaches
    the workflow. *)
Theorem every_choice_of_the_form_is_supported
    (key : option string) (form_ingredients : list string)
    (p : Preferences) :
  key_ok key = true ->
  (1 <= List.length form_ingredients <= 50)%nat ->
  pref_appliances p <> [] ->
  incl (pref_appliances p) appliance_choices ->
  In (pref_skill_level p) skill_choices ->
  incl (pref_dietary_restrictions p) dietary_choices ->
  In (pref_cuisine_preference p) cuisine_choices ->
  prepare_request key form_ingredients p
  = inr (App.initial_state form_ingredients (pref_appliances p)
           (pref_dietary_restrictions p) (pref_cuisine_preference p)
           (pref_skill_level p)).
Proof.
  intros Hkey Hing Hne Happ Hskill Hdiet Hcuisine.
  assert (H : validation_errors key form_ingredients p = []).
  { apply validation_errors_nil. unfold acceptable.
    split; [exact Hkey|]. split; [exact Hing|]. split; [exact Hne|].
    split.
    { apply Forall_forall. intros a Ha. apply Happ in Ha.
      apply mem_In. unfold appliance_choices in Ha. cbn [In] in Ha.
      repeat (destruct Ha as [<- | Ha]; [reflexivity|]). contradiction. }
    split.
    { apply mem_In. unfold skill_choices in Hskill. cbn [In] in Hskill.
      repeat (destruct Hskill as [<- | Hskill]; [reflexivity|]).
      contradiction. }
    split.
    { apply Forall_forall. intros r Hr. apply Hdiet in Hr.
      apply mem_In. unfold dietary_choices in Hr. cbn [In] in Hr.
      repeat (destruct Hr as [<- | Hr]; [reflexivity|]). contradiction. }
    right. apply mem_In. unfold cuisine_choices in Hcuisine.
    cbn [In] in Hcuisine.
    repeat (destruct Hcuisine as [<- | Hcuisine]; [reflexivity|]).
    contradiction. }
  unfold prepare_request. now rewrite H.
Qed.

Lemma render_api_configuration_valid (keys : ApiKeys)
    (action : key_action) :
  stored_keys_valid keys ->
  stored_keys_valid (render_api_configuration keys action).
Proof.
  intros [Ho Ht]. destruct action as [input|input|];
    cbn [render_api_configuration].
  - destruct (PyStr.nonempty input && String.prefix "sk-" input) eqn:E;
      [|now split].
    split; [exact E | exact Ht].
  - destruct (PyStr.nonempty input && (10 <? PyStr.char_count input)%nat)
      eqn:E; [|now split].
    split; [exact Ho|]. cbn. now apply andb_true_iff in E.
  - now split.
Qed.

Lemma session_keys_valid (actions : list key_action) :
  forall keys,
    stored_keys_valid keys ->
    stored_keys_valid (fold_left render_api_configuration actions keys).
Proof.
  induction actions as [|a l IH]; intros keys H; [exact H|].
  cbn [fold_left]. apply IH. now apply render_api_configuration_valid.
Qed.

(** X20.  Whatever is typed in the sidebar, and in whatever order, a
    search key that is stored is never empty, so that a workflow with the
    search steps always has a search client; and the key check of the
    validation fails only when no model key is stored. *)
Theorem the_sidebar_stores_only_usable_keys (actions : list key_action) :
  let keys := fold_left render_api_configuration actions initial_keys in
  tavily_enabled (workflow_config keys) = tavily_client (workflow_config keys)
  /\ (key_ok (session_openai_api_key keys) = true
      <-> session_openai_api_key keys <> None).
Proof.
  intros keys.
  assert (H : stored_keys_valid keys).
  { apply session_keys_valid. now split. }
  destruct H as [Ho Ht].
  unfold tavily_enabled, tavily_client, workflow_config.
  cbn [tavily_api_key]. split.
  - destruct (session_tavily_api_key keys); [now rewrite Ht | reflexivity].
  - destruct (session_openai_api_key keys).
    + split; [discriminate | intros _; exact Ho].
    + split; [discriminate | congruence].
Qed.

(** X21.  The recipe history never grows beyond 10 entries: the recipe of
    a run without error message is appended as the newest entry, and only
    the oldest entry is dropped to make room; a run that ends with an error
    message leaves the history alone. *)
Theorem the_history_keeps_the_last_ten
    (recipe_history : list pyval) (result : RecipeState) :
  (List.length recipe_history <= 10)%nat ->
  (List.length (record_result recipe_history result) <= 10)%nat
  /\ (error_message result = EmptyString ->
      exists dropped,
        dropped ++ record_result recipe_history result
        = recipe_history ++ [final_recipe result]
        /\ (List.length dropped <= 1)%nat
        /\ (dropped <> [] -> List.length recipe_history = 10%nat)
        /\ last (record_result recipe_history result) PNone
           = final_recipe result)
  /\ (error_message result <> EmptyString ->
      record_result recipe_history result = recipe_history).
Proof.
  intros Hlen. unfold record_result.
  destruct (error_message result) as [|c r]; cbn [PyStr.nonempty].
  - cbv zeta. rewrite length_app. cbn [List.length].
    destruct (Nat.ltb_spec 10 (List.length recipe_history + 1)) as [Hgt|Hle].
    + destruct recipe_history as [|old rest]; [cbn in Hgt; lia|].
      cbn [app tl List.length] in *.
      split; [rewrite length_app; cbn; lia|]. split; [|congruence].
      intros _. exists [old]. split; [reflexivity|].
      split; [cbn; lia|]. split; [lia|]. apply last_last.
    + split; [rewrite length_app; cbn; lia|]. split; [|congruence].
      intros _. exists []. split; [reflexivity|]. split; [cbn; lia|].
      split; [congruence|]. apply last_last.
  - split; [exact Hlen|]. split; [discriminate | reflexivity].
Qed.

End Application.

(** ** The display of the ingredients *)

Section Display.

Lemma remove_absent (old s : string) :
  PyStr.contains old s = false -> RecipeUI.remove_from old s 0 = s.
Proof.
  induction s as [|c r IH]; [reflexivity|].
  cbn [PyStr.contains RecipeUI.remove_from]. intros H.
  apply orb_false_iff in H. destruct H as [Hp Hc].
  rewrite Hp. f_equal. now apply IH.
Qed.

Lemma prefix_append (s t : string) : String.prefix s (s +++ t) = true.
Proof.
  induction s as [|c s IH]; [now destruct t|].
  cbn [String.append String.prefix].
  destruct (ascii_dec c c); [exact IH | congruence].
Qed.

Lemma remove_skips (old x t : string) :
  RecipeUI.remove_from old (x +++ t) (String.length x)
  = RecipeUI.remove_from old t 0.
Proof.
  induction x as [|c x IH]; [now destruct t|].
  cbn [String.append String.length RecipeUI.remove_from]. exact IH.
Qed.

(** A leading occurrence is removed whole. *)
Lemma remove_leading (c : ascii) (x t : string) :
  RecipeUI.remove (String c x) (String c x +++ t)
  = RecipeUI.remove (String c x) t.
Proof.
  unfold RecipeUI.remove.
  change (RecipeUI.remove_from (String c x) (String c x +++ t) 0)
    with (if String.prefix (String c x) (String c x +++ t)
          then RecipeUI.remove_from (String c x) (x +++ t)
                 (String.length (String c x) - 1)
          else String c (RecipeUI.remove_from (String c x) (x +++ t) 0)).
  rewrite prefix_append. cbn [String.length Nat.sub].
  rewrite Nat.sub_0_r. apply remove_skips.
Qed.

Lemma clean_bulleted (i : string) :
  PyStr.contains RecipeService.bullet i = false ->
  RecipeUI.clean_ingredient (RecipeService.bullet +++ i) = PyStr.strip i.
Proof.
  intros H. unfold RecipeUI.clean_ingredient. f_equal.
  unfold RecipeService.bullet in *. rewrite remove_leading.
  now apply remove_absent.
Qed.

Lemma clean_rows_bulleted (l : list string) :
  Forall (fun i => PyStr.contains RecipeService.bullet i = false) l ->
  RecipeUI.clean_rows (map PStr (map (fun i => RecipeService.bullet +++ i) l))
  = Returns (map PyStr.strip l).
Proof.
  induction 1 as [|i l Hi _ IH]; [reflexivity|].
  cbn [map RecipeUI.clean_rows]. rewrite IH. cbn [obind].
  now rewrite clean_bulleted.
Qed.

(** X22.  The bullet that the fallback recipe puts before each ingredient
    is the bullet that the display takes away: for ingredients that hold no
    bullet themselves, the table shown for the fallback draft lists the
    ingredients of the request, trimmed, in their order; the ingredients
    that the application puts in a request are trimmed already. *)
Theorem the_fallback_draft_shows_the_ingredients_of_the_request
    (s : RecipeState) :
  ingredients s <> [] ->
  Forall (fun i => PyStr.contains RecipeService.bullet i = false)
    (ingredients s) ->
  RecipeUI.display_ingredients_list (final_recipe (fallback_draft s))
  = Returns (RecipeUI.IngredientRows (map PyStr.strip (ingredients s)))
  /\ forall form_ingredients appliances dietary cuisine skill,
       s = App.initial_state form_ingredients appliances dietary cuisine
             skill ->
       map PyStr.strip (ingredients s) = ingredients s.
Proof.
  intros Hne Hall. split.
  - unfold RecipeUI.display_ingredients_list.
    change (final_recipe (fallback_draft s))
      with (PDict (RecipeService.fallback_recipe (ingredients s)
                     (appliance s))).
    cbn [Py.truthy RecipeService.fallback_recipe negb].
    change (Py.contains "ingredients"
              (PDict (RecipeService.fallback_recipe (ingredients s)
                        (appliance s))))
      with (@Returns bool true).
    cbn [obind negb].
    change (Py.getitem
              (PDict (RecipeService.fallback_recipe (ingredients s)
                        (appliance s))) "ingredients")
      with (Returns (Py.of_strings
                       (map (fun i => RecipeService.bullet +++ i)
                          (ingredients s)))).
    cbn [obind]. unfold Py.of_strings.
    pose proof (clean_rows_bulleted (ingredients s) Hall) as Hrows.
    destruct (ingredients s) as [|i l]; [congruence|].
    cbn [map] in *. now rewrite Hrows.
  - intros form_ingredients appliances dietary cuisine skill ->.
    rewrite initial_state_ingredients.
    pose proof (parse_ingredients_entries form_ingredients) as H.
    induction H as [|i l [_ Hi] _ IH]; [reflexivity|].
    cbn [map]. now rewrite Hi, IH.
Qed.

End Display.

(** ** The further properties on the sample inputs *)

Section OnScenarios.

Import Samples Scenarios.

(** The reply with the three sections is kept. *)
Lemma draft_keeps_the_sample_reply :
  usable_reply list_appliance_world request list_appliance_reply
  /\ result (combined_recipe_generation_node list_appliance_world request)
     = Returns (draft_from list_appliance_recipe
                  (PDict [("calories_per_serving", PInt 350)]) (PList [])
                  request).
Proof.
  assert (H : usable_reply list_appliance_world request list_appliance_reply).
  { exists "combined". split; reflexivity. }
  split; [exact H|].
  rewrite (draft_keeps_a_reply_only_with_its_three_sections
             list_appliance_world request list_appliance_reply H).
  reflexivity.
Defined.

(** Three steps of more than 30 characters each are left alone. *)
Lemma auditor_accepts_the_long_steps :
  final_recipe drafted_long
  = PDict [ ("name", PStr "Chicken and rice");
            ("ingredients", Py.of_strings ["chicken"; "rice"]);
            ("instructions", Py.of_strings long_steps) ]
  /\ instruction_completion_node offline drafted_long
     = (Returns (set_processing_step "instruction_completion_complete"
                   drafted_long),
        [EvStage St_instruction_completion]).
Proof.
  split; [reflexivity|].
  apply (proj1 (auditor_decides_on_whole_characters offline drafted_long
                  [ ("name", PStr "Chicken and rice");
                    ("ingredients", Py.of_strings ["chicken"; "rice"]);
                    ("instructions", Py.of_strings long_steps) ]
                  long_steps eq_refl ltac:(discriminate) eq_refl)).
  - cbn. lia.
  - unfold long_steps.
    repeat (apply Forall_cons; [apply Nat.leb_le; reflexivity|]).
    apply Forall_nil.
Defined.

(** The sample request with every provider down and no search key. *)
Lemma offline_run_returns_the_fallback_draft :
  tavily_enabled no_search_key = false
  /\ calls_of (snd (execute_workflow offline no_search_key request))
     = [Call_combined]
  /\ final_recipe (fst (execute_workflow offline no_search_key request))
     = final_recipe (fallback_draft request).
Proof.
  split; [reflexivity|].
  destruct (fallback_draft_needs_no_correction offline no_search_key request
              "GenerationFailure" eq_refl eq_refl) as (_ & ->).
  split; reflexivity.
Defined.

(** Tips [A; B] stay in front of what the list [B; C; D] adds. *)
Lemma merge_keeps_the_sample_tips_in_front :
  NoDup ["A"; "B"]
  /\ exists more,
       merge_tips ["A"; "B"] [PStr "B"; PStr "C"; PStr "D"]
       = ["A"; "B"] ++ more.
Proof.
  assert (Hnd : NoDup ["A"; "B"]).
  { constructor; [cbn; intuition discriminate|].
    constructor; [cbn; tauto | constructor]. }
  split; [exact Hnd|].
  destruct (merge_keeps_the_existing_tips_in_front ["A"; "B"]
              [PStr "B"; PStr "C"; PStr "D"] Hnd) as (more & H & _).
  - cbn. lia.
  - exists more. exact H.
Defined.

(** Without a search key the sample run completes with no tips. *)
Lemma sample_run_without_key_completes :
  tavily_enabled no_search_key = false
  /\ exists s',
       fst (execute_workflow offline no_search_key request) = s'
       /\ error_message s' = EmptyString
       /\ cooking_tips s' = [].
Proof.
  split; [reflexivity|].
  destruct (simple_workflow_always_completes offline no_search_key request
              eq_refl) as (s' & _ & Hfst & Herr & Htips & _).
  exists s'. split; [exact Hfst|]. split; [exact Herr | exact Htips].
Defined.

(** With a search key and every provider down the sample run fails. *)
Lemma sample_run_with_key_fails :
  tavily_enabled with_search_key = true
  /\ RecipeService.parse_ingredients (ingredients request) <> []
  /\ exists e,
       fst (execute_workflow offline with_search_key request)
       = set_error_message
           ("Workflow failed: Error in enhanced cooking tips: " +++ e)
           request.
Proof.
  assert (Hing : RecipeService.parse_ingredients (ingredients request) <> []).
  { vm_compute. discriminate. }
  split; [reflexivity|]. split; [exact Hing|].
  destruct (failed_compilation_fails_the_run offline with_search_key request
              eq_refl Hing) as (e & H & _).
  - intros. eexists. reflexivity.
  - exists e. exact H.
Defined.

(** The form as first shown, with a stored key and three ingredients. *)
Lemma default_form_reaches_the_workflow :
  RecipeAIApp.key_ok stored_key = true
  /\ RecipeAIApp.prepare_request stored_key picked_ingredients
       default_preferences
     = inr request.
Proof.
  split; [reflexivity|].
  rewrite (every_choice_of_the_form_is_supported stored_key
             picked_ingredients default_preferences).
  - reflexivity.
  - reflexivity.
  - cbn. lia.
  - discriminate.
  - intros a Ha. cbn in Ha. cbn [RecipeAIApp.appliance_choices In].
    intuition.
  - cbn. tauto.
  - intros r Hr. destruct Hr.
  - cbn. tauto.
Defined.

(** The first recipe enters an empty history. *)
Lemma first_recipe_enters_the_history :
  (List.length (@nil pyval) <= 10)%nat
  /\ last (RecipeAIApp.record_result [] drafted_long) PNone
     = final_recipe drafted_long.
Proof.
  assert (Hlen : (List.length (@nil pyval) <= 10)%nat) by (cbn; lia).
  split; [exact Hlen|].
  destruct (the_history_keeps_the_last_ten [] drafted_long Hlen)
    as (_ & H & _).
  destruct (H eq_refl) as (dropped & _ & _ & _ & Hlast). exact Hlast.
Defined.

(** The fallback draft of the sample request shows its three
    ingredients. *)
Lemma sample_fallback_draft_shows_its_ingredients :
  ingredients request <> []
  /\ RecipeUI.display_ingredients_list (final_recipe (fallback_draft request))
     = Returns (RecipeUI.IngredientRows ["chicken"; "rice"; "broccoli"]).
Proof.
  assert (Hne : ingredients request <> []) by (vm_compute; discriminate).
  split; [exact Hne|].
  destruct (the_fallback_draft_shows_the_ingredients_of_the_request request
              Hne) as (H & _).
  - change (ingredients request) with ["chicken"; "rice"; "broccoli"].
    repeat (apply Forall_cons; [reflexivity|]). apply Forall_nil.
  - rewrite H. reflexivity.
Defined.

End OnScenarios.
